(** * Oracle's Elixir cleaning pipeline: opponent pairing and table stages

    A shallow embedding of [src/oracles_elixir.py] (class [OraclesElixir])
    and of the flattening step of [src/data_generator.py], with the
    properties of the cleaning pipeline proved over it. *)

From Stdlib Require Import ZArith QArith Qcanon Lia.
From stdpp Require Import gmap strings list fin_maps sorting.

Local Open Scope Z_scope.

(** ** Python exceptions and fallible results *)

(** The exceptions the modelled code can raise.  The two [ValueError]s of
    [get_opponent] and the one of [subset_data] are kept apart by their
    message. *)
Inductive exn : Type :=
  | ValueError_entity                 (* "Entity must be either player or team." *)
  | ValueError_out_of_bounds (i : Z)  (* f"Index {i} - Out Of Bounds" *)
  | ValueError_split                  (* "Must split on either player or team." *)
  | ValueError_length                 (* column assignment of the wrong length *)
  | IndexError                        (* list index out of range *)
  | KeyError (column : string)        (* no such column *)
  | AttributeError (attr : string)    (* no such attribute *)
  | TypeError                         (* comparison between str and int *)
  | ParserError.                      (* pd.to_datetime on a malformed date *)

Inductive result (A : Type) : Type :=
  | Ok (a : A)
  | Raise (e : exn).
Arguments Ok {A} a.
Arguments Raise {A} e.

#[global] Instance exn_eq_dec : EqDecision exn.
Proof. solve_decision. Defined.
#[global] Instance result_eq_dec {A : Type} `{EqDecision A} : EqDecision (result A).
Proof. solve_decision. Defined.

#[global] Instance result_ret : MRet result := @Ok.
#[global] Instance result_bind : MBind result := λ A B f m,
  match m with
  | Ok a => f a
  | Raise e => Raise e
  end.
#[global] Instance result_fmap : FMap result := λ A B f m,
  match m with
  | Ok a => Ok (f a)
  | Raise e => Raise e
  end.

(** [for x in xs: ys.append(f(x))], stopping at the first exception. *)
Fixpoint traverse {A B : Type} (f : A → result B) (xs : list A) : result (list B) :=
  match xs with
  | [] => Ok []
  | x :: xs' => y ← f x; ys ← traverse f xs'; Ok (y :: ys)
  end.

(** ** Python lists *)

(** [l[i]] on a Python list: a negative index counts from the end, anything
    outside [-len, len) raises [IndexError]. *)
Definition list_getitem {A : Type} (l : list A) (i : Z) : result A :=
  let n := Z.of_nat (length l) in
  let j := if i <? 0 then n + i else i in
  if (j <? 0) || (n <=? j) then Raise IndexError
  else match l !! Z.to_nat j with
       | Some x => Ok x
       | None => Raise IndexError
       end.

(** ** [OraclesElixir.get_opponent] *)

Section GetOpponent.
Context {A : Type}.

(** The two locals the loop updates. *)
Record loop_state : Type := LoopState { flag : Z; opponent : list A }.

(** The [if entity == "player" ... elif ... else raise] prologue. *)
Definition entity_gap (entity : string) : result Z :=
  if String.eqb entity "player" then Ok 5
  else if String.eqb entity "team" then Ok 1
  else Raise ValueError_entity.

(** One iteration of [for i, obj in enumerate(column)]. *)
Definition loop_body (gap : Z) (column : list A) (i : Z) (st : loop_state)
  : result loop_state :=
  st1 ← (if flag st <? gap then
           x ← list_getitem column (i + gap);
           Ok (LoopState (flag st + 1) (opponent st ++ [x]))
         else if (gap <=? flag st) && (flag st <? gap * 2) then
           x ← list_getitem column (i - gap);
           Ok (LoopState (flag st + 1) (opponent st ++ [x]))
         else Raise (ValueError_out_of_bounds i));
  Ok (if gap * 2 <=? flag st1 then LoopState 0 (opponent st1) else st1).

(** The loop over the elements still to be enumerated, [i] being the index
    of the first of them. *)
Fixpoint for_enumerate (gap : Z) (column rest : list A) (i : Z) (st : loop_state)
  : result loop_state :=
  match rest with
  | [] => Ok st
  | _ :: rest' => st' ← loop_body gap column i st; for_enumerate gap column rest' (i + 1) st'
  end.

(** [column] is the Python list its callers pass ([....to_list()]), so
    [column[i + gap]] and [column[i - gap]] are list lookups. *)
Definition get_opponent (column : list A) (entity : string) : result (list A) :=
  gap ← entity_gap entity;
  st ← for_enumerate gap column column 0 (LoopState 0 []);
  Ok (opponent st).

(** The loop states the walk passes through: position, elements left,
    locals at the start of the iteration. *)
Inductive reaches (gap : Z) (column : list A) : Z → list A → loop_state → Prop :=
  | reaches_start : reaches gap column 0 column (LoopState 0 [])
  | reaches_next i obj rest st st' :
      reaches gap column i (obj :: rest) st →
      loop_body gap column i st = Ok st' →
      reaches gap column (i + 1) rest st'.

(** The index iteration [i] reads: [gap] ahead in the first half of a
    window of [2 * gap], [gap] behind in the second half. *)
Definition opponent_index (gap i : Z) : Z :=
  if i `mod` (2 * gap) <? gap then i + gap else i - gap.

End GetOpponent.
Arguments loop_state A : clear implicits.

(** ** Tables *)

(** A cell of a pandas column.  [NaN] is the null marker ([np.nan], [NaT],
    [None]); finite floats are kept as rationals, timestamps as a number of
    nanoseconds. *)
Inductive cell : Type :=
  | NaN
  | Str (s : string)
  | Num (q : Qc)
  | Date (t : Z).

#[global] Instance cell_eq_dec : EqDecision cell.
Proof. solve_decision. Defined.
#[global] Instance cell_inhabited : Inhabited cell := populate NaN.

(** A row maps column names to cells; a frame is its column index and its
    rows in order. *)
Abbreviation row := (gmap string cell).

Record DataFrame : Type := mkDataFrame {
  columns : list string;
  rows : list row
}.

Definition row_get (c : string) (r : row) : cell := default NaN (r !! c).

(** [df[c]]: the column as a list, or [KeyError]. *)
Definition getitem (df : DataFrame) (c : string) : result (list cell) :=
  if decide (c ∈ columns df) then Ok (row_get c <$> rows df)
  else Raise (KeyError c).

(** [df[[c1, ..., cn]]]: projection on the listed columns, or [KeyError] at
    the first missing one. *)
Definition row_restrict (cs : list string) (r : row) : row :=
  filter (λ kv, kv.1 ∈ cs) r.
Definition getitem_list (df : DataFrame) (cs : list string) : result DataFrame :=
  match list_find (λ c, c ∉ columns df) cs with
  | Some (_, c) => Raise (KeyError c)
  | None => Ok (mkDataFrame cs (row_restrict cs <$> rows df))
  end.

(** [df[c] = values]: replaces the column or appends a new one; the list
    must have one value per row. *)
Definition setitem (df : DataFrame) (c : string) (values : list cell) : result DataFrame :=
  if decide (length values = length (rows df)) then
    Ok (mkDataFrame
          (if decide (c ∈ columns df) then columns df else columns df ++ [c])
          (zip_with (λ r v, <[c := v]> r) (rows df) values))
  else Raise ValueError_length.

(** [l[mask]] with a boolean mask. *)
Fixpoint select {X : Type} (mask : list bool) (l : list X) : list X :=
  match mask, l with
  | b :: mask', x :: l' => if b then x :: select mask' l' else select mask' l'
  | _, _ => []
  end.

(** [df[mask]]: boolean indexing keeps the rows whose mask entry is true. *)
Definition boolean_index (df : DataFrame) (mask : list bool) : DataFrame :=
  mkDataFrame (columns df) (select mask (rows df)).

(** Element-wise column predicates and operators. *)
Definition notna (c : cell) : bool := if c is NaN then false else true.
Definition isin (col : list cell) (values : list cell) : list bool :=
  (λ c, bool_decide (c ∈ values)) <$> col.
Definition mask_and : list bool → list bool → list bool := zip_with andb.
Definition mask_not (m : list bool) : list bool := negb <$> m.

(** [col >= 0]: comparing a string or a timestamp with an int raises. *)
Definition ge_zero (c : cell) : result bool :=
  match c with
  | NaN => Ok false
  | Num q => Ok (bool_decide (Qc_of_Z 0 ≤ q)%Qc)
  | Str _ | Date _ => Raise TypeError
  end.

(** [a.fillna(b)] for two columns of one frame. *)
Definition fillna (a b : list cell) : list cell :=
  zip_with (λ x y, if x is NaN then y else x) a b.

(** [col.value_counts()]: each distinct non-null value with its number of
    occurrences (only membership and counts are used below). *)
Definition count_of (v : cell) (col : list cell) : nat :=
  length (filter (λ x, x = v) col).
Definition value_counts (col : list cell) : list (cell * nat) :=
  (λ v, (v, count_of v col)) <$> remove_dups (filter (λ x, x ≠ NaN) col).

(** ** The object state: [self.oe_data] *)

(** A method reads and writes [self.oe_data] and returns a value or raises;
    on an exception the state is the one reached when it was raised. *)
Definition M (X : Type) : Type := DataFrame → DataFrame * result X.

#[global] Instance M_ret : MRet M := λ X x s, (s, Ok x).
#[global] Instance M_bind : MBind M := λ X Y f m s,
  match m s with
  | (s', Ok x) => f x s'
  | (s', Raise e) => (s', Raise e)
  end.

Definition get_oe_data : M DataFrame := λ s, (s, Ok s).
Definition set_oe_data (df : DataFrame) : M unit := λ _, (df, Ok tt).
Definition lift {X : Type} (r : result X) : M X := λ s, (s, r).

(** [self.oe_data[c]] and [self.oe_data[c] = values]. *)
Definition oe_getitem (c : string) : M (list cell) :=
  df ← get_oe_data; lift (getitem df c).
Definition oe_setitem (c : string) (values : list cell) : M unit :=
  df ← get_oe_data; df' ← lift (setitem df c values); set_oe_data df'.

(** ** [OraclesElixir]: type and identity normalization *)

Section FormatDataTypes.
(** The date parser behind [pd.to_datetime]: the timestamp of a well-formed
    date string, nothing for a malformed one. *)
Variable parse_datetime : string → option Z.

Definition to_datetime (col : list cell) : result (list cell) :=
  traverse (λ c, match c with
                 | NaN => Ok NaN
                 | Date t => Ok (Date t)
                 | Num q => Ok (Date (Qnum q ÷ Zpos (Qden q)))
                 | Str s => match parse_datetime s with
                            | Some t => Ok (Date t)
                            | None => Raise ParserError
                            end
                 end) col.

(** [df.name] on a frame: pandas resolves an attribute that is not one of
    the frame's own as a column label, and raises [AttributeError]
    otherwise.  The [.str] accessor belongs to Series, not to frames. *)
Definition DataFrame_getattr (df : DataFrame) (name : string) : result (list cell) :=
  if decide (name ∈ columns df) then getitem df name
  else Raise (AttributeError name).

(** [col.strip()] on a Series: there is no such method. *)
Definition Series_strip (col : list cell) : result DataFrame :=
  Raise (AttributeError "strip").

(** [df[[c1, ..., cn]] = other]. *)
Fixpoint setitem_list (df : DataFrame) (cs : list string) (other : DataFrame)
  : result DataFrame :=
  match cs with
  | [] => Ok df
  | c :: cs' => v ← getitem other c; df' ← setitem df c v; setitem_list df' cs' other
  end.

(** [df.replace({c1: replace_values, ...})]: columns the frame lacks are
    skipped. *)
Definition replace_values (c : cell) : cell :=
  if decide (c ∈ [Str ""; Str "nan"; Str "null"]) then NaN else c.
Definition replace (df : DataFrame) (cs : list string) : DataFrame :=
  mkDataFrame (columns df)
    ((λ r, foldr (λ c r', alter replace_values c r') r cs) <$> rows df).

Definition format_data_types : M DataFrame :=
  d ← oe_getitem "date";
  d' ← lift (to_datetime d);
  oe_setitem "date" d';;
  df ← get_oe_data;
  ids ← lift (getitem_list df ["gameid"; "playerid"; "teamid"]);
  accessor ← lift (DataFrame_getattr ids "str");
  stripped ← lift (Series_strip accessor);
  df' ← lift (setitem_list df ["gameid"; "playerid"; "teamid"] stripped);
  set_oe_data df';;
  set_oe_data (replace df' ["gameid"; "playerid"; "teamid"; "position"]);;
  get_oe_data.
End FormatDataTypes.

(** ** [OraclesElixir]: row filters *)

Definition format_ids : M DataFrame :=
  g ← oe_getitem "gameid";
  p ← oe_getitem "position";
  df ← get_oe_data;
  set_oe_data (boolean_index df (mask_and (notna <$> g) (notna <$> p)));;
  get_oe_data.

(** [df.dropna(subset=cs)]. *)
Definition dropna (df : DataFrame) (subset : list string) : result DataFrame :=
  match list_find (λ c, c ∉ columns df) subset with
  | Some (_, c) => Raise (KeyError c)
  | None =>
      Ok (mkDataFrame (columns df)
            (filter (λ r, Forall (λ c, row_get c r ≠ NaN) subset) (rows df)))
  end.

Definition remove_null_games : M DataFrame :=
  df ← get_oe_data; lift (dropna df ["gameid"]).

Definition drop_unknown_entities : M DataFrame :=
  pn ← oe_getitem "playername";
  tn ← oe_getitem "teamname";
  df ← get_oe_data;
  mret (boolean_index df
          (mask_and (mask_not (isin pn [Str "unknown player"]))
                    (mask_not (isin tn [Str "unknown team"])))).

Definition drop_negative_earned_gpm : M DataFrame :=
  e ← oe_getitem "earned gpm";
  mask ← lift (traverse ge_zero e);
  df ← get_oe_data;
  mret (boolean_index df mask).

(** The four masks read row by row. *)
Definition has_ids (r : row) : bool :=
  notna (row_get "gameid" r) && notna (row_get "position" r).
Definition has_gameid (r : row) : Prop :=
  Forall (λ c, row_get c r ≠ NaN) ["gameid"].
Definition known_entities (r : row) : bool :=
  negb (bool_decide (row_get "playername" r ∈ [Str "unknown player"]))
  && negb (bool_decide (row_get "teamname" r ∈ [Str "unknown team"])).
Definition nonneg_earned_gpm (r : row) : Prop :=
  ge_zero (row_get "earned gpm" r) = Ok true.

#[global] Instance has_gameid_dec (r : row) : Decision (has_gameid r).
Proof. unfold has_gameid. apply _. Defined.
#[global] Instance nonneg_earned_gpm_dec (r : row) : Decision (nonneg_earned_gpm r).
Proof. unfold nonneg_earned_gpm. apply _. Defined.

(** Lines 278-281 of [clean_data]: the four filters, each result assigned
    back to [self.oe_data]. *)
Definition clean_data_row_filters : M unit :=
  r ← format_ids; set_oe_data r;;
  r ← remove_null_games; set_oe_data r;;
  r ← drop_unknown_entities; set_oe_data r;;
  r ← drop_negative_earned_gpm; set_oe_data r.

(** ** [OraclesElixir]: subsetting and the consistency filter *)

Definition team_columns : list string :=
  ["date"; "gameid"; "side"; "league"; "teamname"; "teamid"; "result"; "kills";
   "deaths"; "assists"; "earned gpm"; "gamelength"; "ckpm"; "team kpm";
   "firstblood"; "dragons"; "barons"; "towers"; "goldat15"; "xpat15"; "csat15";
   "golddiffat15"; "xpdiffat15"; "csdiffat15"].

Definition player_columns : list string :=
  ["date"; "gameid"; "side"; "position"; "league"; "playername"; "playerid";
   "teamname"; "teamid"; "result"; "kills"; "deaths"; "assists"; "total cs";
   "earned gpm"; "earnedgoldshare"; "gamelength"; "ckpm"; "team kpm"; "goldat15";
   "xpat15"; "csat15"; "killsat15"; "assistsat15"; "deathsat15"; "opp_killsat15";
   "opp_assistsat15"; "opp_deathsat15"; "golddiffat15"; "xpdiffat15";
   "csdiffat15"].

(** [split_on] is [Optional[str]]: [None] is Python's [None]. *)
Definition subset_data (split_on : option string) : M DataFrame :=
  df ← get_oe_data;
  if decide (split_on = Some "team") then lift (getitem_list df team_columns)
  else if decide (split_on = Some "player") then lift (getitem_list df player_columns)
  else lift (Raise ValueError_split).

(** The predicate selecting the inconsistent entries of [counts]. *)
Definition inconsistent_count (split_on : option string) (n : nat) : bool :=
  if decide (split_on = Some "team") then negb (n =? 2)%nat
  else (n <? 1)%nat || (10 <? n)%nat.

Definition remove_inconsistent_games (split_on : option string) : M DataFrame :=
  g ← oe_getitem "gameid";
  let counts := value_counts g in
  let inconsistent_games :=
    (filter (λ vc, inconsistent_count split_on vc.2 = true) counts).*1 in
  g' ← oe_getitem "gameid";
  df ← get_oe_data;
  mret (boolean_index df (mask_not (isin g' inconsistent_games))).

(** ** [OraclesElixir]: identity backfill and opponent enrichment *)

Definition fill_null_team_ids (split_on : string) : M DataFrame :=
  (if String.eqb split_on "player" then
     t ← oe_getitem "teamid";
     n ← oe_getitem "teamname";
     oe_setitem "teamid" (fillna t n)
   else mret tt);;
  get_oe_data.

(** [self.oe_data[target] = self.get_opponent(self.oe_data[source].to_list(), split_on)]. *)
Definition oe_assign_opponent (target source split_on : string) : M unit :=
  col ← oe_getitem source;
  opp ← lift (get_opponent col split_on);
  oe_setitem target opp.

Definition enrich_opponent_metrics (split_on : string) : M DataFrame :=
  (if String.eqb split_on "player" then
     p ← oe_getitem "playerid";
     n ← oe_getitem "playername";
     oe_setitem "playerid" (fillna p n);;
     oe_assign_opponent "opponentteam" "teamname" split_on;;
     oe_assign_opponent "opponentteamid" "teamid" split_on
   else mret tt);;
  oe_assign_opponent "opponentname" "playername" split_on;;
  oe_assign_opponent "opponentid" "playerid" split_on;;
  oe_assign_opponent "opponent_egpm" "earned gpm" split_on;;
  get_oe_data.

(** Lines 286-287 of [clean_data]. *)
Definition clean_data_backfill_and_enrich (split_on : string) : M unit :=
  r ← fill_null_team_ids split_on; set_oe_data r;;
  r ← enrich_opponent_metrics split_on; set_oe_data r.

(** ** Sorting and grouping *)

(** Cells of different kinds in one sort key cannot be compared. *)
Definition kind (c : cell) : option nat :=
  match c with
  | NaN => None
  | Num _ => Some 0%nat
  | Date _ => Some 1%nat
  | Str _ => Some 2%nat
  end.
Definition comparable (a b : cell) : bool :=
  match kind a, kind b with
  | Some x, Some y => (x =? y)%nat
  | _, _ => true
  end.
Definition sortable (col : list cell) : bool :=
  forallb (λ a, forallb (comparable a) col) col.

(** The order of [sort_values] on one key: nulls last, strings by code
    point, numbers and timestamps by value.  (The order between kinds is
    never consulted on a sortable column.) *)
Definition cell_le (a b : cell) : Prop :=
  match a, b with
  | _, NaN => True
  | NaN, _ => False
  | Str s, Str t => String.le s t
  | Num p, Num q => (p ≤ q)%Qc
  | Date s, Date t => (s ≤ t)%Z
  | Num _, _ => True
  | Date _, Str _ => True
  | _, _ => False
  end.

#[global] Instance cell_le_dec : RelDecision cell_le.
Proof. intros [] []; simpl; apply _. Defined.

(** Lexicographic order on the key columns [by]. *)
Fixpoint rows_le (by_ : list string) (r1 r2 : row) : Prop :=
  match by_ with
  | [] => True
  | c :: cs =>
      cell_le (row_get c r1) (row_get c r2) ∧
      (cell_le (row_get c r2) (row_get c r1) → rows_le cs r1 r2)
  end.

#[global] Instance rows_le_dec by_ : RelDecision (rows_le by_).
Proof. intros r1 r2. induction by_; simpl; apply _. Defined.

(** [df.sort_values(by)]. *)
Definition sort_values (df : DataFrame) (by_ : list string) : result DataFrame :=
  keys ← traverse (getitem df) by_;
  if forallb sortable keys then
    Ok (mkDataFrame (columns df) (merge_sort (rows_le by_) (rows df)))
  else Raise TypeError.

(** [df.groupby(by).tail(1)]: the last row of every group, in frame order;
    rows with a null key belong to no group. *)
Definition group_key (by_ : list string) (r : row) : list cell :=
  (λ c, row_get c r) <$> by_.

Fixpoint tail1 (by_ : list string) (rs : list row) : list row :=
  match rs with
  | [] => []
  | r :: rest =>
      if decide (NaN ∈ group_key by_ r ∨ group_key by_ r ∈ (group_key by_ <$> rest))
      then tail1 by_ rest
      else r :: tail1 by_ rest
  end.

Definition groupby_tail1 (df : DataFrame) (by_ : list string) : result DataFrame :=
  _ ← traverse (getitem df) by_;
  Ok (mkDataFrame (columns df) (tail1 by_ (rows df))).

(** [df.rename(columns=mapping)]. *)
Definition renamed (mapping : list (string * string)) (c : string) : string :=
  match list_find (λ p, p.1 = c) mapping with
  | Some (_, p) => p.2
  | None => c
  end.
Definition row_rename (mapping : list (string * string)) (r : row) : row :=
  list_to_map (prod_map (renamed mapping) id <$> map_to_list r).
Definition rename (df : DataFrame) (mapping : list (string * string)) : DataFrame :=
  mkDataFrame (renamed mapping <$> columns df) (row_rename mapping <$> rows df).

(** ** [data_generator.enrich_dataset]: flattening *)

(** Line 90 and line 105: the most recent row per entity
    ([reset_index(drop=True)] only renumbers the row labels). *)
Definition latest_teams (team_data : DataFrame) : result DataFrame :=
  sorted ← sort_values team_data ["teamid"; "date"];
  groupby_tail1 sorted ["teamid"].


Definition flattened_team_columns : list string :=
  ["date"; "league"; "teamname"; "team_elo_after"; "trueskill_sum_mu";
   "trueskill_sigma_squared"; "egpm_dominance_ema_after";
   "blue_side_ema_after"; "red_side_ema_after"; "kda_ema_after";
   "golddiffat15_ema_after"; "csdiffat15_ema_after"; "dkpoints_ema_after"].


Definition team_renames : list (string * string) :=
  [("team_elo_after", "team_elo");
   ("egpm_dominance_ema_after", "egpm_dominance");
   ("kda_ema_after", "kda");
   ("golddiffat15_ema_after", "golddiffat15");
   ("csdiffat15_ema_after", "csdiffat15");
   ("dkpoints_ema_after", "dkpoints")].


(** Lines 90-102. *)
Definition flattened_teams (team_data : DataFrame) : result DataFrame :=
  flattened ← latest_teams team_data;
  flattened ← getitem_list flattened flattened_team_columns;
  Ok (rename flattened team_renames).



(** ** [OraclesElixir]: name normalization, sorting, and the whole of [clean_data] *)

(** [col.replace(d)] with a dict of names: every cell equal to a key becomes
    that key's value, all cells being matched against the original column. *)
Definition series_replace (d : gmap string string) (col : list cell) : list cell :=
  (λ c, match c with
        | Str s => match d !! s with Some s' => Str s' | None => c end
        | _ => c
        end) <$> col.

(** [if replacements:] is false for [None] and for the empty dict. *)
Definition replace_names (column : string) (replacements : option (gmap string string))
  : M unit :=
  match replacements with
  | Some d =>
      if decide (d = ∅) then mret tt
      else col ← oe_getitem column; oe_setitem column (series_replace d col)
  | None => mret tt
  end.

Definition normalize_names (team_replacements player_replacements : option (gmap string string))
  : M DataFrame :=
  replace_names "teamname" team_replacements;;
  replace_names "playername" player_replacements;;
  get_oe_data.

(** [sort_data] returns the sorted frame for 'player' and 'team' and falls
    off its end, returning [None], for anything else. *)
Definition sort_data (split_on : option string) : M (option DataFrame) :=
  df ← get_oe_data;
  if decide (split_on = Some "player") then
    sorted ← lift (sort_values df ["league"; "date"; "gameid"; "side"; "position"]);
    mret (Some sorted)
  else if decide (split_on = Some "team") then
    sorted ← lift (sort_values df ["league"; "date"; "gameid"; "side"]);
    mret (Some sorted)
  else mret None.

(** Lines 278-288 of [clean_data], the stages after [format_data_types].
    Past [subset_data], [split_on] is 'team' or 'player' and [sort_data]
    returns a frame; the last case stands for Python subscripting [None]. *)
Definition clean_data_stages (split_on : option string)
    (team_replacements player_replacements : option (gmap string string))
  : M DataFrame :=
  clean_data_row_filters;;
  r ← normalize_names team_replacements player_replacements; set_oe_data r;;
  r ← subset_data split_on; set_oe_data r;;
  r ← remove_inconsistent_games split_on; set_oe_data r;;
  r ← sort_data split_on;
  match r, split_on with
  | Some sorted, Some s =>
      set_oe_data sorted;;
      clean_data_backfill_and_enrich s;;
      get_oe_data
  | _, _ => lift (Raise TypeError)
  end.

Definition clean_data (parse_datetime : string → option Z) (split_on : option string)
    (team_replacements player_replacements : option (gmap string string))
  : M DataFrame :=
  r ← format_data_types parse_datetime; set_oe_data r;;
  clean_data_stages split_on team_replacements player_replacements.

(** ** [data_generator.main]: the excluded games *)

Definition player_missing_games : list cell :=
  [Str "10074-10074_game_2"; Str "ESPORTSTMNT02_3170083";
   Str "10074-10074_game_1"; Str "ESPORTSTMNT02_3161035";
   Str "ESPORTSTMNT02_3171378"; Str "ESPORTSTMNT02_3169606";
   Str "10062-10062_game_3"; Str "ESPORTSTMNT02_3161006";
   Str "10062-10062_game_2"; Str "10062-10062_game_1";
   Str "ESPORTSTMNT02_3160621"].

Definition invalid_games : list cell :=
  [Str "NA1/3754345055"; Str "NA1/3754344502";
   Str "ESPORTSTMNT02/1890835"; Str "NA1/3669212337";
   Str "NA1/3669211958"; Str "ESPORTSTMNT02/1890848";
   Str "ESPORTSTMNT02_1932895"; Str "ESPORTSTMNT02_1932914";
   Str "ESPORTSTMNT05_3220607"].

(** Line 150: [data[~data.gameid.isin(invalid_games + player_missing_games)].copy()]. *)
Definition main_exclude_games (data : DataFrame) : result DataFrame :=
  g ← DataFrame_getattr data "gameid";
  Ok (boolean_index data (mask_not (isin g (invalid_games ++ player_missing_games)))).

(** * Proofs *)

(** ** The error monad *)

Lemma traverse_raise {A B} (f : A → result B) e xs :
  Exists (λ x, f x = Raise e) xs →
  Forall (λ x, ∀ e', f x = Raise e' → e' = e) xs →
  traverse f xs = Raise e.
Proof.
  induction xs as [|x xs IH]; intros Hex Hall; [by inversion Hex|].
  apply Forall_cons in Hall as [Hx Hall]. simpl.
  destruct (f x) as [y|e'] eqn:Hfx; simpl.
  - apply Exists_cons in Hex as [Hex|Hex]; [congruence|].
    by rewrite IH.
  - by rewrite (Hx e').
Qed.

Lemma traverse_length {A B} (f : A → result B) xs ys :
  traverse f xs = Ok ys → length ys = length xs.
Proof.
  revert ys. induction xs as [|x xs IH]; intros ys; simpl.
  - by intros [= <-].
  - destruct (f x); simpl; [|done].
    destruct (traverse f xs) as [zs|]; simpl; [|done].
    intros [= <-]. simpl. by rewrite (IH zs).
Qed.

(** ** Python list indexing *)

Lemma list_getitem_nonneg {A} (l : list A) (i : Z) :
  0 ≤ i →
  list_getitem l i = match l !! Z.to_nat i with
                     | Some x => Ok x
                     | None => Raise IndexError
                     end.
Proof.
  intros Hi. unfold list_getitem.
  destruct (Z.ltb_spec i 0); [lia|].
  destruct (Z.ltb_spec i 0); [lia|]. simpl.
  destruct (Z.leb_spec (Z.of_nat (length l)) i); [|done].
  rewrite lookup_ge_None_2; [done|lia].
Qed.

Lemma list_getitem_error {A} (l : list A) (i : Z) e :
  list_getitem l i = Raise e → e = IndexError.
Proof.
  unfold list_getitem.
  destruct (_ || _); [congruence|].
  destruct (l !! _); congruence.
Qed.

(** ** The opponent walk *)

Lemma succ_mod (i m : Z) :
  0 < m → (i + 1) `mod` m = if i `mod` m + 1 <? m then i `mod` m + 1 else 0.
Proof.
  intros Hm.
  pose proof (Z.mod_pos_bound i m Hm) as Hb.
  pose proof (Z.div_mod i m ltac:(lia)) as Hd.
  destruct (Z.ltb_spec (i `mod` m + 1) m).
  - symmetry. apply (Z.mod_unique_pos _ _ (i `div` m)); lia.
  - symmetry. apply (Z.mod_unique_pos _ _ (i `div` m + 1)); lia.
Qed.

Lemma opponent_index_nonneg (gap i : Z) :
  0 < gap → 0 ≤ i → 0 ≤ opponent_index gap i.
Proof.
  intros Hg Hi. unfold opponent_index.
  destruct (Z.ltb_spec (i `mod` (2 * gap)) gap); [lia|].
  pose proof (Z.mod_le i (2 * gap)). lia.
Qed.

Lemma entity_gap_cases (entity : string) (gap : Z) :
  entity_gap entity = Ok gap →
  (entity = "player" ∧ gap = 5) ∨ (entity = "team" ∧ gap = 1).
Proof.
  unfold entity_gap.
  destruct (String.eqb_spec entity "player") as [->|_]; [intros [= <-]; auto|].
  destruct (String.eqb_spec entity "team") as [->|_]; [intros [= <-]; auto|done].
Qed.

Section walk.
Context {A : Type} (gap : Z) (column : list A).
Hypothesis gap_pos : 0 < gap.

(** What one iteration does when the flag is in step with the position. *)
Lemma loop_body_in_step (n : nat) (st : loop_state A) :
  flag st = Z.of_nat n `mod` (2 * gap) →
  loop_body gap column (Z.of_nat n) st =
    (x ← list_getitem column (opponent_index gap (Z.of_nat n));
     Ok (LoopState ((Z.of_nat n + 1) `mod` (2 * gap)) (opponent st ++ [x]))).
Proof.
  intros Hflag. unfold loop_body, opponent_index. rewrite Hflag.
  pose proof (Z.mod_pos_bound (Z.of_nat n) (2 * gap) ltac:(lia)) as Hb.
  rewrite (succ_mod (Z.of_nat n) (2 * gap)) by lia.
  destruct (Z.ltb_spec (Z.of_nat n `mod` (2 * gap)) gap).
  - destruct (list_getitem column (Z.of_nat n + gap)); simpl; [|done].
    destruct (Z.leb_spec (gap * 2) (Z.of_nat n `mod` (2 * gap) + 1));
      destruct (Z.ltb_spec (Z.of_nat n `mod` (2 * gap) + 1) (2 * gap));
      first [lia | done].
  - destruct (Z.leb_spec gap (Z.of_nat n `mod` (2 * gap))); [|lia].
    destruct (Z.ltb_spec (Z.of_nat n `mod` (2 * gap)) (gap * 2)); [|lia].
    simpl. destruct (list_getitem column (Z.of_nat n - gap)); simpl; [|done].
    destruct (Z.leb_spec (gap * 2) (Z.of_nat n `mod` (2 * gap) + 1));
      destruct (Z.ltb_spec (Z.of_nat n `mod` (2 * gap) + 1) (2 * gap));
      first [lia | done].
Qed.

Lemma for_enumerate_in_step (rest : list A) (n : nat) (st : loop_state A) :
  flag st = Z.of_nat n `mod` (2 * gap) →
  for_enumerate gap column rest (Z.of_nat n) st =
    (xs ← traverse (λ j : nat, list_getitem column (opponent_index gap (Z.of_nat j)))
                   (seq n (length rest));
     Ok (LoopState (Z.of_nat (n + length rest) `mod` (2 * gap)) (opponent st ++ xs))).
Proof.
  revert n st. induction rest as [|obj rest IH]; intros n st Hflag; simpl.
  - rewrite Nat.add_0_r, app_nil_r, <- Hflag. by destruct st.
  - rewrite loop_body_in_step by done.
    destruct (list_getitem column (opponent_index gap (Z.of_nat n))) as [x|]; simpl; [|done].
    replace (Z.of_nat n + 1) with (Z.of_nat (S n)) by lia.
    rewrite IH by done. simpl.
    destruct (traverse _ (seq (S n) (length rest))) as [xs|]; simpl; [|done].
    rewrite <- app_assoc. simpl. do 3 f_equal. lia.
Qed.
End walk.

(** [get_opponent] reads, for every position in turn, the element at
    [opponent_index]. *)
Lemma get_opponent_traverse {A} (column : list A) (entity : string) (gap : Z) :
  entity_gap entity = Ok gap →
  get_opponent column entity =
    traverse (λ j : nat, list_getitem column (opponent_index gap (Z.of_nat j)))
             (seq 0 (length column)).
Proof.
  intros Hgap. unfold get_opponent. rewrite Hgap. simpl.
  assert (0 < gap) by (apply entity_gap_cases in Hgap; lia).
  change (for_enumerate gap column column 0)
    with (for_enumerate gap column column (Z.of_nat 0)).
  rewrite (for_enumerate_in_step gap column) by done.
  by destruct (traverse _ _).
Qed.

Lemma traverse_Forall2 {A B} (f : A → result B) xs ys :
  traverse f xs = Ok ys ↔ Forall2 (λ x y, f x = Ok y) xs ys.
Proof.
  revert ys. induction xs as [|x xs IH]; intros ys; simpl.
  - split; [intros [= <-]; constructor|by inversion 1].
  - destruct (f x) as [y|e] eqn:Hfx; simpl.
    + destruct (traverse f xs) as [zs|e] eqn:Hxs; simpl.
      * split.
        -- intros [= <-]. constructor; [done|]. by apply IH.
        -- inversion 1 as [|? y' ? zs' Hy Hzs]; subst.
           apply IH in Hzs. congruence.
      * split; [done|].
        inversion 1 as [|? y' ? zs' Hy Hzs]; subst. by apply IH in Hzs.
    + split; [done|]. inversion 1; congruence.
Qed.

Lemma traverse_total {A B} (f : A → result B) xs :
  Forall (λ x, ∃ y, f x = Ok y) xs → ∃ ys, traverse f xs = Ok ys.
Proof.
  induction 1 as [|x xs [y Hy] _ [ys IH]]; simpl; [by eexists|].
  rewrite Hy, IH. by eexists.
Qed.

(** The result of a successful walk, position by position. *)
Lemma get_opponent_lookup {A} (column opp : list A) (entity : string) (gap : Z) :
  entity_gap entity = Ok gap →
  get_opponent column entity = Ok opp →
  length opp = length column ∧
  ∀ i : nat, (i < length column)%nat →
    opp !! i = column !! Z.to_nat (opponent_index gap (Z.of_nat i)) ∧
    is_Some (opp !! i).
Proof.
  intros Hgap Hopp. rewrite (get_opponent_traverse _ _ gap) in Hopp by done.
  assert (0 < gap) by (apply entity_gap_cases in Hgap; lia).
  pose proof (traverse_length _ _ _ Hopp) as Hlen. rewrite length_seq in Hlen.
  split; [done|]. intros i Hi.
  apply traverse_Forall2 in Hopp.
  destruct (lookup_lt_is_Some_2 opp i) as [y Hy]; [lia|].
  eapply Forall2_lookup_r in Hopp as (j & Hj & Hfj); [|done].
  apply lookup_seq in Hj as [-> _]. simpl in Hfj.
  rewrite list_getitem_nonneg in Hfj by (apply opponent_index_nonneg; lia).
  destruct (column !! _) eqn:E; [|done].
  injection Hfj as ->. by rewrite Hy.
Qed.

(** The walk succeeds as soon as every index it reads is inside the list. *)
Lemma get_opponent_total {A} (column : list A) (entity : string) (gap : Z) :
  entity_gap entity = Ok gap →
  (∀ i : nat, (i < length column)%nat →
     opponent_index gap (Z.of_nat i) < Z.of_nat (length column)) →
  ∃ opp, get_opponent column entity = Ok opp.
Proof.
  intros Hgap Hin. rewrite (get_opponent_traverse _ _ gap) by done.
  assert (0 < gap) by (apply entity_gap_cases in Hgap; lia).
  apply traverse_total, Forall_forall. intros j [_ Hj]%elem_of_seq.
  rewrite list_getitem_nonneg by (apply opponent_index_nonneg; lia).
  destruct (lookup_lt_is_Some_2 column (Z.to_nat (opponent_index gap (Z.of_nat j))))
    as [x ->]; [|by eexists].
  specialize (Hin j ltac:(lia)).
  pose proof (opponent_index_nonneg gap (Z.of_nat j)). lia.
Qed.

Lemma opponent_index_involutive (gap i : Z) :
  0 < gap → opponent_index gap (opponent_index gap i) = i.
Proof.
  intros Hg. unfold opponent_index.
  pose proof (Z.mod_pos_bound i (2 * gap) ltac:(lia)) as Hb.
  pose proof (Z.div_mod i (2 * gap) ltac:(lia)) as Hd.
  destruct (Z.ltb_spec (i `mod` (2 * gap)) gap).
  - assert ((i + gap) `mod` (2 * gap) = i `mod` (2 * gap) + gap) as ->.
    { symmetry. apply (Z.mod_unique_pos _ _ (i `div` (2 * gap))); lia. }
    destruct (Z.ltb_spec (i `mod` (2 * gap) + gap) gap); lia.
  - assert ((i - gap) `mod` (2 * gap) = i `mod` (2 * gap) - gap) as ->.
    { symmetry. apply (Z.mod_unique_pos _ _ (i `div` (2 * gap))); lia. }
    destruct (Z.ltb_spec (i `mod` (2 * gap) - gap) gap); lia.
Qed.

(** In a list made of whole windows, every index the walk reads is inside. *)
Lemma opponent_index_in_window (gap i k : Z) :
  0 < gap → 0 ≤ i < 2 * gap * k → 0 ≤ opponent_index gap i < 2 * gap * k.
Proof.
  intros Hg Hi. split; [apply opponent_index_nonneg; lia|].
  unfold opponent_index.
  pose proof (Z.mod_pos_bound i (2 * gap) ltac:(lia)) as Hb.
  pose proof (Z.div_mod i (2 * gap) ltac:(lia)) as Hd.
  destruct (Z.ltb_spec (i `mod` (2 * gap)) gap); [|lia].
  assert (i `div` (2 * gap) < k) by (apply Z.div_lt_upper_bound; lia).
  nia.
Qed.

Lemma opponent_index_first_half (gap w j : Z) :
  0 < gap → 0 ≤ j < gap → opponent_index gap (2 * gap * w + j) = 2 * gap * w + j + gap.
Proof.
  intros Hg Hj. unfold opponent_index.
  assert ((2 * gap * w + j) `mod` (2 * gap) = j) as ->.
  { symmetry. apply (Z.mod_unique_pos _ _ w); lia. }
  destruct (Z.ltb_spec j gap); lia.
Qed.

Lemma opponent_index_second_half (gap w j : Z) :
  0 < gap → 0 ≤ j < gap → opponent_index gap (2 * gap * w + gap + j) = 2 * gap * w + j.
Proof.
  intros Hg Hj. unfold opponent_index.
  assert ((2 * gap * w + gap + j) `mod` (2 * gap) = gap + j) as ->.
  { symmetry. apply (Z.mod_unique_pos _ _ w); lia. }
  destruct (Z.ltb_spec (gap + j) gap); lia.
Qed.

Lemma entity_gap_of (entity : string) (g : nat) :
  (entity = "team" ∧ g = 1%nat) ∨ (entity = "player" ∧ g = 5%nat) →
  entity_gap entity = Ok (Z.of_nat g) ∧ 0 < Z.of_nat g.
Proof. intros [[-> ->]|[-> ->]]; split; (reflexivity || lia). Qed.

(** C1: on a sequence of [k] whole windows of [2g] elements ([g = 1] for
    'team', [g = 5] for 'player') [get_opponent] returns a list of the same
    length in which each of the first [g] elements of a window holds the
    element [g] positions ahead and each of the next [g] the element [g]
    positions behind; the two rows (Blue, "A", 250), (Red, "B", 300) of a
    team game get "B"/300 and "A"/250. *)
Theorem get_opponent_pairs_windows {A} (column : list A) (entity : string) (g k : nat) :
  (entity = "team" ∧ g = 1%nat) ∨ (entity = "player" ∧ g = 5%nat) →
  length column = (2 * g * k)%nat →
  (∃ opp, get_opponent column entity = Ok opp ∧
     length opp = length column ∧
     ∀ w j : nat, (w < k)%nat → (j < g)%nat →
       is_Some (opp !! (2 * g * w + j)%nat) ∧
       opp !! (2 * g * w + j)%nat = column !! (2 * g * w + j + g)%nat ∧
       is_Some (opp !! (2 * g * w + g + j)%nat) ∧
       opp !! (2 * g * w + g + j)%nat = column !! (2 * g * w + j)%nat) ∧
  get_opponent [Str "A"; Str "B"] "team" = Ok [Str "B"; Str "A"] ∧
  get_opponent [Num (Qc_of_Z 250); Num (Qc_of_Z 300)] "team"
    = Ok [Num (Qc_of_Z 300); Num (Qc_of_Z 250)].
Proof.
  intros Hent Hlen. split; [|split; reflexivity].
  destruct (entity_gap_of _ _ Hent) as [Hgap Hg].
  destruct (get_opponent_total column entity (Z.of_nat g) Hgap) as [opp Hopp].
  { intros i Hi.
    pose proof (opponent_index_in_window (Z.of_nat g) (Z.of_nat i) (Z.of_nat k)). nia. }
  exists opp. split; [done|].
  destruct (get_opponent_lookup _ _ _ _ Hgap Hopp) as [Hl Hidx].
  split; [done|]. intros w j Hw Hj.
  assert (2 * g * w + g + j < length column)%nat as H2 by nia.
  assert (2 * g * w + j < length column)%nat as H1 by lia.
  destruct (Hidx _ H1) as [E1 S1], (Hidx _ H2) as [E2 S2].
  repeat split; [done| |done|].
  - rewrite E1. f_equal.
    replace (Z.of_nat (2 * g * w + j)) with (2 * Z.of_nat g * Z.of_nat w + Z.of_nat j) by lia.
    rewrite opponent_index_first_half by lia. lia.
  - rewrite E2. f_equal.
    replace (Z.of_nat (2 * g * w + g + j))
      with (2 * Z.of_nat g * Z.of_nat w + Z.of_nat g + Z.of_nat j) by lia.
    rewrite opponent_index_second_half by lia. lia.
Qed.

Lemma get_opponent_pairs_windows_witness :
  ∃ opp, get_opponent [1; 2; 3; 4] "team" = Ok opp ∧ opp !! 2%nat = Some 4.
Proof.
  destruct (get_opponent_pairs_windows [1; 2; 3; 4] "team" 1 2) as [(opp & H & _ & Hw) _].
  - left. split; reflexivity.
  - reflexivity.
  - exists opp. split; [exact H|].
    destruct (Hw 1%nat 0%nat) as (_ & E & _); [lia | lia |]. exact E.
Defined.

(** C3: on a sequence of whole windows, pairing the paired list gives the
    original list back. *)
Theorem get_opponent_involutive {A} (column : list A) (entity : string) (g k : nat) :
  (entity = "team" ∧ g = 1%nat) ∨ (entity = "player" ∧ g = 5%nat) →
  length column = (2 * g * k)%nat →
  ∃ opp, get_opponent column entity = Ok opp ∧ get_opponent opp entity = Ok column.
Proof.
  intros Hent Hlen.
  destruct (entity_gap_of _ _ Hent) as [Hgap Hg].
  assert (∀ (l : list A) (i : nat), length l = (2 * g * k)%nat → (i < length l)%nat →
            opponent_index (Z.of_nat g) (Z.of_nat i) < Z.of_nat (length l)) as Hin.
  { intros l i Hl Hi.
    pose proof (opponent_index_in_window (Z.of_nat g) (Z.of_nat i) (Z.of_nat k)). nia. }
  destruct (get_opponent_total column entity _ Hgap) as [opp Hopp]; [by auto|].
  destruct (get_opponent_lookup _ _ _ _ Hgap Hopp) as [Hl Hidx].
  destruct (get_opponent_total opp entity _ Hgap) as [back Hback].
  { intros i Hi. apply Hin; lia. }
  destruct (get_opponent_lookup _ _ _ _ Hgap Hback) as [Hl' Hidx'].
  exists opp. split; [done|]. rewrite Hback. f_equal.
  apply list_eq. intros i.
  destruct (decide (i < length column)%nat) as [Hi|Hi].
  - destruct (Hidx' i ltac:(lia)) as [-> _].
    pose proof (Hin column i Hlen Hi) as Hlt.
    pose proof (opponent_index_nonneg (Z.of_nat g) (Z.of_nat i) Hg ltac:(lia)) as Hge.
    destruct (Hidx (Z.to_nat (opponent_index (Z.of_nat g) (Z.of_nat i))) ltac:(lia)) as [-> _].
    rewrite Z2Nat.id by done.
    rewrite opponent_index_involutive by done. by rewrite Nat2Z.id.
  - rewrite !lookup_ge_None_2; [done|lia..].
Qed.

Lemma get_opponent_involutive_witness :
  ∃ opp, get_opponent [1; 2; 3; 4] "team" = Ok opp ∧
         get_opponent opp "team" = Ok [1; 2; 3; 4].
Proof.
  apply (get_opponent_involutive [1; 2; 3; 4] "team" 1 2).
  - left. split; reflexivity.
  - reflexivity.
Defined.

(** C4: when some step of the walk would read before the start or past the
    end of the list, as happens whenever the length is not a multiple of
    [2g], [get_opponent] raises [IndexError] and returns no list. *)
Theorem get_opponent_out_of_range_raises {A} (column : list A) (entity : string) (g : nat) :
  (entity = "team" ∧ g = 1%nat) ∨ (entity = "player" ∧ g = 5%nat) →
  ((∃ i : nat, (i < length column)%nat ∧
      (opponent_index (Z.of_nat g) (Z.of_nat i) < 0 ∨
       Z.of_nat (length column) ≤ opponent_index (Z.of_nat g) (Z.of_nat i))) →
   get_opponent column entity = Raise IndexError) ∧
  (Z.of_nat (length column) `mod` (2 * Z.of_nat g) ≠ 0 →
   get_opponent column entity = Raise IndexError).
Proof.
  intros Hent. destruct (entity_gap_of _ _ Hent) as [Hgap Hg].
  assert ((∃ i : nat, (i < length column)%nat ∧
      (opponent_index (Z.of_nat g) (Z.of_nat i) < 0 ∨
       Z.of_nat (length column) ≤ opponent_index (Z.of_nat g) (Z.of_nat i))) →
   get_opponent column entity = Raise IndexError) as Hout.
  { intros (i & Hi & Hrange).
    rewrite (get_opponent_traverse _ _ _ Hgap).
    apply traverse_raise.
    - apply Exists_exists. exists i. split; [apply elem_of_seq; lia|].
      pose proof (opponent_index_nonneg (Z.of_nat g) (Z.of_nat i) Hg ltac:(lia)).
      rewrite list_getitem_nonneg by done.
      rewrite lookup_ge_None_2; [done|lia].
    - apply Forall_forall. intros j _ e. apply list_getitem_error. }
  split; [done|]. intros Hmod. apply Hout.
  set (n := Z.of_nat (length column)) in *. set (m := 2 * Z.of_nat g) in *.
  pose proof (Z.mod_pos_bound n m ltac:(lia)) as Hb.
  pose proof (Z.div_mod n m ltac:(lia)) as Hd.
  assert (0 ≤ n `div` m) by (apply Z.div_pos; lia).
  destruct (decide (n `mod` m ≤ Z.of_nat g)) as [Hr|Hr].
  - exists (Z.to_nat (m * (n `div` m))). split; [nia|]. right.
    rewrite Z2Nat.id by nia.
    pose proof (opponent_index_first_half (Z.of_nat g) (n `div` m) 0 Hg ltac:(lia)) as E.
    rewrite Z.add_0_r in E. fold m in E. rewrite E. lia.
  - exists (Z.to_nat (m * (n `div` m) + (n `mod` m - Z.of_nat g))). split; [nia|]. right.
    rewrite Z2Nat.id by nia.
    pose proof (opponent_index_first_half (Z.of_nat g) (n `div` m)
                  (n `mod` m - Z.of_nat g) Hg ltac:(lia)) as E.
    fold m in E. rewrite E. lia.
Qed.

Lemma get_opponent_out_of_range_raises_witness :
  get_opponent [1; 2; 3] "team" = Raise IndexError.
Proof.
  apply (get_opponent_out_of_range_raises [1; 2; 3] "team" 1).
  - left. split; reflexivity.
  - vm_compute. discriminate.
Defined.

(** The flag stays inside its window. *)
Lemma loop_body_flag {A} (gap : Z) (column : list A) (i : Z) (st st' : loop_state A) :
  0 < gap → 0 ≤ flag st < 2 * gap →
  loop_body gap column i st = Ok st' → 0 ≤ flag st' < 2 * gap.
Proof.
  intros Hg Hflag. unfold loop_body.
  destruct (Z.ltb_spec (flag st) gap).
  - destruct (list_getitem column (i + gap)); simpl; [|done].
    destruct (Z.leb_spec (gap * 2) (flag st + 1)); intros [= <-]; simpl; lia.
  - destruct (Z.leb_spec gap (flag st)); [|lia].
    destruct (Z.ltb_spec (flag st) (gap * 2)); [|lia]. simpl.
    destruct (list_getitem column (i - gap)); simpl; [|done].
    destruct (Z.leb_spec (gap * 2) (flag st + 1)); intros [= <-]; simpl; lia.
Qed.

Lemma loop_body_no_out_of_bounds {A} (gap : Z) (column : list A) (i j : Z)
    (st : loop_state A) :
  0 ≤ flag st < 2 * gap →
  loop_body gap column i st ≠ Raise (ValueError_out_of_bounds j).
Proof.
  intros Hflag. unfold loop_body.
  destruct (Z.ltb_spec (flag st) gap).
  - destruct (list_getitem column (i + gap)) eqn:E; simpl; [done|].
    apply list_getitem_error in E as ->. done.
  - destruct (Z.leb_spec gap (flag st)); [|lia].
    destruct (Z.ltb_spec (flag st) (gap * 2)); [|lia]. simpl.
    destruct (list_getitem column (i - gap)) eqn:E; simpl; [done|].
    apply list_getitem_error in E as ->. done.
Qed.

Lemma for_enumerate_no_out_of_bounds {A} (gap : Z) (column rest : list A) (i j : Z)
    (st : loop_state A) :
  0 < gap → 0 ≤ flag st < 2 * gap →
  for_enumerate gap column rest i st ≠ Raise (ValueError_out_of_bounds j).
Proof.
  intros Hg. revert i st. induction rest as [|obj rest IH]; intros i st Hflag; simpl; [done|].
  destruct (loop_body gap column i st) as [st'|e] eqn:Hbody; simpl.
  - apply IH. by eapply loop_body_flag.
  - intros [= ->]. by eapply loop_body_no_out_of_bounds.
Qed.

(** C10: for both entities the flag is in [0, 2g) at the start of every
    iteration the walk reaches, so no iteration takes the 'Out Of Bounds'
    branch and [get_opponent] never raises that error. *)
Theorem get_opponent_flag_in_window {A} (column : list A) (entity : string) (gap : Z) :
  entity_gap entity = Ok gap →
  (∀ i rest st, reaches gap column i rest st →
     0 ≤ flag st < 2 * gap ∧
     (flag st <? gap) || ((gap <=? flag st) && (flag st <? gap * 2)) = true ∧
     ∀ j, loop_body gap column i st ≠ Raise (ValueError_out_of_bounds j)) ∧
  (∀ j, get_opponent column entity ≠ Raise (ValueError_out_of_bounds j)).
Proof.
  intros Hgap.
  assert (0 < gap) as Hg by (apply entity_gap_cases in Hgap; lia).
  assert (∀ i rest st, reaches gap column i rest st → 0 ≤ flag st < 2 * gap) as Hinv.
  { induction 1 as [|i obj rest st st' _ IH Hbody]; simpl; [lia|].
    by eapply loop_body_flag. }
  split.
  - intros i rest st Hreach. specialize (Hinv _ _ _ Hreach).
    split; [done|]. split.
    + destruct (Z.ltb_spec (flag st) gap); [done|]. simpl.
      apply andb_true_iff. split; [apply Z.leb_le|apply Z.ltb_lt]; lia.
    + intros j. by apply loop_body_no_out_of_bounds.
  - intros j. unfold get_opponent. rewrite Hgap. simpl.
    destruct (for_enumerate gap column column 0 (LoopState 0 [])) eqn:E; simpl; [done|].
    intros [= ->]. revert E. apply for_enumerate_no_out_of_bounds; simpl; lia.
Qed.

Lemma get_opponent_flag_in_window_witness :
  get_opponent [1; 2; 3] "player" ≠ Raise (ValueError_out_of_bounds 0).
Proof.
  apply (get_opponent_flag_in_window [1; 2; 3] "player" 5).
  reflexivity.
Defined.

(** ** Frames *)

Lemma getitem_Ok (df : DataFrame) (c : string) :
  c ∈ columns df → getitem df c = Ok (row_get c <$> rows df).
Proof. intros Hc. unfold getitem. by rewrite decide_True. Qed.

Lemma getitem_inv (df : DataFrame) (c : string) (col : list cell) :
  getitem df c = Ok col → c ∈ columns df ∧ col = row_get c <$> rows df.
Proof. unfold getitem. case_decide; [|done]. by intros [= <-]. Qed.

Lemma getitem_length (df : DataFrame) (c : string) (col : list cell) :
  getitem df c = Ok col → length col = length (rows df).
Proof. intros [_ ->]%getitem_inv. by rewrite length_fmap. Qed.

Lemma row_get_insert (c c' : string) (v : cell) (r : row) :
  row_get c' (<[c := v]> r) = if decide (c' = c) then v else row_get c' r.
Proof.
  unfold row_get. case_decide as E.
  - subst. by rewrite lookup_insert_eq.
  - by rewrite lookup_insert_ne.
Qed.

Lemma fmap_row_get_set (c c' : string) (rs : list row) (values : list cell) :
  length values = length rs →
  row_get c' <$> zip_with (λ r v, <[c := v]> r) rs values =
    if decide (c' = c) then values else row_get c' <$> rs.
Proof.
  revert values. induction rs as [|r rs IH]; intros [|v vs] Hlen; try discriminate.
  - by case_decide.
  - injection Hlen as Hlen. csimpl. rewrite row_get_insert, (IH vs Hlen).
    by case_decide.
Qed.

Lemma setitem_Ok (df : DataFrame) (c : string) (values : list cell) :
  length values = length (rows df) →
  ∃ df', setitem df c values = Ok df' ∧
    getitem df' c = Ok values ∧
    (∀ c', c' ≠ c → getitem df' c' = getitem df c').
Proof.
  intros Hlen. unfold setitem. rewrite decide_True by done.
  eexists. split; [done|].
  assert (∀ c', c' ∈ (if decide (c ∈ columns df) then columns df else columns df ++ [c])
                ↔ c' = c ∨ c' ∈ columns df) as Hcols.
  { intros c'. case_decide as Hc.
    - split; [by right|]. by intros [->|?].
    - rewrite elem_of_app, list_elem_of_singleton. tauto. }
  split.
  - unfold getitem. cbn [columns rows].
    rewrite decide_True by (apply Hcols; by left).
    by rewrite fmap_row_get_set, decide_True.
  - intros c' Hne. unfold getitem. cbn [columns rows].
    rewrite fmap_row_get_set, (decide_False (P := c' = c)) by done.
    destruct (decide (c' ∈ columns df)) as [Hin|Hin].
    + rewrite decide_True; [done|]. apply Hcols. by right.
    + rewrite decide_False; [done|]. rewrite Hcols. by intros [?|?].
Qed.

(** ** Running methods *)

Lemma M_bind_Ok {X Y} (m : M X) (k : X → M Y) (s s' : DataFrame) (x : X) :
  m s = (s', Ok x) → (m ≫= k) s = k x s'.
Proof. unfold mbind, M_bind. by intros ->. Qed.

Lemma M_bind_Raise {X Y} (m : M X) (k : X → M Y) (s s' : DataFrame) (e : exn) :
  m s = (s', Raise e) → (m ≫= k) s = (s', Raise e).
Proof. unfold mbind, M_bind. by intros ->. Qed.

Lemma oe_getitem_run (c : string) (s : DataFrame) :
  oe_getitem c s = (s, getitem s c).
Proof. reflexivity. Qed.

Lemma oe_setitem_run (c : string) (values : list cell) (s : DataFrame) :
  oe_setitem c values s =
    match setitem s c values with
    | Ok s' => (s', Ok tt)
    | Raise e => (s, Raise e)
    end.
Proof.
  unfold oe_setitem, get_oe_data, lift, set_oe_data, mbind, M_bind.
  by destruct (setitem s c values).
Qed.

(** ** Invalid arguments (C6) *)

Lemma entity_gap_invalid (s : string) :
  s ≠ "team" → s ≠ "player" → entity_gap s = Raise ValueError_entity.
Proof.
  intros Ht Hp. unfold entity_gap.
  destruct (String.eqb_spec s "player"); [done|].
  by destruct (String.eqb_spec s "team").
Qed.

Lemma oe_assign_opponent_invalid (target source s : string) (df : DataFrame) :
  s ≠ "team" → s ≠ "player" →
  ∃ e, oe_assign_opponent target source s df = (df, Raise e).
Proof.
  intros Ht Hp. unfold oe_assign_opponent.
  unfold mbind at 1. unfold M_bind. rewrite oe_getitem_run.
  destruct (getitem df source) as [col|e]; [|by eexists].
  unfold mbind, M_bind, lift, get_opponent.
  rewrite entity_gap_invalid by done. simpl. by eexists.
Qed.

(** C6: for any [split_on] / [entity] other than 'team' and 'player'
    (Python's [None] included for the optional [split_on]), [get_opponent]
    and [subset_data] raise their [ValueError] at once; nothing is returned,
    [self.oe_data] is left as it was, and [enrich_opponent_metrics] called
    with such a value adds no column. *)
Theorem invalid_split_raises {A} (column : list A) (s : string) (df : DataFrame) :
  s ≠ "team" → s ≠ "player" →
  get_opponent column s = Raise ValueError_entity ∧
  subset_data (Some s) df = (df, Raise ValueError_split) ∧
  subset_data None df = (df, Raise ValueError_split) ∧
  ∃ e, enrich_opponent_metrics s df = (df, Raise e).
Proof.
  intros Ht Hp. split; [|split; [|split]].
  - unfold get_opponent. by rewrite entity_gap_invalid.
  - unfold subset_data, mbind, M_bind, get_oe_data, lift.
    rewrite !decide_False; [done|congruence..].
  - reflexivity.
  - unfold enrich_opponent_metrics.
    destruct (String.eqb_spec s "player"); [done|].
    destruct (oe_assign_opponent_invalid "opponentname" "playername" s df Ht Hp)
      as [e He].
    exists e. unfold mbind, M_bind, mret, M_ret. by rewrite He.
Qed.

Lemma invalid_split_raises_witness :
  get_opponent [1; 2] "coach" = Raise ValueError_entity.
Proof.
  apply (invalid_split_raises [1; 2] "coach" (mkDataFrame [] [])); discriminate.
Defined.

(** ** Type normalization (C5) *)

Lemma getitem_list_columns (df ids : DataFrame) (cs : list string) :
  getitem_list df cs = Ok ids → columns ids = cs.
Proof.
  unfold getitem_list. destruct (list_find _ cs) as [[? ?]|]; [done|].
  by intros [= <-].
Qed.

(** C5: [format_data_types] never returns a table: once the dates are
    parsed it asks a three-column frame for the Series accessor [.str] and
    raises [AttributeError]; a raw row with a well-formed date and
    untrimmed ids shows it. *)
Theorem format_data_types_raises (parse_datetime : string → option Z) (df : DataFrame) :
  (∃ e, (format_data_types parse_datetime df).2 = Raise e) ∧
  (format_data_types (λ _, Some 0)
     (mkDataFrame ["gameid"; "date"; "playerid"; "teamid"; "position"]
        [ {[ "gameid" := Str " G1 "; "date" := Str "2023-01-15 10:00:00";
             "playerid" := Str "p1"; "teamid" := Str "t1";
             "position" := Str "top" ]} ])).2
    = Raise (AttributeError "str").
Proof.
  split; [|vm_compute; reflexivity].
  unfold format_data_types.
  unfold mbind at 1. unfold M_bind at 1. rewrite oe_getitem_run.
  destruct (getitem df "date") as [d|e] eqn:Hd; [|by eexists].
  unfold mbind at 1. unfold M_bind at 1. unfold lift at 1.
  destruct (to_datetime parse_datetime d) as [d'|e] eqn:Hd'; [|by eexists].
  unfold mbind at 1. unfold M_bind at 1. rewrite oe_setitem_run.
  destruct (setitem df "date" d') as [df1|e] eqn:Hset; [|by eexists].
  unfold mbind at 1. unfold M_bind at 1. unfold get_oe_data at 1.
  unfold mbind at 1. unfold M_bind at 1. unfold lift at 1.
  destruct (getitem_list df1 _) as [ids|e] eqn:Hids; [|by eexists].
  apply getitem_list_columns in Hids.
  unfold mbind at 1. unfold M_bind at 1. unfold lift at 1.
  unfold DataFrame_getattr. rewrite Hids.
  rewrite decide_False
    by (rewrite !elem_of_cons, elem_of_nil; intros [?|[?|[?|[]]]]; done).
  by eexists.
Qed.

(** ** Boolean indexing *)

(** A mask computed row by row selects like [filter]. *)
Lemma select_fmap {X} (p : X → bool) (l : list X) :
  select (p <$> l) l = filter (λ x, p x = true) l.
Proof.
  induction l as [|x l IH]; csimpl; [done|].
  rewrite filter_cons. destruct (p x) eqn:E.
  - rewrite decide_True by done. by rewrite IH.
  - rewrite decide_False by congruence. done.
Qed.

Lemma mask_and_fmap {X} (p q : X → bool) (l : list X) :
  mask_and (p <$> l) (q <$> l) = (λ x, p x && q x) <$> l.
Proof. unfold mask_and. induction l; csimpl; [done|]. by f_equal. Qed.

Lemma mask_not_fmap {X} (p : X → bool) (l : list X) :
  mask_not (p <$> l) = (λ x, negb (p x)) <$> l.
Proof. unfold mask_not. by rewrite <- list_fmap_compose. Qed.

Lemma notna_fmap (c : string) (rs : list row) :
  notna <$> (row_get c <$> rs) = (λ r, notna (row_get c r)) <$> rs.
Proof. by rewrite <- list_fmap_compose. Qed.

Lemma isin_fmap (c : string) (rs : list row) (values : list cell) :
  isin (row_get c <$> rs) values = (λ r, bool_decide (row_get c r ∈ values)) <$> rs.
Proof. unfold isin. by rewrite <- list_fmap_compose. Qed.

Lemma filter_all {X} (P : X → Prop) `{∀ x, Decision (P x)} (l : list X) :
  Forall P l → filter P l = l.
Proof.
  induction 1 as [|x l Hx _ IH]; [done|].
  rewrite filter_cons, decide_True by done. by rewrite IH.
Qed.

(** ** Counting game ids *)

Lemma count_of_pos (v : cell) (col : list cell) :
  v ∈ col ↔ (0 < count_of v col)%nat.
Proof.
  unfold count_of. induction col as [|x col IH]; simpl.
  - split; [by intros ?%elem_of_nil|lia].
  - rewrite filter_cons, elem_of_cons. case_decide as E; simpl.
    + split; [lia|]. intros _. by left.
    + rewrite <- IH. split; [|by right]. intros [->|?]; done.
Qed.

Lemma count_of_filter_fmap {X} (f : X → cell) (P : X → Prop) `{∀ x, Decision (P x)}
    (v : cell) (l : list X) :
  (∀ x, f x = v → P x) →
  count_of v (f <$> filter P l) = count_of v (f <$> l).
Proof.
  intros HP. unfold count_of. induction l as [|x l IH]; [done|].
  rewrite filter_cons. destruct (decide (P x)) as [Hx|Hx]; csimpl.
  - rewrite !filter_cons. case_decide; simpl; by rewrite IH.
  - rewrite filter_cons, decide_False; [done|]. intros E. by apply Hx, HP.
Qed.

Lemma elem_of_inconsistent (split_on : option string) (col : list cell) (v : cell) :
  v ∈ (filter (λ vc, inconsistent_count split_on vc.2 = true) (value_counts col)).*1
  ↔ v ≠ NaN ∧ v ∈ col ∧ inconsistent_count split_on (count_of v col) = true.
Proof.
  unfold value_counts. rewrite list_elem_of_fmap. split.
  - intros ([v' n] & -> & [Hbad Hin]%list_elem_of_filter). simpl in *.
    apply list_elem_of_fmap in Hin as (w & [= -> ->] & Hw).
    apply elem_of_remove_dups, list_elem_of_filter in Hw as [? ?]. done.
  - intros (Hv & Hin & Hbad). exists (v, count_of v col). split; [done|].
    apply list_elem_of_filter. split; [done|].
    apply list_elem_of_fmap. exists v. split; [done|].
    apply elem_of_remove_dups, list_elem_of_filter. done.
Qed.

(** The consistency filter as a row filter. *)
Lemma remove_inconsistent_games_run (split_on : option string) (df : DataFrame) :
  "gameid" ∈ columns df →
  remove_inconsistent_games split_on df =
    (df, Ok (mkDataFrame (columns df)
               (filter (λ r, negb (bool_decide
                          (row_get "gameid" r ∈
                             (filter (λ vc, inconsistent_count split_on vc.2 = true)
                                (value_counts (row_get "gameid" <$> rows df))).*1)) = true)
                       (rows df)))).
Proof.
  intros Hc. unfold remove_inconsistent_games.
  unfold mbind, M_bind. rewrite !oe_getitem_run, getitem_Ok by done.
  unfold get_oe_data, mret, M_ret, boolean_index.
  by rewrite isin_fmap, mask_not_fmap, select_fmap.
Qed.

(** C2: after [remove_inconsistent_games] every game id left in the table
    has exactly 2 rows for 'team' and between 1 and 10 rows for 'player';
    a game id whose count is out of bounds has no row left, and the games
    within bounds keep all their rows. *)
Theorem remove_inconsistent_games_counts (split_on : option string) (df : DataFrame) :
  "gameid" ∈ columns df →
  ∃ out g g',
    remove_inconsistent_games split_on df = (df, Ok out) ∧
    getitem df "gameid" = Ok g ∧
    getitem out "gameid" = Ok g' ∧
    (∀ v, v ≠ NaN → v ∈ g' →
       (split_on = Some "team" → count_of v g' = 2%nat) ∧
       (split_on = Some "player" → (1 ≤ count_of v g' ≤ 10)%nat)) ∧
    (∀ v, v ≠ NaN → inconsistent_count split_on (count_of v g) = true → v ∉ g') ∧
    (∀ v, inconsistent_count split_on (count_of v g) = false →
       count_of v g' = count_of v g).
Proof.
  intros Hc. rewrite remove_inconsistent_games_run by done.
  set (g := row_get "gameid" <$> rows df).
  set (bad := (filter _ (value_counts g)).*1).
  set (keep := λ r : row, negb (bool_decide (row_get "gameid" r ∈ bad)) = true).
  eexists _, g, (row_get "gameid" <$> filter keep (rows df)).
  split; [done|]. split; [by apply getitem_Ok|]. split; [by apply getitem_Ok|].
  assert (∀ v, v ∉ bad →
            count_of v (row_get "gameid" <$> filter keep (rows df)) = count_of v g)
    as Hkept.
  { intros v Hv. apply count_of_filter_fmap. intros r <-. unfold keep.
    by rewrite bool_decide_eq_false_2. }
  assert (∀ v, v ∈ row_get "gameid" <$> filter keep (rows df) → v ∉ bad) as Hgood.
  { intros v (r & -> & [Hr _]%list_elem_of_filter)%list_elem_of_fmap.
    unfold keep in Hr. apply negb_true_iff, bool_decide_eq_false in Hr. done. }
  split; [|split].
  - intros v Hv Hin. pose proof (Hgood v Hin) as Hnb.
    rewrite (Hkept v Hnb).
    assert (v ∈ g) as Hing.
    { apply count_of_pos. rewrite <- (Hkept v Hnb). by apply count_of_pos. }
    assert (inconsistent_count split_on (count_of v g) = false) as Hcount.
    { destruct (inconsistent_count _ _) eqn:E; [|done].
      exfalso. apply Hnb. by apply elem_of_inconsistent. }
    unfold inconsistent_count in Hcount. split; intros ->.
    + rewrite decide_True in Hcount by done.
      apply negb_false_iff, Nat.eqb_eq in Hcount. done.
    + rewrite decide_False in Hcount by done.
      apply orb_false_iff in Hcount as [H1%Nat.ltb_ge H2%Nat.ltb_ge]. lia.
  - intros v Hv Hbad Hin. apply (Hgood v Hin).
    apply elem_of_inconsistent. split; [done|]. split; [|done].
    apply count_of_pos.
    destruct (count_of v g) eqn:E; [|lia]. exfalso.
    assert (v ∈ g); [|apply count_of_pos in H; lia].
    apply list_elem_of_fmap in Hin as (r & -> & [_ Hr]%list_elem_of_filter).
    apply list_elem_of_fmap. eauto.
  - intros v Hcount. apply Hkept. intros (_ & _ & E)%elem_of_inconsistent. congruence.
Qed.

Lemma remove_inconsistent_games_counts_witness :
  ∃ out g', 
    (remove_inconsistent_games (Some "team")
       (mkDataFrame ["gameid"]
          [ {[ "gameid" := Str "a" ]}; {[ "gameid" := Str "b" ]};
            {[ "gameid" := Str "a" ]}; {[ "gameid" := Str "b" ]};
            {[ "gameid" := Str "b" ]} ])).2 = Ok out ∧
    getitem out "gameid" = Ok g' ∧ Str "b" ∉ g'.
Proof.
  destruct (remove_inconsistent_games_counts (Some "team")
       (mkDataFrame ["gameid"]
          [ {[ "gameid" := Str "a" ]}; {[ "gameid" := Str "b" ]};
            {[ "gameid" := Str "a" ]}; {[ "gameid" := Str "b" ]};
            {[ "gameid" := Str "b" ]} ]))
    as (out & g & g' & Hrun & Hg & Hg' & _ & Hgone & _).
  - simpl. apply list_elem_of_here.
  - exists out, g'. split; [by rewrite Hrun|]. split; [done|].
    apply Hgone; [done|]. injection Hg as <-. reflexivity.
Defined.

(** ** The row filters *)

Lemma format_ids_run (df : DataFrame) :
  format_ids df =
    if decide ("gameid" ∈ columns df) then
      if decide ("position" ∈ columns df) then
        let df1 := mkDataFrame (columns df) (filter (λ r, has_ids r = true) (rows df)) in
        (df1, Ok df1)
      else (df, Raise (KeyError "position"))
    else (df, Raise (KeyError "gameid")).
Proof.
  unfold format_ids, mbind, M_bind. rewrite !oe_getitem_run. unfold getitem.
  repeat case_decide; try done.
  unfold get_oe_data, set_oe_data, boolean_index. simpl.
  by rewrite !notna_fmap, mask_and_fmap, select_fmap.
Qed.

Lemma remove_null_games_run (df : DataFrame) :
  remove_null_games df =
    if decide ("gameid" ∈ columns df) then
      (df, Ok (mkDataFrame (columns df) (filter has_gameid (rows df))))
    else (df, Raise (KeyError "gameid")).
Proof.
  unfold remove_null_games, mbind, M_bind, get_oe_data, lift, dropna. simpl.
  destruct (decide ("gameid" ∈ columns df)) as [Hc|Hc].
  - rewrite decide_False by (intros ?; done). done.
  - rewrite decide_True by done. done.
Qed.

Lemma drop_unknown_entities_run (df : DataFrame) :
  drop_unknown_entities df =
    if decide ("playername" ∈ columns df) then
      if decide ("teamname" ∈ columns df) then
        (df, Ok (mkDataFrame (columns df)
                   (filter (λ r, known_entities r = true) (rows df))))
      else (df, Raise (KeyError "teamname"))
    else (df, Raise (KeyError "playername")).
Proof.
  unfold drop_unknown_entities, mbind, M_bind. rewrite !oe_getitem_run. unfold getitem.
  repeat case_decide; try done.
  unfold get_oe_data, mret, M_ret, boolean_index. simpl.
  by rewrite !isin_fmap, !mask_not_fmap, mask_and_fmap, select_fmap.
Qed.

Lemma select_traverse {X Y} (f : X → Y) (g : Y → result bool) (l : list X) mask :
  traverse g (f <$> l) = Ok mask →
  select mask l = filter (λ x, g (f x) = Ok true) l.
Proof.
  revert mask. induction l as [|x l IH]; intros mask; csimpl.
  - by intros [= <-].
  - destruct (g (f x)) as [b|] eqn:E; simpl; [|done].
    destruct (traverse g (f <$> l)) as [m|]; simpl; [|done].
    intros [= <-]. rewrite filter_cons. cbn [select]. rewrite (IH m) by done.
    destruct b; [rewrite decide_True by done|rewrite decide_False by congruence]; done.
Qed.

Lemma drop_negative_earned_gpm_run (df : DataFrame) :
  drop_negative_earned_gpm df =
    if decide ("earned gpm" ∈ columns df) then
      match traverse ge_zero (row_get "earned gpm" <$> rows df) with
      | Ok _ => (df, Ok (mkDataFrame (columns df) (filter nonneg_earned_gpm (rows df))))
      | Raise e => (df, Raise e)
      end
    else (df, Raise (KeyError "earned gpm")).
Proof.
  unfold drop_negative_earned_gpm, mbind, M_bind. rewrite !oe_getitem_run. unfold getitem.
  case_decide; [|done]. unfold lift.
  destruct (traverse _ _) as [mask|] eqn:E; [|done].
  unfold get_oe_data, mret, M_ret, boolean_index. simpl.
  by rewrite (select_traverse _ _ _ _ E).
Qed.

(** A successful pass of the four filters, and the table it leaves. *)
Lemma clean_data_row_filters_Ok (df df' : DataFrame) :
  clean_data_row_filters df = (df', Ok tt) ↔
  Forall (λ c, c ∈ columns df) ["gameid"; "position"; "playername"; "teamname"; "earned gpm"] ∧
  (∃ mask, traverse ge_zero
     (row_get "earned gpm" <$>
        filter (λ r, known_entities r = true)
          (filter has_gameid (filter (λ r, has_ids r = true) (rows df)))) = Ok mask) ∧
  df' = mkDataFrame (columns df)
          (filter nonneg_earned_gpm
             (filter (λ r, known_entities r = true)
                (filter has_gameid (filter (λ r, has_ids r = true) (rows df))))).
Proof.
  unfold clean_data_row_filters, mbind, M_bind, set_oe_data.
  rewrite format_ids_run.
  rewrite !Forall_cons, Forall_nil.
  destruct (decide ("gameid" ∈ columns df)) as [Hg|Hg];
    [|split; [done|by intros [(? & ? & ? & ? & ? & _) _]]].
  destruct (decide ("position" ∈ columns df)) as [Hp|Hp];
    [|split; [done|by intros [(? & ? & ? & ? & ? & _) _]]].
  cbv beta iota zeta. rewrite remove_null_games_run. cbn [columns rows].
  rewrite decide_True by done. cbv beta iota zeta.
  rewrite drop_unknown_entities_run. cbn [columns rows].
  destruct (decide ("playername" ∈ columns df)) as [Hpn|Hpn];
    [|split; [done|by intros [(? & ? & ? & ? & ? & _) _]]].
  destruct (decide ("teamname" ∈ columns df)) as [Htn|Htn];
    [|split; [done|by intros [(? & ? & ? & ? & ? & _) _]]].
  cbv beta iota zeta. rewrite drop_negative_earned_gpm_run. cbn [columns rows].
  destruct (decide ("earned gpm" ∈ columns df)) as [He|He];
    [|split; [done|by intros [(? & ? & ? & ? & ? & _) _]]].
  destruct (traverse ge_zero _) as [mask|e];
    [|split; [done|by intros (_ & [? ?] & _)]].
  split.
  - intros [= <-]. eauto 10.
  - intros (_ & _ & ->). done.
Qed.

Lemma row_filters_fixpoint (df : DataFrame) :
  let kept := filter nonneg_earned_gpm
                (filter (λ r, known_entities r = true)
                   (filter has_gameid (filter (λ r, has_ids r = true) (rows df)))) in
  filter (λ r, known_entities r = true)
    (filter has_gameid (filter (λ r, has_ids r = true) kept)) = kept ∧
  Forall nonneg_earned_gpm kept.
Proof.
  intros kept.
  assert (Forall (λ r, has_ids r = true ∧ has_gameid r ∧ known_entities r = true
                       ∧ nonneg_earned_gpm r) kept) as Hall.
  { apply Forall_forall. intros r.
    unfold kept. rewrite !list_elem_of_filter. tauto. }
  split.
  - rewrite (filter_all (λ r, has_ids r = true))
      by (eapply Forall_impl; [exact Hall|]; intros r' ?; simpl in *; tauto).
    rewrite (filter_all has_gameid)
      by (eapply Forall_impl; [exact Hall|]; intros r' ?; simpl in *; tauto).
    apply filter_all. eapply Forall_impl; [exact Hall|]. intros r' ?; simpl in *; tauto.
  - eapply Forall_impl; [exact Hall|]. intros r' ?; simpl in *; tauto.
Qed.

(** C7: running the four row filters of [clean_data] twice leaves the same
    table, and the same outcome, as running them once. *)
Theorem row_filters_idempotent (df : DataFrame) :
  (clean_data_row_filters ≫= λ _, clean_data_row_filters) df
  = clean_data_row_filters df.
Proof.
  destruct (clean_data_row_filters df) as [df' [[]|e]] eqn:E.
  - rewrite (M_bind_Ok _ _ _ _ _ E).
    apply clean_data_row_filters_Ok in E as (Hcols & _ & ->).
    destruct (row_filters_fixpoint df) as [Hfix Hpos].
    apply clean_data_row_filters_Ok. cbn [columns rows]. cbv zeta in Hfix, Hpos.
    split; [done|]. rewrite Hfix. split.
    + apply traverse_total, Forall_fmap. eapply Forall_impl; [exact Hpos|].
      intros r Hr. exists true. exact Hr.
    + f_equal. symmetry. by apply filter_all.
  - by rewrite (M_bind_Raise _ _ _ _ _ E).
Qed.

(** The filters do run on a table that has the five columns and numbers or
    nulls as earned gold. *)
Lemma clean_data_row_filters_total (df : DataFrame) :
  Forall (λ c, c ∈ columns df) ["gameid"; "position"; "playername"; "teamname"; "earned gpm"] →
  Forall (λ r, ∀ s, row_get "earned gpm" r ≠ Str s) (rows df) →
  Forall (λ r, ∀ t, row_get "earned gpm" r ≠ Date t) (rows df) →
  ∃ df', clean_data_row_filters df = (df', Ok tt).
Proof.
  intros Hcols Hs Hd. eexists. apply clean_data_row_filters_Ok.
  split; [done|]. split; [|done].
  apply traverse_total, Forall_fmap, Forall_forall. intros r Hr.
  rewrite !list_elem_of_filter in Hr. destruct Hr as (_ & _ & _ & Hr).
  rewrite Forall_forall in Hs, Hd. specialize (Hs r Hr). specialize (Hd r Hr).
  simpl. destruct (row_get "earned gpm" r) as [|s|q|t] eqn:E; simpl; eauto.
  - by destruct (Hs s).
  - by destruct (Hd t).
Qed.

(** ** Identity backfill and opponent enrichment *)

Lemma get_opponent_Ok_inv {A} (column opp : list A) (entity : string) :
  get_opponent column entity = Ok opp →
  length opp = length column ∧ ∀ x, x ∈ opp → x ∈ column.
Proof.
  intros Hopp.
  destruct (entity_gap entity) as [gap|e] eqn:Hgap;
    [|unfold get_opponent in Hopp; by rewrite Hgap in Hopp].
  destruct (get_opponent_lookup _ _ _ _ Hgap Hopp) as [Hlen Hidx].
  split; [done|]. intros x [i Hi]%list_elem_of_lookup.
  pose proof (lookup_lt_Some _ _ _ Hi) as Hlt.
  destruct (Hidx i ltac:(lia)) as [E _]. rewrite Hi in E.
  by eapply list_elem_of_lookup_2.
Qed.

Lemma fillna_length (a b : list cell) :
  length a = length b → length (fillna a b) = length a.
Proof. intros E. unfold fillna. rewrite length_zip_with. lia. Qed.

Lemma fillna_lookup (a b : list cell) (i : nat) (x y : cell) :
  a !! i = Some x → b !! i = Some y →
  fillna a b !! i = Some (if x is NaN then y else x).
Proof.
  intros Ha Hb. unfold fillna. rewrite lookup_zip_with, Ha. simpl. by rewrite Hb.
Qed.

Lemma fillna_notna (a b : list cell) :
  length a = length b → NaN ∉ b → NaN ∉ fillna a b.
Proof.
  intros Hlen Hb [i Hi]%list_elem_of_lookup.
  destruct (lookup_lt_is_Some_2 a i) as [x Hx].
  { apply lookup_lt_Some in Hi. rewrite fillna_length in Hi; done. }
  destruct (lookup_lt_is_Some_2 b i) as [y Hy].
  { apply lookup_lt_Some in Hx. lia. }
  rewrite (fillna_lookup _ _ _ _ _ Hx Hy) in Hi.
  apply Hb. destruct x; try done. injection Hi as ->.
  by eapply list_elem_of_lookup_2.
Qed.

Lemma oe_assign_opponent_unfold (target source split_on : string) (s : DataFrame) :
  oe_assign_opponent target source split_on s =
    match getitem s source with
    | Ok col =>
        match get_opponent col split_on with
        | Ok opp =>
            match setitem s target opp with
            | Ok s' => (s', Ok tt)
            | Raise e => (s, Raise e)
            end
        | Raise e => (s, Raise e)
        end
    | Raise e => (s, Raise e)
    end.
Proof.
  unfold oe_assign_opponent, mbind, M_bind. rewrite oe_getitem_run.
  destruct (getitem s source) as [col|]; [|done]. unfold lift.
  destruct (get_opponent col split_on) as [opp|]; [|done].
  by rewrite oe_setitem_run.
Qed.

(** One opponent column: either the step raises and leaves the table as it
    was, or it writes the paired source column and touches nothing else. *)
Lemma oe_assign_opponent_run (target source split_on : string) (s : DataFrame) :
  (∃ e, oe_assign_opponent target source split_on s = (s, Raise e)) ∨
  (∃ s' col opp,
     oe_assign_opponent target source split_on s = (s', Ok tt) ∧
     getitem s source = Ok col ∧
     get_opponent col split_on = Ok opp ∧
     getitem s' target = Ok opp ∧
     ∀ c, c ≠ target → getitem s' c = getitem s c).
Proof.
  rewrite oe_assign_opponent_unfold.
  destruct (getitem s source) as [col|e] eqn:Hcol; [|left; by eexists].
  destruct (get_opponent col split_on) as [opp|e] eqn:Hopp; [|left; by eexists].
  destruct (setitem_Ok s target opp) as (s' & -> & Hget & Hother).
  { apply get_opponent_Ok_inv in Hopp as [-> _]. by eapply getitem_length. }
  right. exists s', col, opp. split_and!; done.
Qed.

(** Filling one identity column from its name column. *)
Lemma oe_fillna_run (ids names : string) (s : DataFrame) (a b : list cell) :
  getitem s ids = Ok a → getitem s names = Ok b →
  ∃ s', (a ← oe_getitem ids; b ← oe_getitem names; oe_setitem ids (fillna a b)) s
          = (s', Ok tt) ∧
    getitem s' ids = Ok (fillna a b) ∧
    ∀ c, c ≠ ids → getitem s' c = getitem s c.
Proof.
  intros Ha Hb.
  unfold mbind, M_bind. rewrite !oe_getitem_run, Ha, Hb, oe_setitem_run.
  destruct (setitem_Ok s ids (fillna a b)) as (s' & -> & Hget & Hother).
  { rewrite fillna_length; [by eapply getitem_length|].
    apply getitem_length in Ha, Hb. lia. }
  exists s'. split_and!; done.
Qed.

Lemma fill_null_team_ids_player (s : DataFrame) (t tn : list cell) :
  getitem s "teamid" = Ok t → getitem s "teamname" = Ok tn →
  ∃ s1, fill_null_team_ids "player" s = (s1, Ok s1) ∧
    getitem s1 "teamid" = Ok (fillna t tn) ∧
    ∀ c, c ≠ "teamid" → getitem s1 c = getitem s c.
Proof.
  intros Ht Htn. unfold fill_null_team_ids.
  change (String.eqb "player" "player") with true. cbv iota.
  destruct (oe_fillna_run "teamid" "teamname" s t tn Ht Htn) as (s1 & Hrun & Hget & Hoth).
  exists s1. split; [|done].
  unfold mbind at 1. unfold M_bind at 1. by rewrite Hrun.
Qed.

(** Rewrites a column read through the steps that left it untouched. *)
Ltac through_steps :=
  repeat match goal with
         | H : ∀ c, c ≠ _ → getitem ?s' c = getitem _ c |- context [getitem ?s' _] =>
             rewrite H by done
         end.

Lemma enrich_opponent_metrics_player (s : DataFrame) (p pn T : list cell) :
  getitem s "playerid" = Ok p → getitem s "playername" = Ok pn →
  getitem s "teamid" = Ok T →
  ∃ s' out, enrich_opponent_metrics "player" s = (s', out) ∧
    getitem s' "teamid" = Ok T ∧
    getitem s' "playerid" = Ok (fillna p pn) ∧
    ∀ r, out = Ok r →
      r = s' ∧
      ∃ ot op,
        getitem s' "opponentteamid" = Ok ot ∧ get_opponent T "player" = Ok ot ∧
        getitem s' "opponentid" = Ok op ∧
        get_opponent (fillna p pn) "player" = Ok op.
Proof.
  intros Hp Hpn HT. unfold enrich_opponent_metrics.
  change (String.eqb "player" "player") with true. cbv iota.
  unfold mbind, M_bind.
  rewrite oe_getitem_run, Hp. cbv beta iota.
  rewrite oe_getitem_run, Hpn. cbv beta iota.
  rewrite oe_setitem_run.
  destruct (setitem_Ok s "playerid" (fillna p pn)) as (s2 & -> & Hp2 & H2).
  { rewrite fillna_length; [by eapply getitem_length|].
    apply getitem_length in Hp, Hpn. lia. }
  cbv beta iota.
  destruct (oe_assign_opponent_run "opponentteam" "teamname" "player" s2)
    as [[e ->]|(s3 & c3 & o3 & -> & Hc3 & Ho3 & Hg3 & H3)]; cbv beta iota.
  { exists s2, (Raise e). split_and!; [done|by through_steps|done|done]. }
  destruct (oe_assign_opponent_run "opponentteamid" "teamid" "player" s3)
    as [[e ->]|(s4 & c4 & o4 & -> & Hc4 & Ho4 & Hg4 & H4)]; cbv beta iota.
  { exists s3, (Raise e). split_and!; [done|by through_steps..|done]. }
  destruct (oe_assign_opponent_run "opponentname" "playername" "player" s4)
    as [[e ->]|(s5 & c5 & o5 & -> & Hc5 & Ho5 & Hg5 & H5)]; cbv beta iota.
  { exists s4, (Raise e). split_and!; [done|by through_steps..|done]. }
  destruct (oe_assign_opponent_run "opponentid" "playerid" "player" s5)
    as [[e ->]|(s6 & c6 & o6 & -> & Hc6 & Ho6 & Hg6 & H6)]; cbv beta iota.
  { exists s5, (Raise e). split_and!; [done|by through_steps..|done]. }
  destruct (oe_assign_opponent_run "opponent_egpm" "earned gpm" "player" s6)
    as [[e ->]|(s7 & c7 & o7 & -> & Hc7 & Ho7 & Hg7 & H7)]; cbv beta iota.
  { exists s6, (Raise e). split_and!; [done|by through_steps..|done]. }
  exists s7, (Ok s7). split_and!; [done|by through_steps..|].
  intros r [= <-]. split; [done|]. exists o4, o6.
  assert (c4 = T) as -> by (revert Hc4; through_steps; congruence).
  assert (c6 = fillna p pn) as -> by (revert Hc6; through_steps; congruence).
  split_and!; [by through_steps|done|by through_steps|done].
Qed.

(** C8: with 'player', on a table whose team and player names are never
    null, lines 286-287 of [clean_data] leave no null [teamid] and no null
    [playerid]: each null id has become the row's name, whether or not the
    pairing that follows succeeds; and when it succeeds the opponent ids
    were paired from the filled columns, so they are not null either. *)
Theorem identity_backfill_before_pairing (df : DataFrame) (t tn p pn : list cell) :
  getitem df "teamid" = Ok t → getitem df "teamname" = Ok tn →
  getitem df "playerid" = Ok p → getitem df "playername" = Ok pn →
  NaN ∉ tn → NaN ∉ pn →
  ∃ df' out,
    clean_data_backfill_and_enrich "player" df = (df', out) ∧
    getitem df' "teamid" = Ok (fillna t tn) ∧
    getitem df' "playerid" = Ok (fillna p pn) ∧
    (NaN ∉ fillna t tn) ∧ (NaN ∉ fillna p pn) ∧
    (∀ i x y, t !! i = Some x → tn !! i = Some y →
       fillna t tn !! i = Some (if x is NaN then y else x)) ∧
    (∀ i x y, p !! i = Some x → pn !! i = Some y →
       fillna p pn !! i = Some (if x is NaN then y else x)) ∧
    (out = Ok tt →
     ∃ ot op,
       getitem df' "opponentteamid" = Ok ot ∧
       get_opponent (fillna t tn) "player" = Ok ot ∧
       getitem df' "opponentid" = Ok op ∧
       get_opponent (fillna p pn) "player" = Ok op ∧
       (NaN ∉ ot) ∧ (NaN ∉ op)).
Proof.
  intros Ht Htn Hp Hpn Hnt Hnp.
  assert (length t = length tn) as Hlt by (apply getitem_length in Ht, Htn; lia).
  assert (length p = length pn) as Hlp by (apply getitem_length in Hp, Hpn; lia).
  pose proof (fillna_notna t tn Hlt Hnt) as HT.
  pose proof (fillna_notna p pn Hlp Hnp) as HP.
  destruct (fill_null_team_ids_player df t tn Ht Htn) as (s1 & Hfill & Ht1 & H1).
  destruct (enrich_opponent_metrics_player s1 p pn (fillna t tn))
    as (s' & out & Hrun & Ht' & Hp' & Hout); [by through_steps..|done|].
  unfold clean_data_backfill_and_enrich, mbind, M_bind, set_oe_data.
  rewrite Hfill. cbv beta iota. rewrite Hrun.
  destruct out as [r|e].
  - destruct (Hout r eq_refl) as (-> & ot & op & Hot & Hgt & Hop & Hgp).
    exists s', (Ok tt). split_and!; try done; [by apply fillna_lookup..|].
    intros _. exists ot, op. split_and!; try done.
    + intros Hin. by apply HT, (get_opponent_Ok_inv _ _ _ Hgt).
    + intros Hin. by apply HP, (get_opponent_Ok_inv _ _ _ Hgp).
  - exists s', (Raise e). split_and!; try done; by apply fillna_lookup.
Qed.

(** ** The sort order *)

#[global] Instance cell_le_total : Total cell_le.
Proof.
  intros [|s|p|s] [|t|q|t]; simpl; auto.
  - apply (total String.le).
  - apply (total Qcle).
  - apply (total Z.le).
Qed.

#[global] Instance cell_le_trans : Transitive cell_le.
Proof.
  intros [|s|p|s] [|t|q|t] [|u|r|u]; simpl; try done.
  - apply (transitivity (R := String.le)).
  - apply (transitivity (R := Qcle)).
  - apply (transitivity (R := Z.le)).
Qed.

Lemma cell_le_refl (a : cell) : cell_le a a.
Proof. by destruct (total cell_le a a). Qed.

#[global] Instance rows_le_total by_ : Total (rows_le by_).
Proof.
  intros r1 r2. induction by_ as [|c cs IH]; simpl; [by left|].
  destruct (decide (cell_le (row_get c r1) (row_get c r2))) as [H12|H12];
    destruct (decide (cell_le (row_get c r2) (row_get c r1))) as [H21|H21].
  - destruct IH; [left|right]; done.
  - left. done.
  - right. done.
  - by destruct (total cell_le (row_get c r1) (row_get c r2)).
Qed.

#[global] Instance rows_le_trans by_ : Transitive (rows_le by_).
Proof.
  intros r1 r2 r3. induction by_ as [|c cs IH]; simpl; [done|].
  intros [H12 R12] [H23 R23]. split; [by etrans|].
  intros H31. apply IH.
  - apply R12. by etrans.
  - apply R23. by etrans.
Qed.






(** ** Last row of each group *)


Lemma tail1_subseteq (by_ : list string) (rs : list row) (r : row) :
  r ∈ tail1 by_ rs → r ∈ rs.
Proof.
  induction rs as [|x rs IH]; simpl; [done|].
  case_decide; rewrite ?elem_of_cons; [by right; apply IH|].
  intros [->|?]; [by left|by right; apply IH].
Qed.



(** ** Projection and renaming *)

Lemma getitem_list_Ok (df : DataFrame) (cs : list string) :
  Forall (λ c, c ∈ columns df) cs →
  getitem_list df cs = Ok (mkDataFrame cs (row_restrict cs <$> rows df)).
Proof.
  intros Hcs. unfold getitem_list.
  destruct (list_find _ cs) as [[i c]|] eqn:E; [|done].
  apply list_find_Some in E as (Hi & Hc & _).
  rewrite Forall_forall in Hcs. destruct Hc. eapply Hcs, list_elem_of_lookup_2, Hi.
Qed.

Lemma row_restrict_get (cs : list string) (c : string) (r : row) :
  c ∈ cs → row_get c (row_restrict cs r) = row_get c r.
Proof.
  intros Hc. unfold row_get, row_restrict. rewrite map_lookup_filter.
  destruct (r !! c); simpl; [|done]. by rewrite option_guard_True.
Qed.




(** ** Latest row per entity *)




Lemma identity_backfill_before_pairing_witness :
  ∃ df' out,
    clean_data_backfill_and_enrich "player"
      (mkDataFrame ["teamid"; "teamname"; "playerid"; "playername"]
         [ {[ "teamid" := NaN; "teamname" := Str "A";
              "playerid" := NaN; "playername" := Str "a1" ]};
           {[ "teamid" := Str "t2"; "teamname" := Str "B";
              "playerid" := Str "p2"; "playername" := Str "b1" ]} ]) = (df', out) ∧
    getitem df' "teamid" = Ok [Str "A"; Str "t2"] ∧
    getitem df' "playerid" = Ok [Str "a1"; Str "p2"].
Proof.
  destruct (identity_backfill_before_pairing
      (mkDataFrame ["teamid"; "teamname"; "playerid"; "playername"]
         [ {[ "teamid" := NaN; "teamname" := Str "A";
              "playerid" := NaN; "playername" := Str "a1" ]};
           {[ "teamid" := Str "t2"; "teamname" := Str "B";
              "playerid" := Str "p2"; "playername" := Str "b1" ]} ])
      [NaN; Str "t2"] [Str "A"; Str "B"] [NaN; Str "p2"] [Str "a1"; Str "b1"])
    as (df' & out & Hrun & Ht & Hp & _).
  - reflexivity.
  - reflexivity.
  - reflexivity.
  - reflexivity.
  - rewrite !elem_of_cons, elem_of_nil. intros [?|[?|?]]; done.
  - rewrite !elem_of_cons, elem_of_nil. intros [?|[?|?]]; done.
  - exists df', out. split; [exact Hrun|]. split; [exact Ht|exact Hp].
Defined.



(** ** Worked examples *)

(** Ten rows of one player game: blue positions 0-4, red positions 5-9. *)
Example get_opponent_player_game :
  get_opponent [0; 1; 2; 3; 4; 5; 6; 7; 8; 9] "player"
  = Ok [5; 6; 7; 8; 9; 0; 1; 2; 3; 4].
Proof. reflexivity. Qed.

(** A game of three rows in team view is dropped whole. *)
Example remove_inconsistent_games_three_rows :
  (remove_inconsistent_games (Some "team")
     (mkDataFrame ["gameid"]
        [ {[ "gameid" := Str "g1" ]}; {[ "gameid" := Str "g2" ]};
          {[ "gameid" := Str "g1" ]}; {[ "gameid" := Str "g2" ]};
          {[ "gameid" := Str "g2" ]} ])).2
  = Ok (mkDataFrame ["gameid"]
          [ {[ "gameid" := Str "g1" ]}; {[ "gameid" := Str "g1" ]} ]).
Proof. vm_compute. reflexivity. Qed.

(** Rows without a game id are not counted and pass the consistency filter. *)
Example remove_inconsistent_games_null_ids :
  (remove_inconsistent_games (Some "team")
     (mkDataFrame ["gameid"]
        [ {[ "gameid" := NaN ]}; {[ "gameid" := NaN ]}; {[ "gameid" := NaN ]} ])).2
  = Ok (mkDataFrame ["gameid"]
          [ {[ "gameid" := NaN ]}; {[ "gameid" := NaN ]}; {[ "gameid" := NaN ]} ]).
Proof. vm_compute. reflexivity. Qed.

(** The latest row of each team, most recent date last in its group. *)
Example flattened_teams_dates :
  (out ← flattened_teams
      (mkDataFrame ("teamid" :: flattened_team_columns)
         [ {[ "teamid" := Str "t1"; "date" := Date 20; "teamname" := Str "A" ]};
           {[ "teamid" := Str "t2"; "date" := Date 10; "teamname" := Str "B" ]};
           {[ "teamid" := Str "t1"; "date" := Date 30; "teamname" := Str "A" ]} ]);
   getitem out "date")
  = Ok [Date 30; Date 10].
Proof. vm_compute. reflexivity. Qed.

(** The filters keep the well-formed row and drop the other three. *)
Example clean_data_row_filters_run :
  (clean_data_row_filters
     (mkDataFrame ["gameid"; "position"; "playername"; "teamname"; "earned gpm"]
        [ {[ "gameid" := Str "g"; "position" := Str "top"; "playername" := Str "p";
             "teamname" := Str "T"; "earned gpm" := Num (Qc_of_Z 250) ]};
          {[ "gameid" := NaN; "position" := Str "top"; "playername" := Str "p";
             "teamname" := Str "T"; "earned gpm" := Num (Qc_of_Z 250) ]};
          {[ "gameid" := Str "g"; "position" := Str "mid";
             "playername" := Str "unknown player";
             "teamname" := Str "T"; "earned gpm" := Num (Qc_of_Z 250) ]};
          {[ "gameid" := Str "g"; "position" := Str "bot"; "playername" := Str "q";
             "teamname" := Str "T"; "earned gpm" := Num (Qc_of_Z (-3)) ]} ]))
  = (mkDataFrame ["gameid"; "position"; "playername"; "teamname"; "earned gpm"]
        [ {[ "gameid" := Str "g"; "position" := Str "top"; "playername" := Str "p";
             "teamname" := Str "T"; "earned gpm" := Num (Qc_of_Z 250) ]} ],
     Ok tt).
Proof. vm_compute. reflexivity. Qed.

(** * Further properties *)

(** ** The opponent walk: composition *)

Lemma traverse_app {A B} (f : A → result B) (xs ys : list A) :
  traverse f (xs ++ ys) =
    (l1 ← traverse f xs; l2 ← traverse f ys; Ok (l1 ++ l2)).
Proof.
  induction xs as [|x xs IH]; simpl.
  - by destruct (traverse f ys).
  - destruct (f x); simpl; [|done]. rewrite IH.
    destruct (traverse f xs); simpl; [|done].
    by destruct (traverse f ys).
Qed.

Lemma traverse_ext {A B} (f g : A → result B) (xs : list A) :
  Forall (λ x, f x = g x) xs → traverse f xs = traverse g xs.
Proof.
  induction 1 as [|x xs Hx _ IH]; simpl; [done|]. by rewrite Hx, IH.
Qed.

Lemma traverse_fmap_arg {A B C} (f : B → result C) (h : A → B) (xs : list A) :
  traverse f (h <$> xs) = traverse (λ x, f (h x)) xs.
Proof. induction xs as [|x xs IH]; csimpl; [done|]. by rewrite IH. Qed.

Lemma traverse_fmap_res {A B C} (f : A → result B) (h : B → C) (xs : list A) :
  traverse (λ x, match f x with Ok y => Ok (h y) | Raise e => Raise e end) xs =
    match traverse f xs with
    | Ok ys => Ok (h <$> ys)
    | Raise e => Raise e
    end.
Proof.
  induction xs as [|x xs IH]; simpl; [done|].
  destruct (f x); simpl; [|done]. rewrite IH.
  by destruct (traverse f xs).
Qed.

(** Reading a whole list back, index by index. *)
Lemma traverse_lookups {A} (col l : list A) (start : nat) (idx : nat → Z) :
  (∀ j : nat, (j < length l)%nat →
     0 ≤ idx (start + j)%nat ∧ col !! Z.to_nat (idx (start + j)%nat) = l !! j) →
  traverse (λ j : nat, list_getitem col (idx j)) (seq start (length l)) = Ok l.
Proof.
  intros H. apply traverse_Forall2.
  apply Forall2_same_length_lookup. split; [by rewrite length_seq|].
  intros j i x Hi Hx. apply lookup_seq in Hi as [-> Hj].
  destruct (H j Hj) as [Hnn Hl]. simpl.
  rewrite list_getitem_nonneg by done. by rewrite Hl, Hx.
Qed.

Lemma list_getitem_fmap {A B} (f : A → B) (l : list A) (i : Z) :
  list_getitem (f <$> l) i =
    match list_getitem l i with Ok x => Ok (f x) | Raise e => Raise e end.
Proof.
  unfold list_getitem. rewrite length_fmap.
  destruct (_ || _); [done|]. rewrite list_lookup_fmap.
  by destruct (l !! _).
Qed.

Lemma list_getitem_drop {A} (pre l : list A) (i : Z) :
  0 ≤ i → list_getitem (pre ++ l) (i + Z.of_nat (length pre)) = list_getitem l i.
Proof.
  intros Hi. rewrite !list_getitem_nonneg by lia.
  replace (Z.to_nat (i + Z.of_nat (length pre)))
    with (length pre + Z.to_nat i)%nat by lia.
  by rewrite lookup_app_r, Nat.add_comm, Nat.add_sub by lia.
Qed.

Lemma opponent_index_shift (gap i : Z) :
  0 < gap → opponent_index gap (i + 2 * gap) = opponent_index gap i + 2 * gap.
Proof.
  intros Hg. unfold opponent_index.
  replace (i + 2 * gap) with (i + 1 * (2 * gap)) by lia.
  rewrite Z.mod_add by lia.
  destruct (_ <? _); lia.
Qed.

(** One whole window in front of a list: the walk pairs the window and goes
    on with the rest. *)
Lemma get_opponent_app_window {A} (a b rest : list A) (entity : string) (g : nat) :
  entity_gap entity = Ok (Z.of_nat g) → 0 < Z.of_nat g →
  length a = g → length b = g →
  get_opponent (a ++ b ++ rest) entity =
    match get_opponent rest entity with
    | Ok opp => Ok (b ++ a ++ opp)
    | Raise e => Raise e
    end.
Proof.
  intros Hgap Hg Ha Hb.
  rewrite !(get_opponent_traverse _ _ _ Hgap).
  rewrite !length_app, Ha, Hb, !seq_app, !traverse_app.
  set (col := a ++ b ++ rest).
  replace (seq 0 g) with (seq 0 (length b)) by (by rewrite Hb).
  rewrite (traverse_lookups col b 0 (λ j, opponent_index (Z.of_nat g) (Z.of_nat j))).
  2:{ intros j Hj. simpl.
      pose proof (opponent_index_first_half (Z.of_nat g) 0 (Z.of_nat j) Hg ltac:(lia)) as E.
      rewrite Z.mul_0_r, Z.add_0_l in E. rewrite E. split; [lia|].
      unfold col. replace (Z.to_nat (Z.of_nat j + Z.of_nat g)) with (length a + j)%nat by lia.
      rewrite lookup_app_r by lia. rewrite lookup_app_l by lia. f_equal. lia. }
  simpl. replace (seq g g) with (seq (0 + g) (length a)) by (by rewrite Ha).
  rewrite (traverse_lookups col a (0 + g) (λ j, opponent_index (Z.of_nat g) (Z.of_nat j))).
  2:{ intros j Hj. simpl.
      pose proof (opponent_index_second_half (Z.of_nat g) 0 (Z.of_nat j) Hg ltac:(lia)) as E.
      rewrite Z.mul_0_r, Z.add_0_l in E.
      replace (Z.of_nat (g + j)) with (Z.of_nat g + Z.of_nat j) by lia.
      rewrite E. split; [lia|].
      unfold col. replace (Z.to_nat (0 + Z.of_nat j)) with j by lia.
      by rewrite lookup_app_l by lia. }
  simpl.
  replace (seq (g + g) (length rest)) with (Nat.add (g + g) <$> seq 0 (length rest))
    by (rewrite fmap_add_seq; f_equal; lia).
  rewrite traverse_fmap_arg.
  rewrite (traverse_ext _
             (λ j : nat, list_getitem rest (opponent_index (Z.of_nat g) (Z.of_nat j)))).
  { by destruct (traverse _ _). }
  apply Forall_forall. intros j _.
  replace (Z.of_nat (g + g + j)) with (Z.of_nat j + 2 * Z.of_nat g) by lia.
  rewrite opponent_index_shift by done.
  unfold col. rewrite app_assoc.
  replace (2 * Z.of_nat g) with (Z.of_nat (length (a ++ b))) by (rewrite length_app; lia).
  apply list_getitem_drop, opponent_index_nonneg; lia.
Qed.

(** X1: pairing distributes over whole windows: a list that starts with one
    window [a ++ b] (both of length [g]) is paired into [b ++ a] followed by
    the pairing of the rest, and it fails exactly when the rest fails. *)
Theorem get_opponent_window {A} (a b rest : list A) (entity : string) (g : nat) :
  (entity = "team" ∧ g = 1%nat) ∨ (entity = "player" ∧ g = 5%nat) →
  length a = g → length b = g →
  get_opponent (a ++ b ++ rest) entity =
    match get_opponent rest entity with
    | Ok opp => Ok (b ++ a ++ opp)
    | Raise e => Raise e
    end.
Proof.
  intros Hent Ha Hb. destruct (entity_gap_of _ _ Hent) as [Hgap Hg].
  by apply (get_opponent_app_window a b rest entity g).
Qed.

Lemma get_opponent_window_witness :
  get_opponent ([1] ++ [2] ++ [3; 4]) "team" = Ok ([2] ++ [1] ++ [4; 3]).
Proof.
  rewrite (get_opponent_window [1] [2] [3; 4] "team" 1).
  - reflexivity.
  - left. split; reflexivity.
  - reflexivity.
  - reflexivity.
Defined.

(** X2: pairing commutes with any function applied to the elements, errors
    included: the opponent columns of two columns of one table describe the
    same rows. *)
Theorem get_opponent_fmap {A B} (f : A → B) (column : list A) (entity : string) :
  get_opponent (f <$> column) entity =
    match get_opponent column entity with
    | Ok opp => Ok (f <$> opp)
    | Raise e => Raise e
    end.
Proof.
  destruct (entity_gap entity) as [gap|e] eqn:Hgap.
  - rewrite !(get_opponent_traverse _ _ _ Hgap), length_fmap.
    rewrite <- traverse_fmap_res. apply traverse_ext, Forall_forall.
    intros j _. apply list_getitem_fmap.
  - unfold get_opponent. by rewrite Hgap.
Qed.

(** A successful walk covers whole windows only. *)
Lemma get_opponent_Ok_windows {A} (column opp : list A) (entity : string) (g : nat) :
  (entity = "team" ∧ g = 1%nat) ∨ (entity = "player" ∧ g = 5%nat) →
  get_opponent column entity = Ok opp →
  ∃ k : nat, length column = (2 * g * k)%nat.
Proof.
  intros Hent Hopp. destruct (entity_gap_of _ _ Hent) as [Hgap Hg].
  set (n := Z.of_nat (length column)). set (m := 2 * Z.of_nat g).
  pose proof (Z.mod_pos_bound n m ltac:(lia)) as Hb.
  pose proof (Z.div_mod n m ltac:(lia)) as Hd.
  assert (0 ≤ n `div` m) by (apply Z.div_pos; lia).
  destruct (decide (n `mod` m = 0)) as [Hz|Hnz].
  { exists (Z.to_nat (n `div` m)). unfold n, m in *. nia. }
  exfalso.
  rewrite (get_opponent_traverse _ _ _ Hgap) in Hopp.
  apply traverse_Forall2 in Hopp.
  assert (∃ i : nat, (i < length column)%nat ∧
            n ≤ opponent_index (Z.of_nat g) (Z.of_nat i)) as (i & Hi & Hout).
  { destruct (decide (n `mod` m ≤ Z.of_nat g)) as [Hr|Hr].
    - exists (Z.to_nat (m * (n `div` m))). split; [unfold n in *; nia|].
      rewrite Z2Nat.id by nia.
      pose proof (opponent_index_first_half (Z.of_nat g) (n `div` m) 0 Hg ltac:(lia)) as E.
      rewrite Z.add_0_r in E. fold m in E. rewrite E. lia.
    - exists (Z.to_nat (m * (n `div` m) + (n `mod` m - Z.of_nat g))).
      split; [unfold n in *; nia|]. rewrite Z2Nat.id by nia.
      pose proof (opponent_index_first_half (Z.of_nat g) (n `div` m)
                    (n `mod` m - Z.of_nat g) Hg ltac:(lia)) as E.
      fold m in E. rewrite E. lia. }
  destruct (Forall2_lookup_l _ _ _ i i Hopp) as (y & _ & Hy).
  { apply lookup_seq. lia. }
  simpl in Hy. rewrite list_getitem_nonneg in Hy by (unfold n in *; lia).
  rewrite lookup_ge_None_2 in Hy; [done|unfold n in *; lia].
Qed.

(** X3: a successful pairing only rearranges the column: the result is a
    permutation of the input. *)
Theorem get_opponent_Permutation {A} (column opp : list A) (entity : string) :
  get_opponent column entity = Ok opp → opp ≡ₚ column.
Proof.
  intros Hopp.
  destruct (entity_gap entity) as [gap|e] eqn:Hgap;
    [|unfold get_opponent in Hopp; by rewrite Hgap in Hopp].
  assert (∃ g : nat, (entity = "team" ∧ g = 1%nat) ∨ (entity = "player" ∧ g = 5%nat))
    as [g Hent].
  { destruct (entity_gap_cases _ _ Hgap) as [[-> _]|[-> _]]; eauto. }
  destruct (get_opponent_Ok_windows _ _ _ _ Hent Hopp) as [k Hk].
  assert (0 < g)%nat as Hg by (destruct Hent as [[_ ->]|[_ ->]]; lia).
  clear Hgap gap. revert column opp Hopp Hk.
  induction k as [|k IH]; intros column opp Hopp Hk.
  - rewrite Nat.mul_0_r in Hk. apply nil_length_inv in Hk as ->.
    destruct Hent as [[-> _]|[-> _]]; by injection Hopp as <-.
  - rewrite <- (take_drop g column) in Hopp |- *.
    rewrite <- (take_drop g (drop g column)) in Hopp |- *.
    set (a := take g column) in *. set (b := take g (drop g column)) in *.
    set (rest := drop g (drop g column)) in *.
    assert (length a = g) as Ha by (unfold a; rewrite length_take; nia).
    assert (length b = g) as Hb by (unfold b; rewrite length_take, length_drop; nia).
    rewrite (get_opponent_app_window a b rest entity g) in Hopp
      by (destruct (entity_gap_of _ _ Hent); done).
    destruct (get_opponent rest entity) as [opp'|] eqn:Hrest; [|done].
    injection Hopp as <-.
    rewrite (IH rest opp' Hrest).
    + rewrite !app_assoc. f_equiv. apply Permutation_app_comm.
    + unfold rest. rewrite !length_drop. nia.
Qed.

Lemma get_opponent_Permutation_witness :
  [2; 1; 4; 3] ≡ₚ [1; 2; 3; 4].
Proof.
  apply (get_opponent_Permutation [1; 2; 3; 4] [2; 1; 4; 3] "team").
  reflexivity.
Defined.

Lemma opponent_index_distance (gap i : Z) :
  0 < gap → Z.abs (opponent_index gap i - i) = gap.
Proof. intros Hg. unfold opponent_index. destruct (_ <? _); lia. Qed.

(** X4: pairing is mutual and never pairs a position with itself: in a
    successful result every position [i] holds the element of a position [j]
    exactly [g] away, and position [j] holds the element of [i]. *)
Theorem get_opponent_mutual {A} (column opp : list A) (entity : string) (g : nat) :
  (entity = "team" ∧ g = 1%nat) ∨ (entity = "player" ∧ g = 5%nat) →
  get_opponent column entity = Ok opp →
  ∀ i : nat, (i < length column)%nat →
    ∃ j : nat, (j < length column)%nat ∧ j ≠ i ∧
      (j = i + g ∨ i = j + g)%nat ∧
      opp !! i = column !! j ∧ opp !! j = column !! i.
Proof.
  intros Hent Hopp i Hi. destruct (entity_gap_of _ _ Hent) as [Hgap Hg].
  destruct (get_opponent_lookup _ _ _ _ Hgap Hopp) as [Hlen Hidx].
  destruct (get_opponent_Ok_windows _ _ _ _ Hent Hopp) as [k Hk].
  pose proof (opponent_index_in_window (Z.of_nat g) (Z.of_nat i) (Z.of_nat k) Hg
                ltac:(nia)) as Hin.
  pose proof (opponent_index_distance (Z.of_nat g) (Z.of_nat i) Hg) as Hdist.
  set (j := Z.to_nat (opponent_index (Z.of_nat g) (Z.of_nat i))).
  assert (j < length column)%nat as Hj by (unfold j; nia).
  exists j. split; [done|]. split; [unfold j; lia|]. split; [unfold j; lia|].
  split; [apply (Hidx i Hi)|].
  destruct (Hidx j Hj) as [-> _]. f_equal. unfold j.
  rewrite Z2Nat.id by lia. rewrite opponent_index_involutive by done. lia.
Qed.

Lemma get_opponent_mutual_witness :
  ∃ j : nat, (j < 4)%nat ∧ j ≠ 2%nat ∧ (j = 2 + 1 ∨ 2 = j + 1)%nat ∧
    [2; 1; 4; 3] !! 2%nat = [1; 2; 3; 4] !! j ∧ [2; 1; 4; 3] !! j = [1; 2; 3; 4] !! 2%nat.
Proof.
  apply (get_opponent_mutual [1; 2; 3; 4] [2; 1; 4; 3] "team" 1).
  - left. split; reflexivity.
  - reflexivity.
  - simpl. lia.
Defined.

(** ** Subsetting *)

Lemma getitem_list_KeyError (df : DataFrame) (cs : list string) :
  ¬ Forall (λ c, c ∈ columns df) cs →
  ∃ c, c ∈ cs ∧ (c ∉ columns df) ∧ getitem_list df cs = Raise (KeyError c).
Proof.
  intros Hcs. unfold getitem_list.
  destruct (list_find _ cs) as [[i c]|] eqn:E.
  - apply list_find_Some in E as (Hi & Hc & _).
    exists c. split; [by eapply list_elem_of_lookup_2|done].
  - destruct Hcs. apply list_find_None in E.
    eapply Forall_impl; [exact E|]. intros c Hc. simpl in Hc.
    by destruct (decide (c ∈ columns df)).
Qed.

Lemma subset_data_run (split_on : option string) (cs : list string) (df : DataFrame) :
  (split_on = Some "team" ∧ cs = team_columns) ∨
  (split_on = Some "player" ∧ cs = player_columns) →
  subset_data split_on df = (df, getitem_list df cs).
Proof. intros [[-> ->]|[-> ->]]; reflexivity. Qed.

(** X5: [subset_data] is a pure projection.  When the table has every
    column of the view it returns a frame with exactly those columns, as
    many rows, and the same cells in each of them, and it leaves
    [self.oe_data] alone; when a column of the view is missing it raises
    [KeyError] for a missing column. *)
Theorem subset_data_projection (split_on : option string) (cs : list string)
    (df : DataFrame) :
  (split_on = Some "team" ∧ cs = team_columns) ∨
  (split_on = Some "player" ∧ cs = player_columns) →
  (Forall (λ c, c ∈ columns df) cs →
   ∃ out, subset_data split_on df = (df, Ok out) ∧
     columns out = cs ∧
     length (rows out) = length (rows df) ∧
     (∀ c, c ∈ cs → getitem out c = getitem df c) ∧
     (∀ c, c ∉ cs → getitem out c = Raise (KeyError c))) ∧
  (¬ Forall (λ c, c ∈ columns df) cs →
   ∃ c, c ∈ cs ∧ (c ∉ columns df) ∧
     subset_data split_on df = (df, Raise (KeyError c))).
Proof.
  intros Hsplit. rewrite (subset_data_run _ _ _ Hsplit). split.
  - intros Hcs. rewrite getitem_list_Ok by done. eexists. split; [done|].
    cbn [columns rows]. rewrite length_fmap. split_and!; try done.
    + intros c Hc. rewrite Forall_forall in Hcs.
      rewrite !getitem_Ok by auto. cbn [rows]. f_equal.
      rewrite <- list_fmap_compose. apply list_fmap_ext. intros _ r _. simpl.
      by apply row_restrict_get.
    + intros c Hc. unfold getitem. cbn [columns]. by rewrite decide_False.
  - intros Hcs. destruct (getitem_list_KeyError df cs Hcs) as (c & ? & ? & ->).
    by exists c.
Qed.

Lemma subset_data_projection_witness :
  ∃ c, c ∈ team_columns ∧ (c ∉ ["gameid"]) ∧
    subset_data (Some "team") (mkDataFrame ["gameid"] []) =
      (mkDataFrame ["gameid"] [], Raise (KeyError c)).
Proof.
  apply (proj2 (subset_data_projection (Some "team") team_columns
                  (mkDataFrame ["gameid"] []) (or_introl (conj eq_refl eq_refl)))).
  intros H. apply Forall_cons in H as [H _]. simpl in H.
  apply list_elem_of_singleton in H. discriminate H.
Defined.

(** ** The consistency filter *)

Lemma remove_inconsistent_games_KeyError (split_on : option string) (df : DataFrame) :
  "gameid" ∉ columns df →
  remove_inconsistent_games split_on df = (df, Raise (KeyError "gameid")).
Proof.
  intros Hc. unfold remove_inconsistent_games, mbind, M_bind.
  rewrite oe_getitem_run. unfold getitem. by rewrite decide_False.
Qed.

(** X6: the consistency filter is idempotent: the table it returns passes
    it unchanged. *)
Theorem remove_inconsistent_games_idempotent (split_on : option string)
    (df out : DataFrame) :
  remove_inconsistent_games split_on df = (df, Ok out) →
  remove_inconsistent_games split_on out = (out, Ok out).
Proof.
  intros Hrun.
  destruct (decide ("gameid" ∈ columns df)) as [Hc|Hc];
    [|by rewrite remove_inconsistent_games_KeyError in Hrun].
  rewrite remove_inconsistent_games_run in Hrun by done.
  injection Hrun as <-.
  rewrite remove_inconsistent_games_run by done. cbn [columns rows].
  do 3 f_equal. apply filter_all, Forall_forall.
  intros r [Hr Hin]%list_elem_of_filter.
  apply negb_true_iff, bool_decide_eq_false in Hr.
  apply negb_true_iff, bool_decide_eq_false.
  intros (Hnn & Hmem & Hbad)%elem_of_inconsistent. apply Hr.
  rewrite count_of_filter_fmap in Hbad.
  - apply elem_of_inconsistent. split; [done|]. split; [|done].
    apply list_elem_of_fmap. eauto.
  - intros r' E. apply negb_true_iff, bool_decide_eq_false. by rewrite E.
Qed.

Lemma remove_inconsistent_games_idempotent_witness :
  remove_inconsistent_games (Some "team")
    (mkDataFrame ["gameid"] [ {[ "gameid" := Str "a" ]}; {[ "gameid" := Str "a" ]} ])
  = (mkDataFrame ["gameid"] [ {[ "gameid" := Str "a" ]}; {[ "gameid" := Str "a" ]} ],
     Ok (mkDataFrame ["gameid"] [ {[ "gameid" := Str "a" ]}; {[ "gameid" := Str "a" ]} ])).
Proof.
  apply (remove_inconsistent_games_idempotent (Some "team")
    (mkDataFrame ["gameid"]
       [ {[ "gameid" := Str "a" ]}; {[ "gameid" := Str "b" ]}; {[ "gameid" := Str "a" ]} ])).
  vm_compute. reflexivity.
Defined.

(** X7: for any [split_on] other than 'team' - 'player', [None], or any
    other value - the filter raises nothing and keeps exactly the rows whose
    game id is null or occurs at most ten times in the table; without a
    [gameid] column it raises [KeyError] for every [split_on]. *)
Theorem remove_inconsistent_games_not_team (split_on : option string) (df : DataFrame) :
  ("gameid" ∈ columns df → split_on ≠ Some "team" →
   remove_inconsistent_games split_on df =
     (df, Ok (mkDataFrame (columns df)
                (filter (λ r, row_get "gameid" r = NaN ∨
                              (count_of (row_get "gameid" r)
                                 (row_get "gameid" <$> rows df) ≤ 10)%nat)
                        (rows df))))) ∧
  ("gameid" ∉ columns df →
   remove_inconsistent_games split_on df = (df, Raise (KeyError "gameid"))).
Proof.
  split; [|apply remove_inconsistent_games_KeyError].
  intros Hc Hsplit. rewrite remove_inconsistent_games_run by done.
  do 3 f_equal. apply list_filter_iff. intros r.
  rewrite negb_true_iff, bool_decide_eq_false, elem_of_inconsistent.
  unfold inconsistent_count. rewrite decide_False by done.
  rewrite orb_true_iff, Nat.ltb_lt, Nat.ltb_lt.
  destruct (decide (row_get "gameid" r = NaN)) as [E|E]; [tauto|].
  split.
  - intros H. right. apply Nat.nlt_ge. intros Hlt. apply H.
    split; [done|]. split; [|by right].
    apply count_of_pos. eapply Nat.lt_trans; [|exact Hlt]. lia.
  - intros [?|Hle] (_ & Hin & Hbad); [done|].
    apply count_of_pos in Hin. lia.
Qed.

Lemma remove_inconsistent_games_not_team_witness :
  remove_inconsistent_games None
    (mkDataFrame ["gameid"] [ {[ "gameid" := Str "a" ]}; {[ "gameid" := NaN ]} ])
  = (mkDataFrame ["gameid"] [ {[ "gameid" := Str "a" ]}; {[ "gameid" := NaN ]} ],
     Ok (mkDataFrame ["gameid"] [ {[ "gameid" := Str "a" ]}; {[ "gameid" := NaN ]} ])).
Proof.
  rewrite (proj1 (remove_inconsistent_games_not_team None
    (mkDataFrame ["gameid"] [ {[ "gameid" := Str "a" ]}; {[ "gameid" := NaN ]} ]))).
  - vm_compute. reflexivity.
  - apply list_elem_of_here.
  - discriminate.
Defined.

(** ** The row filters: what is left *)

Lemma notna_true (c : cell) : notna c = true ↔ c ≠ NaN.
Proof. destruct c; simpl; split; congruence. Qed.

Lemma has_ids_spec (r : row) :
  has_ids r = true ↔ row_get "gameid" r ≠ NaN ∧ row_get "position" r ≠ NaN.
Proof. unfold has_ids. by rewrite andb_true_iff, !notna_true. Qed.

Lemma has_gameid_spec (r : row) : has_gameid r ↔ row_get "gameid" r ≠ NaN.
Proof.
  unfold has_gameid. rewrite Forall_cons, Forall_nil. tauto.
Qed.

Lemma known_entities_spec (r : row) :
  known_entities r = true ↔
  row_get "playername" r ≠ Str "unknown player" ∧
  row_get "teamname" r ≠ Str "unknown team".
Proof.
  unfold known_entities.
  rewrite andb_true_iff, !negb_true_iff, !bool_decide_eq_false, !list_elem_of_singleton.
  done.
Qed.

Lemma nonneg_earned_gpm_spec (r : row) :
  nonneg_earned_gpm r ↔ ∃ q, row_get "earned gpm" r = Num q ∧ (Qc_of_Z 0 ≤ q)%Qc.
Proof.
  unfold nonneg_earned_gpm. destruct (row_get "earned gpm" r) as [|s|q|t]; simpl.
  - split; [done|]. by intros (? & ? & _).
  - split; [done|]. by intros (? & ? & _).
  - split.
    + intros [= H]. apply bool_decide_eq_true in H. eauto.
    + intros (q' & [= <-] & H). f_equal. by apply bool_decide_eq_true.
  - split; [done|]. by intros (? & ? & _).
Qed.

(** X8: when the four row filters succeed, the table keeps its columns and
    its rows are exactly the rows of the input, in their order and as often
    as they occur, with a game id and a position, a player and a team that
    are not the 'unknown' placeholders, and a numeric earned gold per minute
    that is not negative. *)
Theorem clean_data_row_filters_post (df df' : DataFrame) :
  clean_data_row_filters df = (df', Ok tt) →
  columns df' = columns df ∧
  rows df' =
    filter (λ r, row_get "gameid" r ≠ NaN ∧ row_get "position" r ≠ NaN ∧
                 row_get "playername" r ≠ Str "unknown player" ∧
                 row_get "teamname" r ≠ Str "unknown team" ∧
                 ge_zero (row_get "earned gpm" r) = Ok true)
           (rows df) ∧
  rows df' `sublist_of` rows df ∧
  ∀ r, r ∈ rows df' ↔
       r ∈ rows df ∧
       row_get "gameid" r ≠ NaN ∧ row_get "position" r ≠ NaN ∧
       row_get "playername" r ≠ Str "unknown player" ∧
       row_get "teamname" r ≠ Str "unknown team" ∧
       ∃ q, row_get "earned gpm" r = Num q ∧ (Qc_of_Z 0 ≤ q)%Qc.
Proof.
  intros (_ & _ & ->)%clean_data_row_filters_Ok. cbn [columns rows].
  split; [done|]. split; [|split].
  - rewrite !list_filter_filter. apply list_filter_iff. intros r.
    rewrite has_ids_spec, has_gameid_spec, known_entities_spec.
    unfold nonneg_earned_gpm. tauto.
  - repeat (etrans; [apply sublist_filter|]). done.
  - intros r. rewrite !list_elem_of_filter.
    rewrite has_ids_spec, has_gameid_spec, known_entities_spec, nonneg_earned_gpm_spec.
    tauto.
Qed.

Lemma clean_data_row_filters_post_witness :
  [ ({[ "gameid" := Str "g"; "position" := Str "top"; "playername" := Str "p";
        "teamname" := Str "t"; "earned gpm" := Num (Qc_of_Z 3) ]} : row);
    {[ "gameid" := Str "g"; "position" := Str "top"; "playername" := Str "p";
       "teamname" := Str "t"; "earned gpm" := Num (Qc_of_Z 3) ]} ]
  = filter (λ r, row_get "gameid" r ≠ NaN ∧ row_get "position" r ≠ NaN ∧
                 row_get "playername" r ≠ Str "unknown player" ∧
                 row_get "teamname" r ≠ Str "unknown team" ∧
                 ge_zero (row_get "earned gpm" r) = Ok true)
      [ {[ "gameid" := Str "g"; "position" := Str "top"; "playername" := Str "p";
           "teamname" := Str "t"; "earned gpm" := Num (Qc_of_Z 3) ]};
        {[ "gameid" := Str "g"; "position" := Str "top"; "playername" := Str "q";
           "teamname" := Str "unknown team"; "earned gpm" := Num (Qc_of_Z 4) ]};
        {[ "gameid" := Str "g"; "position" := Str "top"; "playername" := Str "p";
           "teamname" := Str "t"; "earned gpm" := Num (Qc_of_Z 3) ]} ].
Proof.
  assert (clean_data_row_filters
            (mkDataFrame ["gameid"; "position"; "playername"; "teamname"; "earned gpm"]
               [ {[ "gameid" := Str "g"; "position" := Str "top"; "playername" := Str "p";
                    "teamname" := Str "t"; "earned gpm" := Num (Qc_of_Z 3) ]};
                 {[ "gameid" := Str "g"; "position" := Str "top"; "playername" := Str "q";
                    "teamname" := Str "unknown team"; "earned gpm" := Num (Qc_of_Z 4) ]};
                 {[ "gameid" := Str "g"; "position" := Str "top"; "playername" := Str "p";
                    "teamname" := Str "t"; "earned gpm" := Num (Qc_of_Z 3) ]} ])
          = (mkDataFrame ["gameid"; "position"; "playername"; "teamname"; "earned gpm"]
               [ {[ "gameid" := Str "g"; "position" := Str "top"; "playername" := Str "p";
                    "teamname" := Str "t"; "earned gpm" := Num (Qc_of_Z 3) ]};
                 {[ "gameid" := Str "g"; "position" := Str "top"; "playername" := Str "p";
                    "teamname" := Str "t"; "earned gpm" := Num (Qc_of_Z 3) ]} ],
             Ok tt)) as Hrun by (vm_compute; reflexivity).
  destruct (clean_data_row_filters_post _ _ Hrun) as (_ & Hrows & _).
  exact Hrows.
Defined.

(** X9: [remove_null_games] is redundant after [format_ids]: on the table
    [format_ids] leaves it removes nothing. *)
Theorem remove_null_games_after_format_ids (df df1 r : DataFrame) :
  format_ids df = (df1, Ok r) →
  remove_null_games df1 = (df1, Ok df1).
Proof.
  rewrite format_ids_run. repeat case_decide; try done.
  intros [= <- _]. rewrite remove_null_games_run. cbn [columns rows].
  rewrite decide_True by done. do 3 f_equal.
  apply filter_all, Forall_forall. intros r' [Hr' _]%list_elem_of_filter.
  apply has_gameid_spec. by apply has_ids_spec in Hr' as [? _].
Qed.

Lemma remove_null_games_after_format_ids_witness :
  remove_null_games (mkDataFrame ["gameid"; "position"] [])
  = (mkDataFrame ["gameid"; "position"] [], Ok (mkDataFrame ["gameid"; "position"] [])).
Proof.
  apply (remove_null_games_after_format_ids
           (mkDataFrame ["gameid"; "position"]
              [ {[ "gameid" := NaN; "position" := Str "top" ]} ])
           _ (mkDataFrame ["gameid"; "position"] [])).
  vm_compute. reflexivity.
Defined.

(** ** Opponent enrichment: failures and success *)

Lemma setitem_columns (df df' : DataFrame) (c : string) (values : list cell) :
  setitem df c values = Ok df' →
  columns df' = (if decide (c ∈ columns df) then columns df else columns df ++ [c]) ∧
  length (rows df') = length (rows df).
Proof.
  unfold setitem. case_decide as Hlen; [|done]. intros [= <-]. cbn [columns rows].
  split; [done|]. rewrite length_zip_with. lia.
Qed.

Lemma traverse_raise_elem {A B} (f : A → result B) (xs : list A) (e : exn) :
  traverse f xs = Raise e → ∃ x, x ∈ xs ∧ f x = Raise e.
Proof.
  induction xs as [|x xs IH]; simpl; [done|].
  destruct (f x) as [y|e'] eqn:Hfx; simpl.
  - destruct (traverse f xs); simpl; [done|].
    intros [= ->]. destruct IH as (x' & ? & ?); [done|].
    exists x'. split; [by right|done].
  - intros [= ->]. exists x. split; [by left|done].
Qed.

(** On a list that ends inside a window the walk raises [IndexError]. *)
Lemma get_opponent_partial_window {A} (column : list A) (entity : string) (g : nat) :
  (entity = "team" ∧ g = 1%nat) ∨ (entity = "player" ∧ g = 5%nat) →
  (length column `mod` (2 * g) ≠ 0)%nat →
  get_opponent column entity = Raise IndexError.
Proof.
  intros Hent Hmod. destruct (entity_gap_of _ _ Hent) as [Hgap Hg].
  destruct (get_opponent column entity) as [opp|e] eqn:Hopp.
  - destruct (get_opponent_Ok_windows _ _ _ _ Hent Hopp) as [k Hk].
    destruct Hmod. rewrite Hk, Nat.mul_comm. apply Nat.Div0.mod_mul.
  - rewrite (get_opponent_traverse _ _ _ Hgap) in Hopp.
    apply traverse_raise_elem in Hopp as (j & _ & Hj).
    by apply list_getitem_error in Hj as ->.
Qed.

Lemma enrich_opponent_metrics_no_playername (s : DataFrame) :
  "playername" ∉ columns s →
  enrich_opponent_metrics "team" s = (s, Raise (KeyError "playername")).
Proof.
  intros Hc. unfold enrich_opponent_metrics.
  change (String.eqb "team" "player") with false. cbv iota.
  unfold mbind, M_bind, mret, M_ret.
  rewrite oe_assign_opponent_unfold.
  unfold getitem. by rewrite decide_False.
Qed.

Lemma playername_not_team_column : "playername" ∉ team_columns.
Proof.
  unfold team_columns. rewrite !elem_of_cons, elem_of_nil.
  intros H. repeat (destruct H as [H|H]; [discriminate H|]). done.
Qed.

(** X10: [enrich_opponent_metrics] cannot run on a team view: whatever
    [subset_data] returns for 'team' has no [playername] column, and the
    method raises [KeyError] on it before adding any column. *)
Theorem enrich_opponent_metrics_team_view (df sub : DataFrame) :
  subset_data (Some "team") df = (df, Ok sub) →
  enrich_opponent_metrics "team" sub = (sub, Raise (KeyError "playername")).
Proof.
  intros Hsub.
  rewrite (subset_data_run _ team_columns) in Hsub by (left; done).
  injection Hsub as Hsub. apply getitem_list_columns in Hsub.
  apply enrich_opponent_metrics_no_playername.
  rewrite Hsub. apply playername_not_team_column.
Qed.

Lemma enrich_opponent_metrics_team_view_witness :
  enrich_opponent_metrics "team" (mkDataFrame team_columns [])
  = (mkDataFrame team_columns [], Raise (KeyError "playername")).
Proof.
  apply (enrich_opponent_metrics_team_view (mkDataFrame team_columns [])).
  vm_compute. reflexivity.
Defined.

Lemma oe_fill_unfold (ids names : string) (s : DataFrame) (a b : list cell) :
  getitem s ids = Ok a → getitem s names = Ok b →
  ∃ s1, setitem s ids (fillna a b) = Ok s1 ∧
    getitem s1 ids = Ok (fillna a b) ∧
    (∀ c, c ≠ ids → getitem s1 c = getitem s c) ∧
    columns s1 = columns s ∧ length (rows s1) = length (rows s).
Proof.
  intros Ha Hb.
  destruct (setitem_Ok s ids (fillna a b)) as (s1 & Hset & Hget & Hoth).
  { rewrite fillna_length; [by eapply getitem_length|].
    apply getitem_length in Ha, Hb. lia. }
  exists s1. split_and!; try done.
  - apply setitem_columns in Hset as [-> _].
    rewrite decide_True; [done|]. by apply getitem_inv in Ha as [? _].
  - by apply setitem_columns in Hset as [_ ->].
Qed.

(** X11: on a player table whose number of rows is not a multiple of ten,
    [enrich_opponent_metrics] raises [IndexError] at its first pairing:
    by then [playerid] has been filled from [playername], and nothing else
    has changed - no opponent column exists. *)
Theorem enrich_opponent_metrics_partial_window (df : DataFrame) (p pn : list cell) :
  getitem df "playerid" = Ok p → getitem df "playername" = Ok pn →
  "teamname" ∈ columns df →
  (length (rows df) `mod` 10 ≠ 0)%nat →
  ∃ df1,
    enrich_opponent_metrics "player" df = (df1, Raise IndexError) ∧
    getitem df1 "playerid" = Ok (fillna p pn) ∧
    (∀ c, c ≠ "playerid" → getitem df1 c = getitem df c) ∧
    columns df1 = columns df ∧ length (rows df1) = length (rows df).
Proof.
  intros Hp Hpn Htn Hmod.
  destruct (oe_fill_unfold "playerid" "playername" df p pn Hp Hpn)
    as (s1 & Hset & Hget & Hoth & Hcols & Hlen).
  exists s1. split; [|done].
  unfold enrich_opponent_metrics.
  change (String.eqb "player" "player") with true. cbv iota.
  unfold mbind, M_bind.
  rewrite oe_getitem_run, Hp. cbv beta iota.
  rewrite oe_getitem_run, Hpn. cbv beta iota.
  rewrite oe_setitem_run, Hset. cbv beta iota.
  rewrite oe_assign_opponent_unfold, getitem_Ok by (by rewrite Hcols).
  rewrite (get_opponent_partial_window _ "player" 5); [done|by right|].
  by rewrite length_fmap, Hlen.
Qed.

Lemma enrich_opponent_metrics_partial_window_witness :
  ∃ df1,
    enrich_opponent_metrics "player"
      (mkDataFrame ["playerid"; "playername"; "teamname"]
         [ {[ "playerid" := NaN; "playername" := Str "a"; "teamname" := Str "T" ]} ])
    = (df1, Raise IndexError) ∧
    getitem df1 "playerid" = Ok [Str "a"].
Proof.
  destruct (enrich_opponent_metrics_partial_window
      (mkDataFrame ["playerid"; "playername"; "teamname"]
         [ {[ "playerid" := NaN; "playername" := Str "a"; "teamname" := Str "T" ]} ])
      [NaN] [Str "a"]) as (df1 & Hrun & Hp & _).
  - reflexivity.
  - reflexivity.
  - cbn [columns]. apply list_elem_of_further, list_elem_of_further, list_elem_of_here.
  - simpl. discriminate.
  - exists df1. split; [exact Hrun|exact Hp].
Defined.

Lemma oe_assign_opponent_Ok (target source : string) (s : DataFrame)
    (col : list cell) (k : nat) :
  getitem s source = Ok col → length (rows s) = (10 * k)%nat →
  ∃ s' opp,
    oe_assign_opponent target source "player" s = (s', Ok tt) ∧
    get_opponent col "player" = Ok opp ∧
    getitem s' target = Ok opp ∧
    (∀ c, c ≠ target → getitem s' c = getitem s c) ∧
    length (rows s') = length (rows s).
Proof.
  intros Hcol Hlen.
  destruct (get_opponent_total col "player" 5 eq_refl) as [opp Hopp].
  { intros i Hi. apply getitem_length in Hcol.
    pose proof (opponent_index_in_window 5 (Z.of_nat i) (Z.of_nat k)). lia. }
  destruct (oe_assign_opponent_run target source "player" s)
    as [[e He]|(s' & col' & opp' & Hrun & Hcol' & Hopp' & Hget & Hoth)].
  - rewrite oe_assign_opponent_unfold, Hcol, Hopp in He.
    destruct (setitem_Ok s target opp) as (s' & Hset & _).
    { apply get_opponent_Ok_inv in Hopp as [-> _]. by eapply getitem_length. }
    by rewrite Hset in He.
  - assert (col' = col) as -> by congruence. assert (opp' = opp) as -> by congruence.
    exists s', opp. split_and!; try done.
    rewrite oe_assign_opponent_unfold, Hcol, Hopp in Hrun.
    destruct (setitem s target opp) as [s''|] eqn:Hset; [|done].
    injection Hrun as ->. by apply setitem_columns in Hset as [_ ->].
Qed.

(** X12: on a player table with the five source columns and a number of
    rows that is a multiple of ten, [enrich_opponent_metrics] succeeds: it
    returns [self.oe_data], in which [playerid] is filled, each of the five
    opponent columns is the pairing of its source column, every other column
    is as before and the number of rows is unchanged. *)
Theorem enrich_opponent_metrics_player_total (df : DataFrame) (k : nat)
    (p pn tn t e : list cell) :
  getitem df "playerid" = Ok p → getitem df "playername" = Ok pn →
  getitem df "teamname" = Ok tn → getitem df "teamid" = Ok t →
  getitem df "earned gpm" = Ok e →
  length (rows df) = (10 * k)%nat →
  ∃ df' otn ot opn op oe,
    enrich_opponent_metrics "player" df = (df', Ok df') ∧
    length (rows df') = length (rows df) ∧
    getitem df' "playerid" = Ok (fillna p pn) ∧
    get_opponent tn "player" = Ok otn ∧ getitem df' "opponentteam" = Ok otn ∧
    get_opponent t "player" = Ok ot ∧ getitem df' "opponentteamid" = Ok ot ∧
    get_opponent pn "player" = Ok opn ∧ getitem df' "opponentname" = Ok opn ∧
    get_opponent (fillna p pn) "player" = Ok op ∧ getitem df' "opponentid" = Ok op ∧
    get_opponent e "player" = Ok oe ∧ getitem df' "opponent_egpm" = Ok oe ∧
    ∀ c, c ∉ ["playerid"; "opponentteam"; "opponentteamid"; "opponentname";
              "opponentid"; "opponent_egpm"] →
         getitem df' c = getitem df c.
Proof.
  intros Hp Hpn Htn Ht He Hlen.
  destruct (oe_fill_unfold "playerid" "playername" df p pn Hp Hpn)
    as (s1 & Hset & Hget1 & H1 & _ & Hlen1).
  destruct (oe_assign_opponent_Ok "opponentteam" "teamname" s1 tn k)
    as (s2 & otn & Hr2 & Ho2 & Hg2 & H2 & Hlen2); [by rewrite H1|lia|].
  destruct (oe_assign_opponent_Ok "opponentteamid" "teamid" s2 t k)
    as (s3 & ot & Hr3 & Ho3 & Hg3 & H3 & Hlen3); [by rewrite H2, H1|lia|].
  destruct (oe_assign_opponent_Ok "opponentname" "playername" s3 pn k)
    as (s4 & opn & Hr4 & Ho4 & Hg4 & H4 & Hlen4); [by rewrite H3, H2, H1|lia|].
  destruct (oe_assign_opponent_Ok "opponentid" "playerid" s4 (fillna p pn) k)
    as (s5 & op & Hr5 & Ho5 & Hg5 & H5 & Hlen5); [by rewrite H4, H3, H2|lia|].
  destruct (oe_assign_opponent_Ok "opponent_egpm" "earned gpm" s5 e k)
    as (s6 & oe & Hr6 & Ho6 & Hg6 & H6 & Hlen6);
    [by rewrite H5, H4, H3, H2, H1|lia|].
  exists s6, otn, ot, opn, op, oe.
  split.
  { unfold enrich_opponent_metrics.
    change (String.eqb "player" "player") with true. cbv iota.
    unfold mbind, M_bind.
    rewrite oe_getitem_run, Hp. cbv beta iota.
    rewrite oe_getitem_run, Hpn. cbv beta iota.
    rewrite oe_setitem_run, Hset. cbv beta iota.
    rewrite Hr2. cbv beta iota. rewrite Hr3. cbv beta iota.
    rewrite Hr4. cbv beta iota. rewrite Hr5. cbv beta iota.
    rewrite Hr6. done. }
  split; [lia|].
  split; [by rewrite H6, H5, H4, H3, H2|].
  split; [done|]. split; [by rewrite H6, H5, H4, H3|].
  split; [done|]. split; [by rewrite H6, H5, H4|].
  split; [done|]. split; [by rewrite H6, H5|].
  split; [done|]. split; [by rewrite H6|].
  split; [done|]. split; [done|].
  intros c Hc. rewrite !elem_of_cons, elem_of_nil in Hc.
  rewrite H6, H5, H4, H3, H2, H1; first [done | intros ->; tauto].
Qed.

Lemma enrich_opponent_metrics_player_total_witness :
  ∃ df',
    enrich_opponent_metrics "player"
      (mkDataFrame ["playerid"; "playername"; "teamname"; "teamid"; "earned gpm"]
         ((λ i : Z, {[ "playerid" := Num (Qc_of_Z i); "playername" := Num (Qc_of_Z i);
                       "teamname" := Str "T"; "teamid" := Str "t";
                       "earned gpm" := Num (Qc_of_Z i) ]} : row)
            <$> [0; 1; 2; 3; 4; 5; 6; 7; 8; 9]))
    = (df', Ok df') ∧ length (rows df') = 10%nat.
Proof.
  edestruct (enrich_opponent_metrics_player_total
      (mkDataFrame ["playerid"; "playername"; "teamname"; "teamid"; "earned gpm"]
         ((λ i : Z, {[ "playerid" := Num (Qc_of_Z i); "playername" := Num (Qc_of_Z i);
                       "teamname" := Str "T"; "teamid" := Str "t";
                       "earned gpm" := Num (Qc_of_Z i) ]} : row)
            <$> [0; 1; 2; 3; 4; 5; 6; 7; 8; 9])) 1)
    as (df' & ? & ? & ? & ? & ? & Hrun & Hlen & _);
    [reflexivity|reflexivity|reflexivity|reflexivity|reflexivity|reflexivity|].
  exists df'. split; [exact Hrun|exact Hlen].
Defined.

(** ** Type normalization and [clean_data] as a whole *)

Lemma to_datetime_error (parse_datetime : string → option Z) (col : list cell) (e : exn) :
  to_datetime parse_datetime col = Raise e → e = ParserError.
Proof.
  intros (c & _ & Hc)%traverse_raise_elem.
  destruct c as [|s|q|t]; simpl in Hc; try done.
  destruct (parse_datetime s); [done|]. by injection Hc as <-.
Qed.

(** How [format_data_types] ends, stage by stage. *)
Lemma format_data_types_run (parse_datetime : string → option Z) (df : DataFrame) :
  format_data_types parse_datetime df =
    match getitem df "date" with
    | Raise e => (df, Raise e)
    | Ok d =>
        match to_datetime parse_datetime d with
        | Raise e => (df, Raise e)
        | Ok d' =>
            match setitem df "date" d' with
            | Raise e => (df, Raise e)
            | Ok df1 =>
                match getitem_list df1 ["gameid"; "playerid"; "teamid"] with
                | Raise e => (df1, Raise e)
                | Ok _ => (df1, Raise (AttributeError "str"))
                end
            end
        end
    end.
Proof.
  unfold format_data_types.
  unfold mbind at 1. unfold M_bind at 1. rewrite oe_getitem_run.
  destruct (getitem df "date") as [d|e]; [|done].
  unfold mbind at 1. unfold M_bind at 1. unfold lift at 1.
  destruct (to_datetime parse_datetime d) as [d'|e]; [|done].
  unfold mbind at 1. unfold M_bind at 1. rewrite oe_setitem_run.
  destruct (setitem df "date" d') as [df1|e]; [|done].
  unfold mbind at 1. unfold M_bind at 1. unfold get_oe_data at 1.
  unfold mbind at 1. unfold M_bind at 1. unfold lift at 1.
  destruct (getitem_list df1 _) as [ids|e] eqn:Hids; [|done].
  apply getitem_list_columns in Hids.
  unfold mbind at 1. unfold M_bind at 1. unfold lift at 1.
  unfold DataFrame_getattr. rewrite Hids.
  rewrite decide_False
    by (rewrite !elem_of_cons, elem_of_nil; intros [?|[?|[?|[]]]]; done).
  done.
Qed.

(** X13: a date the parser rejects makes [format_data_types] raise the
    parse error with [self.oe_data] untouched, and a table without a [date]
    column makes it raise [KeyError]. *)
Theorem format_data_types_malformed_date (parse_datetime : string → option Z)
    (df : DataFrame) :
  (∀ d s, getitem df "date" = Ok d → Str s ∈ d → parse_datetime s = None →
     format_data_types parse_datetime df = (df, Raise ParserError)) ∧
  ("date" ∉ columns df →
   format_data_types parse_datetime df = (df, Raise (KeyError "date"))).
Proof.
  split.
  - intros d s Hd Hs Hparse. rewrite format_data_types_run, Hd.
    destruct (to_datetime parse_datetime d) as [d'|e] eqn:E.
    + apply traverse_Forall2 in E.
      apply list_elem_of_lookup in Hs as [i Hi].
      destruct (Forall2_lookup_l _ _ _ _ _ E Hi) as (y & _ & Hy).
      simpl in Hy. by rewrite Hparse in Hy.
    + by apply to_datetime_error in E as ->.
  - intros Hc. rewrite format_data_types_run. unfold getitem.
    by rewrite decide_False.
Qed.

Lemma format_data_types_malformed_date_witness :
  format_data_types (λ _, None)
    (mkDataFrame ["date"] [ {[ "date" := Str "yesterday" ]} ])
  = (mkDataFrame ["date"] [ {[ "date" := Str "yesterday" ]} ], Raise ParserError).
Proof.
  apply (proj1 (format_data_types_malformed_date (λ _, None)
                  (mkDataFrame ["date"] [ {[ "date" := Str "yesterday" ]} ]))
           [Str "yesterday"] "yesterday").
  - reflexivity.
  - apply list_elem_of_here.
  - reflexivity.
Defined.

(** X14: [clean_data] never returns a table.  For every table, [split_on]
    and replacement dicts it raises inside [format_data_types]; the table it
    leaves has the columns and the number of rows it started with, and every
    column except [date] unchanged: no row is filtered and no opponent column
    is added. *)
Theorem clean_data_never_returns (parse_datetime : string → option Z)
    (split_on : option string)
    (team_replacements player_replacements : option (gmap string string))
    (df : DataFrame) :
  ∃ df' e,
    clean_data parse_datetime split_on team_replacements player_replacements df
      = (df', Raise e) ∧
    columns df' = columns df ∧
    length (rows df') = length (rows df) ∧
    ∀ c, c ≠ "date" → getitem df' c = getitem df c.
Proof.
  unfold clean_data. unfold mbind at 1. unfold M_bind at 1.
  rewrite format_data_types_run.
  destruct (getitem df "date") as [d|e] eqn:Hd; [|by exists df, e].
  destruct (to_datetime parse_datetime d) as [d'|e] eqn:Hd'; [|by exists df, e].
  destruct (setitem df "date" d') as [df1|e] eqn:Hset; [|by exists df, e].
  assert (columns df1 = columns df ∧ length (rows df1) = length (rows df) ∧
          ∀ c, c ≠ "date" → getitem df1 c = getitem df c) as Hsame.
  { destruct (setitem_columns _ _ _ _ Hset) as [Hcols Hlen].
    rewrite decide_True in Hcols by (by apply getitem_inv in Hd as [? _]).
    split; [done|]. split; [done|].
    destruct (setitem_Ok df "date" d') as (df1' & Hset' & _ & Hoth).
    { unfold setitem in Hset. by case_decide. }
    by assert (df1' = df1) as -> by congruence. }
  destruct (getitem_list df1 _) as [ids|e]; by eexists df1, _.
Qed.

(** ** Name normalization *)

Lemma series_replace_empty (col : list cell) : series_replace ∅ col = col.
Proof.
  unfold series_replace. induction col as [|c col IH]; csimpl; [done|].
  rewrite IH. f_equal. by destruct c.
Qed.

Lemma series_replace_length (d : gmap string string) (col : list cell) :
  length (series_replace d col) = length col.
Proof. unfold series_replace. by rewrite length_fmap. Qed.

Lemma replace_names_run (column : string) (replacements : option (gmap string string))
    (s : DataFrame) (col : list cell) :
  getitem s column = Ok col →
  ∃ s', replace_names column replacements s = (s', Ok tt) ∧
    getitem s' column = Ok (series_replace (default ∅ replacements) col) ∧
    (∀ c, c ≠ column → getitem s' c = getitem s c) ∧
    columns s' = columns s ∧ length (rows s') = length (rows s).
Proof.
  intros Hcol. unfold replace_names.
  destruct replacements as [d|]; simpl;
    [destruct (decide (d = ∅)) as [->|Hd]|];
    try (exists s; by rewrite series_replace_empty).
  destruct (setitem_Ok s column (series_replace d col)) as (s' & Hset & Hget & Hoth).
  { rewrite series_replace_length. by eapply getitem_length. }
  exists s'. unfold mbind, M_bind.
  rewrite oe_getitem_run, Hcol, oe_setitem_run, Hset. split_and!; try done.
  - apply setitem_columns in Hset as [-> _].
    rewrite decide_True; [done|]. by apply getitem_inv in Hcol as [? _].
  - by apply setitem_columns in Hset as [_ ->].
Qed.

Lemma replace_names_skip (column : string) (replacements : option (gmap string string))
    (s : DataFrame) :
  default ∅ replacements = ∅ → replace_names column replacements s = (s, Ok tt).
Proof.
  unfold replace_names. destruct replacements as [d|]; simpl; [|done].
  intros ->. by rewrite decide_True.
Qed.

(** X15: on a table with both name columns [normalize_names] returns
    [self.oe_data] with each name that is a key of its dict replaced by the
    dict's value, every other cell, column and the number of rows unchanged
    ([None] counting as the empty dict); with no replacements at all it
    returns the table as it is, even one without name columns. *)
Theorem normalize_names_spec
    (team_replacements player_replacements : option (gmap string string))
    (df : DataFrame) :
  (∀ tn pn, getitem df "teamname" = Ok tn → getitem df "playername" = Ok pn →
     ∃ df',
       normalize_names team_replacements player_replacements df = (df', Ok df') ∧
       getitem df' "teamname" = Ok (series_replace (default ∅ team_replacements) tn) ∧
       getitem df' "playername"
         = Ok (series_replace (default ∅ player_replacements) pn) ∧
       (∀ c, c ≠ "teamname" → c ≠ "playername" → getitem df' c = getitem df c) ∧
       columns df' = columns df ∧ length (rows df') = length (rows df)) ∧
  (∀ (d : gmap string string) (col : list cell) (i : nat) (c : cell),
     col !! i = Some c → (∀ s, c = Str s → d !! s = None) →
     series_replace d col !! i = Some c) ∧
  (∀ (d : gmap string string) (col : list cell) (i : nat) (s s' : string),
     col !! i = Some (Str s) → d !! s = Some s' →
     series_replace d col !! i = Some (Str s')) ∧
  (default ∅ team_replacements = ∅ → default ∅ player_replacements = ∅ →
   normalize_names team_replacements player_replacements df = (df, Ok df)).
Proof.
  split_and!.
  - intros tn pn Htn Hpn.
    destruct (replace_names_run "teamname" team_replacements df tn Htn)
      as (s1 & Hr1 & Hg1 & H1 & Hc1 & Hl1).
    destruct (replace_names_run "playername" player_replacements s1 pn)
      as (s2 & Hr2 & Hg2 & H2 & Hc2 & Hl2); [by rewrite H1|].
    exists s2. unfold normalize_names, mbind, M_bind. rewrite Hr1, Hr2.
    split_and!; try done; try congruence.
    + by rewrite H2.
    + intros c ? ?. by rewrite H2, H1.
  - intros d col i c Hc Hd. unfold series_replace. rewrite list_lookup_fmap, Hc.
    simpl. destruct c as [|s|q|t]; try done. by rewrite (Hd s).
  - intros d col i s s' Hc Hd. unfold series_replace.
    rewrite list_lookup_fmap, Hc. simpl. by rewrite Hd.
  - intros Ht Hp. unfold normalize_names, mbind, M_bind.
    by rewrite !replace_names_skip.
Qed.

Lemma normalize_names_spec_witness :
  ∃ df',
    normalize_names (Some {[ "SKT" := "T1" ]}) None
      (mkDataFrame ["teamname"; "playername"]
         [ {[ "teamname" := Str "SKT"; "playername" := Str "Faker" ]} ])
    = (df', Ok df') ∧ getitem df' "teamname" = Ok [Str "T1"].
Proof.
  destruct (proj1 (normalize_names_spec (Some {[ "SKT" := "T1" ]}) None
      (mkDataFrame ["teamname"; "playername"]
         [ {[ "teamname" := Str "SKT"; "playername" := Str "Faker" ]} ]))
      [Str "SKT"] [Str "Faker"])
    as (df' & Hrun & Ht & _); [reflexivity|reflexivity|].
  exists df'. split; [exact Hrun|exact Ht].
Defined.

(** X16: when no new name is itself an old name, replacing names a second
    time changes nothing. *)
Theorem series_replace_idempotent (d : gmap string string) (col : list cell) :
  (∀ s s', d !! s = Some s' → d !! s' = None) →
  series_replace d (series_replace d col) = series_replace d col.
Proof.
  intros Hd. unfold series_replace. rewrite <- list_fmap_compose.
  apply list_fmap_ext. intros _ [|s|q|t] _; simpl; try done.
  destruct (d !! s) as [s'|] eqn:E; simpl; [by rewrite (Hd s s')|by rewrite E].
Qed.

Lemma series_replace_idempotent_witness :
  series_replace {[ "SKT" := "T1" ]} (series_replace {[ "SKT" := "T1" ]} [Str "SKT"])
  = series_replace {[ "SKT" := "T1" ]} [Str "SKT"].
Proof.
  apply series_replace_idempotent.
  intros s s' H. apply lookup_singleton_Some in H as [<- <-]. reflexivity.
Defined.

(** ** The team view through [clean_data] *)

Lemma normalize_names_returns_state
    (team_replacements player_replacements : option (gmap string string))
    (s s' r : DataFrame) :
  normalize_names team_replacements player_replacements s = (s', Ok r) → r = s'.
Proof.
  unfold normalize_names, mbind, M_bind, get_oe_data.
  destruct (replace_names _ _ s) as [s1 [[]|]]; [|done].
  destruct (replace_names _ _ s1) as [s2 [[]|]]; [|done].
  by intros [= <- <-].
Qed.

Lemma sort_values_columns (df out : DataFrame) (by_ : list string) :
  sort_values df by_ = Ok out →
  columns out = columns df ∧ rows out = merge_sort (rows_le by_) (rows df).
Proof.
  unfold sort_values. destruct (traverse _ _); simpl; [|done].
  destruct (forallb _ _); [|done]. by intros [= <-].
Qed.

(** X17: with 'team', the stages of [clean_data] that follow
    [format_data_types] never return a table either: on every input one of
    them raises, at the latest [enrich_opponent_metrics], which looks up the
    [playername] column that the team view does not have. *)
Theorem clean_data_stages_team_never_returns
    (team_replacements player_replacements : option (gmap string string))
    (df : DataFrame) :
  ∃ df' e,
    clean_data_stages (Some "team") team_replacements player_replacements df
      = (df', Raise e).
Proof.
  unfold clean_data_stages.
  unfold mbind at 1. unfold M_bind at 1.
  destruct (clean_data_row_filters df) as [s1 [[]|e]]; [|by eexists _, _].
  unfold mbind at 1. unfold M_bind at 1.
  destruct (normalize_names _ _ s1) as [s2 [r2|e]]; [|by eexists _, _].
  unfold mbind at 1. unfold M_bind at 1. unfold set_oe_data at 1.
  unfold mbind at 1. unfold M_bind at 1.
  rewrite (subset_data_run (Some "team") team_columns) by (left; done).
  destruct (getitem_list r2 team_columns) as [sub|e] eqn:Hsub; [|by eexists _, _].
  apply getitem_list_columns in Hsub.
  unfold mbind at 1. unfold M_bind at 1. unfold set_oe_data at 1.
  unfold mbind at 1. unfold M_bind at 1.
  rewrite remove_inconsistent_games_run
    by (rewrite Hsub; unfold team_columns; rewrite !elem_of_cons; tauto).
  unfold mbind at 1. unfold M_bind at 1. unfold set_oe_data at 1.
  set (kept := mkDataFrame (columns sub) _).
  unfold mbind at 1. unfold M_bind at 1.
  unfold sort_data. unfold mbind at 1. unfold M_bind at 1. unfold get_oe_data at 1.
  rewrite decide_False by done. rewrite decide_True by done.
  unfold mbind at 1. unfold M_bind at 1. unfold lift at 1.
  destruct (sort_values kept _) as [sorted|e] eqn:Hsort; [|by eexists _, _].
  apply sort_values_columns in Hsort as [Hcols _].
  unfold mret, M_ret.
  unfold mbind at 1. unfold M_bind at 1. unfold set_oe_data at 1.
  unfold mbind at 1. unfold M_bind at 1.
  unfold clean_data_backfill_and_enrich.
  unfold mbind at 1. unfold M_bind at 1.
  unfold fill_null_team_ids at 1. change (String.eqb "team" "player") with false.
  cbv iota. unfold mbind at 1. unfold M_bind at 1. unfold mret, M_ret, get_oe_data.
  unfold mbind at 1. unfold M_bind at 1. unfold set_oe_data at 1.
  unfold mbind at 1. unfold M_bind at 1.
  rewrite enrich_opponent_metrics_no_playername;
    [by eexists _, _|].
  rewrite Hcols. unfold kept. cbn [columns]. rewrite Hsub.
  apply playername_not_team_column.
Qed.

(** ** Sorting *)

Lemma cell_le_antisym (a b : cell) : cell_le a b → cell_le b a → a = b.
Proof.
  destruct a as [|s|p|s], b as [|t|q|t]; simpl; try done.
  - intros H1 H2. f_equal. by apply (anti_symm String.le).
  - intros H1 H2. f_equal. by apply Qcle_antisym.
  - intros H1 H2. f_equal. lia.
Qed.

(** Between two rows that agree on the first key, a row has that key too. *)
Lemma rows_le_squeeze (c : string) (cs : list string) (r1 r2 r3 : row) :
  rows_le (c :: cs) r1 r2 → rows_le (c :: cs) r2 r3 →
  row_get c r1 = row_get c r3 →
  row_get c r2 = row_get c r1 ∧ rows_le cs r1 r2 ∧ rows_le cs r2 r3.
Proof.
  simpl. intros [H12 R12] [H23 R23] E.
  assert (row_get c r2 = row_get c r1) as E2.
  { apply cell_le_antisym; [by rewrite E|done]. }
  split; [done|]. split.
  - apply R12. rewrite E2. apply cell_le_refl.
  - apply R23. rewrite <- E, E2. apply cell_le_refl.
Qed.

Lemma StronglySorted_lookup {X} (R : relation X) (l : list X) (i j : nat) (x y : X) :
  StronglySorted R l → (i < j)%nat → l !! i = Some x → l !! j = Some y → R x y.
Proof.
  intros Hl Hij Hx Hy.
  rewrite <- (take_drop_middle l j y Hy) in Hl.
  apply (StronglySorted_app_1_elem_of _ _ _ _ _ Hl); [|by left].
  apply list_elem_of_lookup. exists i. by rewrite lookup_take_lt.
Qed.

Lemma sort_values_Ok (df : DataFrame) (by_ : list string) :
  Forall (λ c, c ∈ columns df ∧ sortable (row_get c <$> rows df) = true) by_ →
  sort_values df by_ =
    Ok (mkDataFrame (columns df) (merge_sort (rows_le by_) (rows df))).
Proof.
  intros Hby. unfold sort_values.
  assert (traverse (getitem df) by_ = Ok ((λ c, row_get c <$> rows df) <$> by_)) as ->.
  { apply traverse_Forall2, Forall2_fmap_r, Forall_Forall2_diag.
    eapply Forall_impl; [done|]. intros c [Hc _]. by apply getitem_Ok. }
  simpl. rewrite (proj2 (forallb_forall _ _)); [done|].
  intros col (c & -> & Hc)%list_elem_of_In%list_elem_of_fmap.
  rewrite Forall_forall in Hby. by apply Hby.
Qed.

Lemma sort_data_run (split_on : option string) (by_ : list string) (df : DataFrame) :
  (split_on = Some "team" ∧ by_ = ["league"; "date"; "gameid"; "side"]) ∨
  (split_on = Some "player" ∧ by_ = ["league"; "date"; "gameid"; "side"; "position"]) →
  sort_data split_on df =
    (df, match sort_values df by_ with
         | Ok sorted => Ok (Some sorted)
         | Raise e => Raise e
         end).
Proof.
  intros [[-> ->]|[-> ->]]; unfold sort_data, mbind, M_bind, get_oe_data, lift;
    rewrite ?decide_True, ?decide_False by done;
    by destruct (sort_values df _).
Qed.

Lemma sort_values_KeyError (df : DataFrame) (by_ : list string) (c : string) :
  c ∈ by_ → c ∉ columns df →
  ∃ c', (c' ∉ columns df) ∧ sort_values df by_ = Raise (KeyError c').
Proof.
  intros Hin Hc. unfold sort_values.
  destruct (traverse (getitem df) by_) as [keys|e] eqn:E.
  - apply traverse_Forall2 in E.
    apply list_elem_of_lookup in Hin as [i Hi].
    destruct (Forall2_lookup_l _ _ _ _ _ E Hi) as (y & _ & Hy).
    by apply getitem_inv in Hy as [? _].
  - apply traverse_raise_elem in E as (c' & _ & Hc').
    unfold getitem in Hc'. case_decide; [done|]. injection Hc' as <-.
    by exists c'.
Qed.

(** X18: [sort_data] leaves [self.oe_data] alone.  For 'team' and 'player'
    a returned frame has the columns of the table and a permutation of its
    rows, ordered by the sort keys of the view; a missing key column raises
    [KeyError]; for any other [split_on] the method returns [None] without
    raising. *)
Theorem sort_data_spec (split_on : option string) (by_ : list string) (df : DataFrame) :
  (split_on ≠ Some "player" → split_on ≠ Some "team" →
   sort_data split_on df = (df, Ok None)) ∧
  ((split_on = Some "team" ∧ by_ = ["league"; "date"; "gameid"; "side"]) ∨
   (split_on = Some "player" ∧ by_ = ["league"; "date"; "gameid"; "side"; "position"]) →
   (∀ df' r, sort_data split_on df = (df', r) → df' = df) ∧
   (∀ out, sort_data split_on df = (df, Ok (Some out)) →
      columns out = columns df ∧ rows out ≡ₚ rows df ∧
      StronglySorted (rows_le by_) (rows out)) ∧
   (Forall (λ c, c ∈ columns df ∧ sortable (row_get c <$> rows df) = true) by_ →
    ∃ out, sort_data split_on df = (df, Ok (Some out))) ∧
   (∀ c, c ∈ by_ → c ∉ columns df →
      ∃ c', (c' ∉ columns df) ∧ sort_data split_on df = (df, Raise (KeyError c')))).
Proof.
  split.
  - intros Hp Ht. unfold sort_data, mbind, M_bind, get_oe_data.
    by rewrite !decide_False.
  - intros Hsplit. rewrite (sort_data_run _ _ _ Hsplit). split_and!.
    + by intros df' r [= <- _].
    + destruct (sort_values df by_) as [sorted|] eqn:E; [|done].
      intros out [= <-]. apply sort_values_columns in E as [Hc Hr].
      split; [done|]. rewrite Hr. split; [apply merge_sort_Permutation|].
      apply (StronglySorted_merge_sort _).
    + intros Hby. rewrite sort_values_Ok by done. by eexists.
    + intros c Hin Hc.
      destruct (sort_values_KeyError df by_ c Hin Hc) as (c' & ? & ->). by exists c'.
Qed.

Lemma sort_data_spec_witness :
  ∃ out,
    sort_data (Some "team")
      (mkDataFrame ["league"; "date"; "gameid"; "side"]
         [ {[ "league" := Str "LCK"; "date" := Date 2; "gameid" := Str "g2";
              "side" := Str "Blue" ]};
           {[ "league" := Str "LCK"; "date" := Date 1; "gameid" := Str "g1";
              "side" := Str "Red" ]} ])
    = (mkDataFrame ["league"; "date"; "gameid"; "side"]
         [ {[ "league" := Str "LCK"; "date" := Date 2; "gameid" := Str "g2";
              "side" := Str "Blue" ]};
           {[ "league" := Str "LCK"; "date" := Date 1; "gameid" := Str "g1";
              "side" := Str "Red" ]} ],
       Ok (Some out)).
Proof.
  apply (proj2 (sort_data_spec (Some "team") ["league"; "date"; "gameid"; "side"]
     (mkDataFrame ["league"; "date"; "gameid"; "side"]
         [ {[ "league" := Str "LCK"; "date" := Date 2; "gameid" := Str "g2";
              "side" := Str "Blue" ]};
           {[ "league" := Str "LCK"; "date" := Date 1; "gameid" := Str "g1";
              "side" := Str "Red" ]} ]))).
  - left. split; reflexivity.
  - repeat (apply Forall_cons; split;
            [split; [apply (bool_decide_unpack _); vm_compute; reflexivity
                    |vm_compute; reflexivity]|]).
    apply Forall_nil. exact I.
Defined.

Lemma sort_data_Ok_inv (split_on : option string) (by_ : list string)
    (df out : DataFrame) :
  (split_on = Some "team" ∧ by_ = ["league"; "date"; "gameid"; "side"]) ∨
  (split_on = Some "player" ∧ by_ = ["league"; "date"; "gameid"; "side"; "position"]) →
  sort_data split_on df = (df, Ok (Some out)) →
  columns out = columns df ∧ rows out ≡ₚ rows df ∧
  StronglySorted (rows_le by_) (rows out) ∧
  ∃ rest, by_ = "league" :: "date" :: "gameid" :: rest.
Proof.
  intros Hsplit. rewrite (sort_data_run _ _ _ Hsplit).
  destruct (sort_values df by_) as [sorted|] eqn:E; [|done].
  intros [= <-]. apply sort_values_columns in E as [Hc Hr].
  split; [done|]. rewrite Hr. split; [apply merge_sort_Permutation|].
  split; [apply (StronglySorted_merge_sort _)|].
  destruct Hsplit as [[_ ->]|[_ ->]]; by eexists.
Qed.

(** Sorted by league, date and game id first, the rows of a game that has
    one league and one date lie next to each other. *)
Lemma sorted_games_contiguous (rest : list string) (rs : list row) :
  StronglySorted (rows_le ("league" :: "date" :: "gameid" :: rest)) rs →
  (∀ r1 r2, r1 ∈ rs → r2 ∈ rs → row_get "gameid" r1 = row_get "gameid" r2 →
     row_get "league" r1 = row_get "league" r2 ∧
     row_get "date" r1 = row_get "date" r2) →
  ∀ (i j k : nat) (ri rj rk : row), (i ≤ j ≤ k)%nat →
    rs !! i = Some ri → rs !! j = Some rj → rs !! k = Some rk →
    row_get "gameid" ri = row_get "gameid" rk →
    row_get "gameid" rj = row_get "gameid" ri.
Proof.
  intros Hsorted Hgame i j k ri rj rk [Hij Hjk] Hi Hj Hk E.
  destruct (decide (i = j)) as [->|Hne1]; [congruence|].
  destruct (decide (j = k)) as [->|Hne2]; [congruence|].
  assert (rows_le ("league" :: "date" :: "gameid" :: rest) ri rj) as H1
    by (eapply (StronglySorted_lookup _ rs i j); [done|lia|done..]).
  assert (rows_le ("league" :: "date" :: "gameid" :: rest) rj rk) as H2
    by (eapply (StronglySorted_lookup _ rs j k); [done|lia|done..]).
  destruct (Hgame ri rk) as [El Ed]; [by eapply list_elem_of_lookup_2..|done|].
  destruct (rows_le_squeeze _ _ _ _ _ H1 H2 El) as (_ & H1' & H2').
  destruct (rows_le_squeeze _ _ _ _ _ H1' H2' Ed) as (_ & H1'' & H2'').
  by destruct (rows_le_squeeze _ _ _ _ _ H1'' H2'' E) as (? & _).
Qed.

(** X19: after [sort_data], the rows of one game are contiguous - no row of
    another game lies between two rows of a game - provided every game of the
    table has a single league and a single date. *)
Theorem sort_data_games_contiguous (split_on : option string) (by_ : list string)
    (df out : DataFrame) :
  (split_on = Some "team" ∧ by_ = ["league"; "date"; "gameid"; "side"]) ∨
  (split_on = Some "player" ∧ by_ = ["league"; "date"; "gameid"; "side"; "position"]) →
  sort_data split_on df = (df, Ok (Some out)) →
  (∀ r1 r2, r1 ∈ rows df → r2 ∈ rows df →
     row_get "gameid" r1 = row_get "gameid" r2 →
     row_get "league" r1 = row_get "league" r2 ∧
     row_get "date" r1 = row_get "date" r2) →
  ∀ (i j k : nat) (ri rj rk : row), (i ≤ j ≤ k)%nat →
    rows out !! i = Some ri → rows out !! j = Some rj → rows out !! k = Some rk →
    row_get "gameid" ri = row_get "gameid" rk →
    row_get "gameid" rj = row_get "gameid" ri.
Proof.
  intros Hsplit Hrun Hgame.
  destruct (sort_data_Ok_inv _ _ _ _ Hsplit Hrun) as (_ & Hperm & Hsorted & rest & ->).
  apply (sorted_games_contiguous rest); [done|].
  intros r1 r2 H1 H2. apply Hgame; by rewrite <- Hperm.
Qed.

Lemma sort_data_games_contiguous_witness :
  row_get "gameid" ({[ "gameid" := Str "a"; "side" := Str "Red" ]} : row)
  = row_get "gameid" ({[ "gameid" := Str "a"; "side" := Str "Blue" ]} : row).
Proof.
  assert (sort_data (Some "team")
            (mkDataFrame ["league"; "date"; "gameid"; "side"]
               [ {[ "gameid" := Str "a"; "side" := Str "Blue" ]};
                 {[ "gameid" := Str "b"; "side" := Str "Blue" ]};
                 {[ "gameid" := Str "a"; "side" := Str "Red" ]};
                 {[ "gameid" := Str "a"; "side" := Str "Top" ]} ])
          = (mkDataFrame ["league"; "date"; "gameid"; "side"]
               [ {[ "gameid" := Str "a"; "side" := Str "Blue" ]};
                 {[ "gameid" := Str "b"; "side" := Str "Blue" ]};
                 {[ "gameid" := Str "a"; "side" := Str "Red" ]};
                 {[ "gameid" := Str "a"; "side" := Str "Top" ]} ],
             Ok (Some (mkDataFrame ["league"; "date"; "gameid"; "side"]
               [ {[ "gameid" := Str "a"; "side" := Str "Blue" ]};
                 {[ "gameid" := Str "a"; "side" := Str "Red" ]};
                 {[ "gameid" := Str "a"; "side" := Str "Top" ]};
                 {[ "gameid" := Str "b"; "side" := Str "Blue" ]} ])))) as Hsort
    by (vm_compute; reflexivity).
  pose proof (sort_data_games_contiguous _ ["league"; "date"; "gameid"; "side"] _ _
                (or_introl (conj eq_refl eq_refl)) Hsort) as Hgames.
  cbn [rows] in Hgames.
  apply (Hgames ltac:(intros r1 r2 H1 H2 _;
                      rewrite !elem_of_cons, elem_of_nil in H1, H2;
                      destruct H1 as [->|[->|[->|[->|[]]]]],
                               H2 as [->|[->|[->|[->|[]]]]];
                      split; reflexivity)
                0%nat 1%nat 2%nat _ _ {[ "gameid" := Str "a"; "side" := Str "Top" ]}).
  - lia.
  - reflexivity.
  - reflexivity.
  - reflexivity.
  - reflexivity.
Defined.

(** ** Pairing inside games *)

Lemma count_of_app (v : cell) (l1 l2 : list cell) :
  count_of v (l1 ++ l2) = (count_of v l1 + count_of v l2)%nat.
Proof. unfold count_of. by rewrite filter_app, length_app. Qed.

Lemma count_of_replicate (v w : cell) (n : nat) :
  count_of w (replicate n v) = if decide (v = w) then n else 0%nat.
Proof.
  unfold count_of. induction n as [|n IH]; simpl; [by case_decide|].
  rewrite filter_cons. repeat case_decide; simpl; congruence.
Qed.

Lemma count_of_not_elem (v : cell) (l : list cell) : v ∉ l → count_of v l = 0%nat.
Proof.
  intros Hv. destruct (count_of v l) eqn:E; [done|].
  destruct Hv. apply count_of_pos. lia.
Qed.

Lemma count_of_Permutation (v : cell) (l1 l2 : list cell) :
  l1 ≡ₚ l2 → count_of v l1 = count_of v l2.
Proof. intros H. unfold count_of. by rewrite H. Qed.

(** A column is grouped when equal values are never separated. *)
Lemma grouped_tail (x : cell) (col : list cell) :
  (∀ (i j k : nat) (a b : cell), (i ≤ j ≤ k)%nat →
     (x :: col) !! i = Some a → (x :: col) !! j = Some b → (x :: col) !! k = Some a →
     b = a) →
  ∀ (i j k : nat) (a b : cell), (i ≤ j ≤ k)%nat →
    col !! i = Some a → col !! j = Some b → col !! k = Some a → b = a.
Proof.
  intros H i j k a b Hijk Hi Hj Hk.
  apply (H (S i) (S j) (S k) a b); [lia|done..].
Qed.

Lemma grouped_drop (pre col : list cell) :
  (∀ (i j k : nat) (a b : cell), (i ≤ j ≤ k)%nat →
     (pre ++ col) !! i = Some a → (pre ++ col) !! j = Some b →
     (pre ++ col) !! k = Some a → b = a) →
  ∀ (i j k : nat) (a b : cell), (i ≤ j ≤ k)%nat →
    col !! i = Some a → col !! j = Some b → col !! k = Some a → b = a.
Proof.
  induction pre as [|x pre IH]; simpl; [done|].
  intros H. apply IH. by apply (grouped_tail x).
Qed.

(** The first value of a grouped column fills a run at its front and does
    not come back. *)
Lemma grouped_head_run (v : cell) (t : list cell) :
  (∀ (i j k : nat) (a b : cell), (i ≤ j ≤ k)%nat →
     (v :: t) !! i = Some a → (v :: t) !! j = Some b → (v :: t) !! k = Some a →
     b = a) →
  ∃ (m : nat) (t' : list cell), v :: t = replicate (S m) v ++ t' ∧ v ∉ t'.
Proof.
  revert v. induction t as [|y t IH]; intros v H.
  - exists 0%nat, []. split; [done|]. by intros ?%elem_of_nil.
  - destruct (decide (y = v)) as [->|Hy].
    + destruct (IH v (grouped_tail v _ H)) as (m & t' & E & Hv).
      exists (S m), t'. split; [|done]. simpl in *. by rewrite E.
    + exists 0%nat, (y :: t). split; [done|].
      intros [->|Hin]%elem_of_cons; [done|].
      apply list_elem_of_lookup in Hin as [k Hk].
      apply Hy. apply (H 0%nat 1%nat (S (S k))); [lia|done..].
Qed.

(** On a grouped column whose groups all have the size of a window, the
    walk pairs every position with one of its own group. *)
Lemma get_opponent_grouped (entity : string) (g : nat) (bound : nat) :
  entity_gap entity = Ok (Z.of_nat g) → 0 < Z.of_nat g →
  ∀ col : list cell, (length col ≤ bound)%nat →
    (∀ (i j k : nat) (a b : cell), (i ≤ j ≤ k)%nat →
       col !! i = Some a → col !! j = Some b → col !! k = Some a → b = a) →
    (∀ v, v ∈ col → count_of v col = (2 * g)%nat) →
    get_opponent col entity = Ok col.
Proof.
  intros Hgap Hg. induction bound as [|bound IH]; intros col Hlen Hgrouped Hcount.
  - destruct col; [|simpl in Hlen; lia].
    unfold get_opponent. by rewrite Hgap.
  - destruct col as [|v t]; [unfold get_opponent; by rewrite Hgap|].
    destruct (grouped_head_run v t Hgrouped) as (m & t' & E & Hv).
    assert (S m = (g + g)%nat) as Hm.
    { pose proof (Hcount v ltac:(by left)) as Hc.
      rewrite E, count_of_app, count_of_replicate, decide_True in Hc by done.
      rewrite (count_of_not_elem v t') in Hc by done. lia. }
    rewrite E, Hm, replicate_add, <- app_assoc.
    rewrite (get_opponent_app_window _ _ t' entity g Hgap Hg)
      by (by rewrite length_replicate).
    rewrite (IH t'); [done|..].
    + apply (f_equal length) in E. rewrite length_app, length_replicate in E.
      simpl in *. lia.
    + apply (grouped_drop (replicate (S m) v)). by rewrite <- E.
    + intros w Hw. rewrite <- (Hcount w) by (rewrite E, elem_of_app; by right).
      rewrite E, count_of_app, count_of_replicate, decide_False; [done|].
      by intros ->.
Qed.

Lemma get_opponent_fmap_Ok {A B} (f : A → B) (column opp : list A) (entity : string) :
  get_opponent column entity = Ok opp →
  get_opponent (f <$> column) entity = Ok (f <$> opp).
Proof.
  intros Hopp.
  destruct (entity_gap entity) as [gap|e] eqn:Hgap;
    [|unfold get_opponent in Hopp; by rewrite Hgap in Hopp].
  rewrite (get_opponent_traverse _ _ _ Hgap) in Hopp.
  rewrite (get_opponent_traverse _ _ _ Hgap), length_fmap.
  rewrite (traverse_ext _
    (λ j : nat, match list_getitem column (opponent_index gap (Z.of_nat j)) with
                | Ok x => Ok (f x)
                | Raise e => Raise e
                end)).
  - by rewrite traverse_fmap_res, Hopp.
  - apply Forall_forall. intros j _. apply list_getitem_fmap.
Qed.

(** The rows of a table whose game-id column pairs onto itself. *)
Lemma rows_paired_within_game (rs : list row) (entity : string) :
  get_opponent (row_get "gameid" <$> rs) entity = Ok (row_get "gameid" <$> rs) →
  ∃ opp, get_opponent rs entity = Ok opp ∧
    ∀ (i : nat) (r o : row), rs !! i = Some r → opp !! i = Some o →
      row_get "gameid" o = row_get "gameid" r.
Proof.
  intros Hg.
  destruct (get_opponent rs entity) as [opp|e] eqn:Hopp.
  - exists opp. split; [done|]. intros i r o Hr Ho.
    pose proof (get_opponent_fmap_Ok (row_get "gameid") _ _ _ Hopp) as Hf.
    assert (Ok (row_get "gameid" <$> rs) = Ok (row_get "gameid" <$> opp)) as [= E]
      by (etrans; [symmetry; exact Hg|exact Hf]).
    apply (f_equal (λ l, l !! i)) in E.
    rewrite !list_lookup_fmap, Hr, Ho in E. by injection E.
  - exfalso.
    destruct (entity_gap entity) as [gap|e'] eqn:Hgap;
      [|unfold get_opponent in Hg; by rewrite Hgap in Hg].
    rewrite (get_opponent_traverse _ _ _ Hgap) in Hopp.
    rewrite (get_opponent_traverse _ _ _ Hgap), length_fmap in Hg.
    apply traverse_raise_elem in Hopp as (j & Hj & Hraise).
    apply traverse_Forall2 in Hg.
    destruct (Forall2_lookup_l _ _ _ j j Hg) as (y & _ & Hy).
    { apply elem_of_seq in Hj. apply lookup_seq. lia. }
    simpl in Hy. rewrite list_getitem_fmap, Hraise in Hy. done.
Qed.

(** Sorted rows whose games all fill one window: each row is paired with
    another row of its own game. *)
Lemma sorted_rows_paired (rest : list string) (rs : list row) (entity : string) (g : nat) :
  entity_gap entity = Ok (Z.of_nat g) → 0 < Z.of_nat g →
  StronglySorted (rows_le ("league" :: "date" :: "gameid" :: rest)) rs →
  (∀ r1 r2, r1 ∈ rs → r2 ∈ rs → row_get "gameid" r1 = row_get "gameid" r2 →
     row_get "league" r1 = row_get "league" r2 ∧
     row_get "date" r1 = row_get "date" r2) →
  (∀ r, r ∈ rs →
     count_of (row_get "gameid" r) (row_get "gameid" <$> rs) = (2 * g)%nat) →
  ∃ opp, get_opponent rs entity = Ok opp ∧
    ∀ (i : nat) (r o : row), rs !! i = Some r → opp !! i = Some o →
      row_get "gameid" o = row_get "gameid" r ∧
      ∃ j : nat, j ≠ i ∧ rs !! j = Some o.
Proof.
  intros Hgap Hg Hsorted Hgame Hcount.
  destruct (rows_paired_within_game rs entity) as (opp & Hopp & Hsame).
  { apply (get_opponent_grouped entity g (length rs) Hgap Hg).
    - by rewrite length_fmap.
    - intros i j k a b Hijk Hi Hj Hk.
      apply list_lookup_fmap_Some in Hi as (ri & -> & Hi).
      apply list_lookup_fmap_Some in Hj as (rj & -> & Hj).
      apply list_lookup_fmap_Some in Hk as (rk & Hk' & Hk).
      by apply (sorted_games_contiguous rest rs Hsorted Hgame i j k ri rj rk).
    - intros v (r & -> & Hr)%list_elem_of_fmap. by apply Hcount. }
  exists opp. split; [done|]. intros i r o Hr Ho. split; [by eapply Hsame|].
  destruct (get_opponent_lookup _ _ _ _ Hgap Hopp) as [_ Hidx].
  pose proof (lookup_lt_Some _ _ _ Hr) as Hi.
  destruct (Hidx i Hi) as [E _]. rewrite Ho in E.
  exists (Z.to_nat (opponent_index (Z.of_nat g) (Z.of_nat i))). split; [|done].
  pose proof (opponent_index_distance (Z.of_nat g) (Z.of_nat i) Hg).
  pose proof (opponent_index_nonneg (Z.of_nat g) (Z.of_nat i) Hg). lia.
Qed.

(** X20: in either view, when every game of the table has exactly one
    window of rows (2 for 'team', 10 for 'player') and a single league and
    date, pairing the rows that [sort_data] returns succeeds and gives every
    row another row of its own game. *)
Theorem sort_data_pairs_within_game (split_on : option string) (entity : string)
    (g : nat) (df sorted : DataFrame) :
  (split_on = Some "team" ∧ entity = "team" ∧ g = 1%nat) ∨
  (split_on = Some "player" ∧ entity = "player" ∧ g = 5%nat) →
  sort_data split_on df = (df, Ok (Some sorted)) →
  (∀ r1 r2, r1 ∈ rows df → r2 ∈ rows df →
     row_get "gameid" r1 = row_get "gameid" r2 →
     row_get "league" r1 = row_get "league" r2 ∧
     row_get "date" r1 = row_get "date" r2) →
  (∀ r, r ∈ rows df →
     count_of (row_get "gameid" r) (row_get "gameid" <$> rows df) = (2 * g)%nat) →
  ∃ opp, get_opponent (rows sorted) entity = Ok opp ∧
    ∀ (i : nat) (r o : row), rows sorted !! i = Some r → opp !! i = Some o →
      row_get "gameid" o = row_get "gameid" r ∧
      ∃ j : nat, j ≠ i ∧ rows sorted !! j = Some o.
Proof.
  intros Hview Hrun Hgame Hcount.
  assert (∃ by_,
    ((split_on = Some "team" ∧ by_ = ["league"; "date"; "gameid"; "side"]) ∨
     (split_on = Some "player" ∧
      by_ = ["league"; "date"; "gameid"; "side"; "position"])) ∧
    entity_gap entity = Ok (Z.of_nat g) ∧ 0 < Z.of_nat g) as (by_ & Hby & Hgap & Hg).
  { destruct Hview as [(-> & -> & ->)|(-> & -> & ->)]; eexists;
      (split; [by (left + right)|]); split; (reflexivity || lia). }
  destruct (sort_data_Ok_inv _ _ _ _ Hby Hrun) as (_ & Hperm & Hsorted & rest & ->).
  apply (sorted_rows_paired rest (rows sorted) entity g); try done.
  - intros r1 r2 H1 H2. apply Hgame; by rewrite <- Hperm.
  - intros r Hr. rewrite (count_of_Permutation _ _ (row_get "gameid" <$> rows df))
      by (by apply fmap_Permutation).
    apply Hcount. by rewrite <- Hperm.
Qed.

Lemma sort_data_pairs_within_game_witness :
  ∃ opp,
    get_opponent
      [ ({[ "gameid" := Str "a"; "side" := Str "Blue" ]} : row);
        {[ "gameid" := Str "a"; "side" := Str "Red" ]};
        {[ "gameid" := Str "b"; "side" := Str "Blue" ]};
        {[ "gameid" := Str "b"; "side" := Str "Red" ]} ] "team" = Ok opp.
Proof.
  destruct (sort_data_pairs_within_game (Some "team") "team" 1
      (mkDataFrame ["league"; "date"; "gameid"; "side"]
         [ {[ "gameid" := Str "b"; "side" := Str "Red" ]};
           {[ "gameid" := Str "a"; "side" := Str "Blue" ]};
           {[ "gameid" := Str "b"; "side" := Str "Blue" ]};
           {[ "gameid" := Str "a"; "side" := Str "Red" ]} ])
      (mkDataFrame ["league"; "date"; "gameid"; "side"]
         [ {[ "gameid" := Str "a"; "side" := Str "Blue" ]};
           {[ "gameid" := Str "a"; "side" := Str "Red" ]};
           {[ "gameid" := Str "b"; "side" := Str "Blue" ]};
           {[ "gameid" := Str "b"; "side" := Str "Red" ]} ]))
    as (opp & Hopp & _).
  - left. split; [reflexivity|]. split; reflexivity.
  - vm_compute. reflexivity.
  - intros r1 r2 H1 H2 _. cbn [rows] in H1, H2.
    rewrite !elem_of_cons, elem_of_nil in H1, H2.
    destruct H1 as [->|[->|[->|[->|[]]]]], H2 as [->|[->|[->|[->|[]]]]];
      split; reflexivity.
  - intros r H. cbn [rows] in H. rewrite !elem_of_cons, elem_of_nil in H.
    destruct H as [->|[->|[->|[->|[]]]]]; vm_compute; reflexivity.
  - exists opp. exact Hopp.
Defined.

(** X21: the team view end to end: on a table without null game ids in
    which every game has a single league and date, the rows left by
    [remove_inconsistent_games] and ordered by [sort_data] are paired by
    [get_opponent] inside their game: every row gets the other row of its
    own game. *)
Theorem consistent_sorted_teams_paired (df kept sorted : DataFrame) :
  remove_inconsistent_games (Some "team") df = (df, Ok kept) →
  sort_data (Some "team") kept = (kept, Ok (Some sorted)) →
  (∀ r, r ∈ rows df → row_get "gameid" r ≠ NaN) →
  (∀ r1 r2, r1 ∈ rows df → r2 ∈ rows df →
     row_get "gameid" r1 = row_get "gameid" r2 →
     row_get "league" r1 = row_get "league" r2 ∧
     row_get "date" r1 = row_get "date" r2) →
  ∃ opp, get_opponent (rows sorted) "team" = Ok opp ∧
    ∀ (i : nat) (r o : row), rows sorted !! i = Some r → opp !! i = Some o →
      row_get "gameid" o = row_get "gameid" r ∧
      ∃ j : nat, j ≠ i ∧ rows sorted !! j = Some o.
Proof.
  intros Hfilter Hsort Hnn Hgame.
  destruct (decide ("gameid" ∈ columns df)) as [Hc|Hc];
    [|by rewrite remove_inconsistent_games_KeyError in Hfilter].
  rewrite remove_inconsistent_games_run in Hfilter by done.
  injection Hfilter as <-.
  set (bad := (filter _ (value_counts (row_get "gameid" <$> rows df))).*1) in *.
  destruct (sort_data_Ok_inv (Some "team") _ _ _ (or_introl (conj eq_refl eq_refl)) Hsort)
    as (_ & Hperm & Hsorted & rest & [= <-]).
  cbn [rows] in Hperm.
  assert (∀ r, r ∈ rows sorted → r ∈ rows df ∧ row_get "gameid" r ∉ bad) as Hkept.
  { intros r Hr. rewrite Hperm in Hr.
    apply list_elem_of_filter in Hr as [Hr ?]. split; [done|].
    by apply negb_true_iff, bool_decide_eq_false in Hr. }
  apply (sorted_rows_paired ["side"] (rows sorted) "team" 1 eq_refl); [lia|done|..].
  - intros r1 r2 [H1 _]%Hkept [H2 _]%Hkept. by apply Hgame.
  - intros r Hr. destruct (Hkept r Hr) as [Hin Hgood].
    rewrite (count_of_Permutation _ _ _ (fmap_Permutation _ _ _ Hperm)).
    rewrite count_of_filter_fmap.
    + destruct (inconsistent_count (Some "team")
                  (count_of (row_get "gameid" r) (row_get "gameid" <$> rows df)))
        eqn:E.
      * destruct Hgood. apply elem_of_inconsistent.
        split; [by apply Hnn|]. split; [by apply list_elem_of_fmap_2|done].
      * unfold inconsistent_count in E. rewrite decide_True in E by done.
        by apply negb_false_iff, Nat.eqb_eq in E.
    + intros r' E. apply negb_true_iff, bool_decide_eq_false. by rewrite E.
Qed.

Lemma consistent_sorted_teams_paired_witness :
  ∃ opp,
    get_opponent
      [ ({[ "gameid" := Str "a"; "side" := Str "Blue" ]} : row);
        {[ "gameid" := Str "a"; "side" := Str "Red" ]} ] "team" = Ok opp.
Proof.
  destruct (consistent_sorted_teams_paired
      (mkDataFrame ["league"; "date"; "gameid"; "side"]
         [ {[ "gameid" := Str "b"; "side" := Str "Red" ]};
           {[ "gameid" := Str "a"; "side" := Str "Red" ]};
           {[ "gameid" := Str "a"; "side" := Str "Blue" ]} ])
      (mkDataFrame ["league"; "date"; "gameid"; "side"]
         [ {[ "gameid" := Str "a"; "side" := Str "Red" ]};
           {[ "gameid" := Str "a"; "side" := Str "Blue" ]} ])
      (mkDataFrame ["league"; "date"; "gameid"; "side"]
         [ {[ "gameid" := Str "a"; "side" := Str "Blue" ]};
           {[ "gameid" := Str "a"; "side" := Str "Red" ]} ]))
    as (opp & Hopp & _).
  - vm_compute. reflexivity.
  - vm_compute. reflexivity.
  - intros r H. cbn [rows] in H. rewrite !elem_of_cons, elem_of_nil in H.
    destruct H as [->|[->|[->|[]]]]; discriminate.
  - intros r1 r2 H1 H2 _. cbn [rows] in H1, H2.
    rewrite !elem_of_cons, elem_of_nil in H1, H2.
    destruct H1 as [->|[->|[->|[]]]], H2 as [->|[->|[->|[]]]]; split; reflexivity.
  - exists opp. exact Hopp.
Defined.

(** ** The excluded games of [main] *)

(** X22: the exclusion step of [main] keeps the columns and, in their order
    and as often as they occur, exactly the rows whose game id is in neither
    hard-coded list (rows without a game id stay); applied to its own result
    it changes nothing; on a table without a [gameid] column the attribute
    access raises [AttributeError]. *)
Theorem main_exclude_games_spec (data : DataFrame) :
  ("gameid" ∈ columns data →
   ∃ out, main_exclude_games data = Ok out ∧
     columns out = columns data ∧
     rows out =
       filter (λ r, row_get "gameid" r ∉ invalid_games ++ player_missing_games)
              (rows data) ∧
     rows out `sublist_of` rows data ∧
     (∀ r, r ∈ rows out ↔
           r ∈ rows data ∧ row_get "gameid" r ∉ invalid_games ++ player_missing_games) ∧
     main_exclude_games out = Ok out) ∧
  ("gameid" ∉ columns data →
   main_exclude_games data = Raise (AttributeError "gameid")).
Proof.
  assert (∀ d, "gameid" ∈ columns d →
            main_exclude_games d =
              Ok (mkDataFrame (columns d)
                    (filter (λ r, negb (bool_decide
                               (row_get "gameid" r ∈ invalid_games ++ player_missing_games))
                             = true) (rows d)))) as Hrun.
  { intros d Hd. unfold main_exclude_games, DataFrame_getattr.
    rewrite decide_True, getitem_Ok by done. simpl.
    unfold boolean_index. by rewrite isin_fmap, mask_not_fmap, select_fmap. }
  split.
  - intros Hc. rewrite Hrun by done. eexists. split; [done|]. cbn [columns rows].
    split; [done|]. split; [|split; [apply sublist_filter|split]].
    + apply list_filter_iff. intros r.
      by rewrite negb_true_iff, bool_decide_eq_false.
    + intros r. rewrite list_elem_of_filter, negb_true_iff, bool_decide_eq_false. tauto.
    + rewrite Hrun by done. cbn [columns rows]. do 2 f_equal.
      apply filter_all, Forall_forall. by intros r [? _]%list_elem_of_filter.
  - intros Hc. unfold main_exclude_games, DataFrame_getattr.
    by rewrite decide_False.
Qed.

Lemma main_exclude_games_spec_witness :
  ∃ out,
    main_exclude_games
      (mkDataFrame ["gameid"]
         [ {[ "gameid" := Str "g" ]}; {[ "gameid" := Str "NA1/3754345055" ]};
           {[ "gameid" := Str "g" ]} ])
    = Ok out ∧
    rows out =
      filter (λ r, row_get "gameid" r ∉ invalid_games ++ player_missing_games)
        [ ({[ "gameid" := Str "g" ]} : row); {[ "gameid" := Str "NA1/3754345055" ]};
          {[ "gameid" := Str "g" ]} ].
Proof.
  destruct (proj1 (main_exclude_games_spec
      (mkDataFrame ["gameid"]
         [ {[ "gameid" := Str "g" ]}; {[ "gameid" := Str "NA1/3754345055" ]};
           {[ "gameid" := Str "g" ]} ])))
    as (out & Hrun & _ & Hrows & _).
  - apply list_elem_of_here.
  - exists out. split; [exact Hrun|exact Hrows].
Defined.

(** ** The rows a flattened table holds *)

Lemma tail1_keys (by_ : list string) (rs : list row) :
  group_key by_ <$> tail1 by_ rs
  = remove_dups (filter (λ k, NaN ∉ k) (group_key by_ <$> rs)).
Proof.
  induction rs as [|r rs IH]; csimpl; [done|].
  rewrite filter_cons.
  destruct (decide (NaN ∈ group_key by_ r)) as [Hnan|Hnan].
  - rewrite decide_True by (by left).
    rewrite (decide_False (P := NaN ∉ group_key by_ r)) by (intros H; by apply H).
    done.
  - rewrite (decide_True (P := NaN ∉ group_key by_ r)) by done. csimpl.
    destruct (decide (group_key by_ r ∈ group_key by_ <$> rs)) as [Hin|Hin].
    + rewrite decide_True by (by right).
      case_decide as H; [done|]. destruct H. by apply list_elem_of_filter.
    + rewrite decide_False by (intros [?|?]; done).
      case_decide as H; [by apply list_elem_of_filter in H as [_ ?]|].
      csimpl. by rewrite IH.
Qed.

Lemma group_key_single_elem (c : cell) (rs : list row) :
  [c] ∈ group_key ["teamid"] <$> rs ↔ c ∈ row_get "teamid" <$> rs.
Proof.
  rewrite !list_elem_of_fmap. split.
  - intros (r & [= ->] & Hr). eauto.
  - intros (r & -> & Hr). eauto.
Qed.

(** X23: the rows [latest_teams] selects are rows of the table, one for
    each distinct non-null team id and none for a null id, so the flattened
    team table has as many rows as the table has distinct non-null team
    ids. *)
Theorem latest_teams_one_row_per_id (team_data latest : DataFrame) :
  latest_teams team_data = Ok latest →
  columns latest = columns team_data ∧
  (∀ r, r ∈ rows latest → r ∈ rows team_data) ∧
  NoDup (row_get "teamid" <$> rows latest) ∧
  (∀ c, c ∈ row_get "teamid" <$> rows latest ↔
        c ≠ NaN ∧ c ∈ row_get "teamid" <$> rows team_data) ∧
  length (rows latest)
    = length (remove_dups (filter (λ c, c ≠ NaN) (row_get "teamid" <$> rows team_data))) ∧
  ∀ out, flattened_teams team_data = Ok out → length (rows out) = length (rows latest).
Proof.
  unfold flattened_teams, latest_teams.
  destruct (sort_values team_data ["teamid"; "date"]) as [sorted|] eqn:Hsort; [|done].
  simpl. apply sort_values_columns in Hsort as [Hcols Hrows].
  unfold groupby_tail1. destruct (traverse _ ["teamid"]); simpl; [|done].
  intros [= <-]. cbn [columns rows].
  assert (rows sorted ≡ₚ rows team_data) as Hperm
    by (rewrite Hrows; apply merge_sort_Permutation).
  pose proof (tail1_keys ["teamid"] (rows sorted)) as Hkeys.
  assert (∀ rs : list row, group_key ["teamid"] <$> rs
                           = (λ c, [c]) <$> (row_get "teamid" <$> rs)) as Hkey.
  { intros rs. by rewrite <- list_fmap_compose. }
  assert (NoDup (row_get "teamid" <$> tail1 ["teamid"] (rows sorted))) as Hnodup.
  { apply (NoDup_fmap_1 (λ c : cell, [c])). rewrite <- Hkey, Hkeys.
    apply NoDup_remove_dups. }
  assert (∀ c, c ∈ row_get "teamid" <$> tail1 ["teamid"] (rows sorted) ↔
               c ≠ NaN ∧ c ∈ row_get "teamid" <$> rows team_data) as Hmem.
  { intros c. rewrite <- (fmap_Permutation (row_get "teamid") _ _ Hperm).
    rewrite <- !group_key_single_elem, Hkeys, elem_of_remove_dups, list_elem_of_filter.
    rewrite list_elem_of_singleton. split; intros [? ?]; split; congruence. }
  split_and!; try done.
  - intros r Hr%tail1_subseteq. by rewrite <- Hperm.
  - rewrite <- (length_fmap (row_get "teamid")).
    apply Permutation_length, NoDup_Permutation; [done|apply NoDup_remove_dups|].
    intros c. rewrite Hmem, elem_of_remove_dups, list_elem_of_filter. done.
  - intros out. unfold getitem_list. destruct (list_find _ _) as [[? ?]|]; [done|].
    simpl. intros [= <-]. unfold rename. cbn [rows]. by rewrite !length_fmap.
Qed.

Lemma latest_teams_one_row_per_id_witness :
  length (rows (mkDataFrame ["teamid"; "date"]
                  [ {[ "teamid" := Str "t1"; "date" := Date 30 ]};
                    {[ "teamid" := Str "t2"; "date" := Date 10 ]} ]))
  = length (remove_dups (filter (λ c, c ≠ NaN)
      (row_get "teamid" <$>
         rows (mkDataFrame ["teamid"; "date"]
                 [ {[ "teamid" := Str "t1"; "date" := Date 20 ]};
                   {[ "teamid" := NaN; "date" := Date 40 ]};
                   {[ "teamid" := Str "t2"; "date" := Date 10 ]};
                   {[ "teamid" := Str "t1"; "date" := Date 30 ]} ])))).
Proof.
  apply (latest_teams_one_row_per_id
    (mkDataFrame ["teamid"; "date"]
       [ {[ "teamid" := Str "t1"; "date" := Date 20 ]};
         {[ "teamid" := NaN; "date" := Date 40 ]};
         {[ "teamid" := Str "t2"; "date" := Date 10 ]};
         {[ "teamid" := Str "t1"; "date" := Date 30 ]} ])).
  vm_compute. reflexivity.
Defined.

(** ** Identity backfill on its own *)

Lemma fillna_idempotent (a b : list cell) :
  fillna (fillna a b) b = fillna a b.
Proof.
  unfold fillna. revert b. induction a as [|x a IH]; intros [|y b]; simpl; try done.
  rewrite IH. by destruct x, y.
Qed.

Lemma fillna_keeps (a b : list cell) (i : nat) (x : cell) :
  a !! i = Some x → x ≠ NaN → length a = length b → fillna a b !! i = Some x.
Proof.
  intros Ha Hx Hlen.
  destruct (lookup_lt_is_Some_2 b i) as [y Hy].
  { apply lookup_lt_Some in Ha. lia. }
  rewrite (fillna_lookup _ _ _ _ _ Ha Hy). by destruct x.
Qed.

Lemma setitem_again (df df' : DataFrame) (c : string) (values : list cell) :
  setitem df c values = Ok df' → setitem df' c values = Ok df'.
Proof.
  unfold setitem. case_decide as Hlen; [|done]. intros [= <-]. cbn [columns rows].
  rewrite decide_True by (rewrite length_zip_with; lia).
  f_equal. f_equal.
  - destruct (decide (c ∈ columns df)) as [Hin|Hin].
    + by rewrite decide_True.
    + rewrite decide_True; [done|]. apply elem_of_app. right. by left.
  - clear. revert values. induction (rows df) as [|r rs IH]; intros [|v vs]; simpl; try done.
    by rewrite insert_insert_eq, IH.
Qed.

(** X24: [fill_null_team_ids] does nothing unless [split_on] is 'player'
    (a team view keeps its null team ids).  For 'player' it returns
    [self.oe_data] with every null [teamid] replaced by the row's
    [teamname], non-null ids and all other columns untouched; running it
    again changes nothing; without a [teamid] column it raises [KeyError]. *)
Theorem fill_null_team_ids_spec (split_on : string) (df : DataFrame) :
  (split_on ≠ "player" → fill_null_team_ids split_on df = (df, Ok df)) ∧
  (∀ t tn, getitem df "teamid" = Ok t → getitem df "teamname" = Ok tn →
     ∃ df', fill_null_team_ids "player" df = (df', Ok df') ∧
       getitem df' "teamid" = Ok (fillna t tn) ∧
       (∀ c, c ≠ "teamid" → getitem df' c = getitem df c) ∧
       columns df' = columns df ∧
       (∀ i x, t !! i = Some x → x ≠ NaN → fillna t tn !! i = Some x) ∧
       fill_null_team_ids "player" df' = (df', Ok df')) ∧
  ("teamid" ∉ columns df →
   fill_null_team_ids "player" df = (df, Raise (KeyError "teamid"))).
Proof.
  split_and!.
  - intros Hs. unfold fill_null_team_ids.
    destruct (String.eqb_spec split_on "player"); [done|]. reflexivity.
  - intros t tn Ht Htn.
    assert (length t = length tn) as Hlen by (apply getitem_length in Ht, Htn; lia).
    destruct (oe_fill_unfold "teamid" "teamname" df t tn Ht Htn)
      as (s1 & Hset & Hget & Hoth & Hcols & _).
    assert (∀ s a s', getitem s "teamid" = Ok a → getitem s "teamname" = Ok tn →
              setitem s "teamid" (fillna a tn) = Ok s' →
              fill_null_team_ids "player" s = (s', Ok s')) as Hrun.
    { intros s a s' Ha Hb Hs. unfold fill_null_team_ids.
      change (String.eqb "player" "player") with true. cbv iota.
      unfold mbind, M_bind. by rewrite !oe_getitem_run, Ha, Hb, oe_setitem_run, Hs. }
    exists s1. split_and!; try done.
    + by apply (Hrun df t).
    + intros i x Hi Hx. by apply fillna_keeps.
    + apply (Hrun s1 (fillna t tn)); [done|by rewrite Hoth|].
      rewrite fillna_idempotent. by apply (setitem_again df).
  - intros Hc. unfold fill_null_team_ids.
    change (String.eqb "player" "player") with true. cbv iota.
    unfold mbind, M_bind. rewrite oe_getitem_run. unfold getitem.
    by rewrite decide_False.
Qed.

Lemma fill_null_team_ids_spec_witness :
  ∃ df',
    fill_null_team_ids "player"
      (mkDataFrame ["teamid"; "teamname"]
         [ {[ "teamid" := NaN; "teamname" := Str "A" ]};
           {[ "teamid" := Str "b"; "teamname" := Str "B" ]} ])
    = (df', Ok df') ∧
    getitem df' "teamid" = Ok [Str "A"; Str "b"] ∧
    fill_null_team_ids "player" df' = (df', Ok df').
Proof.
  edestruct (proj1 (proj2 (fill_null_team_ids_spec "player"
      (mkDataFrame ["teamid"; "teamname"]
         [ {[ "teamid" := NaN; "teamname" := Str "A" ]};
           {[ "teamid" := Str "b"; "teamname" := Str "B" ]} ]))))
    as (df' & Hrun & Hget & _ & _ & _ & Hagain); [reflexivity|reflexivity|].
  exists df'. split; [exact Hrun|]. split; [exact Hget|exact Hagain].
Defined.

(** ** The player view through all the stages of [clean_data] *)

Lemma replace_names_inv (column : string) (replacements : option (gmap string string))
    (s s' : DataFrame) (u : unit) :
  replace_names column replacements s = (s', Ok u) →
  columns s' = columns s ∧ length (rows s') = length (rows s).
Proof.
  unfold replace_names.
  destruct replacements as [d|]; [destruct (decide (d = ∅))|];
    try (by intros [= <- _]).
  unfold mbind, M_bind. rewrite oe_getitem_run.
  destruct (getitem s column) as [col|] eqn:Hcol; [|done].
  rewrite oe_setitem_run.
  destruct (setitem s column _) as [s1|] eqn:Hset; [|done].
  intros [= <- _]. apply setitem_columns in Hset as [Hc Hl].
  apply getitem_inv in Hcol as [Hin _]. by rewrite decide_True in Hc.
Qed.

Lemma normalize_names_inv
    (team_replacements player_replacements : option (gmap string string))
    (s s' r : DataFrame) :
  normalize_names team_replacements player_replacements s = (s', Ok r) →
  r = s' ∧ columns s' = columns s ∧ length (rows s') = length (rows s).
Proof.
  intros Hrun. split; [by eapply normalize_names_returns_state|].
  revert Hrun. unfold normalize_names, mbind, M_bind, get_oe_data.
  destruct (replace_names _ _ s) as [s1 [[]|]] eqn:H1; [|done].
  destruct (replace_names _ _ s1) as [s2 [[]|]] eqn:H2; [|done].
  intros [= <- _].
  apply replace_names_inv in H1 as [C1 L1]. apply replace_names_inv in H2 as [C2 L2].
  split; congruence.
Qed.

Lemma oe_assign_opponent_inv (target source : string) (s s' : DataFrame) (u : unit) :
  oe_assign_opponent target source "player" s = (s', Ok u) →
  columns s' = (if decide (target ∈ columns s) then columns s else columns s ++ [target]) ∧
  length (rows s') = length (rows s) ∧
  (∃ k : nat, length (rows s) = (10 * k)%nat) ∧
  ∃ col opp, getitem s source = Ok col ∧ get_opponent col "player" = Ok opp ∧
    getitem s' target = Ok opp ∧ ∀ c, c ≠ target → getitem s' c = getitem s c.
Proof.
  rewrite oe_assign_opponent_unfold.
  destruct (getitem s source) as [col|] eqn:Hcol; [|done].
  destruct (get_opponent col "player") as [opp|] eqn:Hopp; [|done].
  destruct (setitem s target opp) as [s1|] eqn:Hset; [|done].
  intros [= <-].
  pose proof (setitem_columns _ _ _ _ Hset) as [Hc Hl].
  split; [done|]. split; [done|]. split.
  - destruct (get_opponent_Ok_windows col opp "player" 5) as [k Hk]; [by right|done|].
    exists k. apply getitem_length in Hcol. lia.
  - exists col, opp.
    destruct (setitem_Ok s target opp) as (s2 & Hset2 & Hget & Hoth).
    { apply get_opponent_Ok_inv in Hopp as [-> _]. by eapply getitem_length. }
    rewrite Hset in Hset2. injection Hset2 as <-. done.
Qed.

Lemma foldl_chain {A B} (f : A → B → A) (a0 a1 a2 a3 a4 a5 : A) (t1 t2 t3 t4 t5 : B) :
  a1 = f a0 t1 → a2 = f a1 t2 → a3 = f a2 t3 → a4 = f a3 t4 → a5 = f a4 t5 →
  a5 = foldl f a0 [t1; t2; t3; t4; t5].
Proof. by intros -> -> -> -> ->. Qed.

Lemma enrich_opponent_metrics_player_inv (s s' r : DataFrame) :
  enrich_opponent_metrics "player" s = (s', Ok r) →
  r = s' ∧
  "playerid" ∈ columns s ∧
  columns s' =
    foldl (λ cs c, if decide (c ∈ cs) then cs else cs ++ [c]) (columns s)
      ["opponentteam"; "opponentteamid"; "opponentname"; "opponentid"; "opponent_egpm"] ∧
  length (rows s') = length (rows s) ∧
  ∃ k : nat, length (rows s) = (10 * k)%nat.
Proof.
  unfold enrich_opponent_metrics. change (String.eqb "player" "player") with true.
  cbv iota. unfold mbind, M_bind. rewrite !oe_getitem_run.
  destruct (getitem s "playerid") as [p|] eqn:Hp; [|done].
  destruct (getitem s "playername") as [pn|] eqn:Hpn; [|done].
  rewrite oe_setitem_run.
  destruct (setitem s "playerid" _) as [s1|] eqn:Hset; [|done].
  apply setitem_columns in Hset as [Hc1 Hl1].
  apply getitem_inv in Hp as [Hin _]. rewrite decide_True in Hc1 by done.
  destruct (oe_assign_opponent _ _ _ s1) as [s2 [[]|]] eqn:H2; [|done].
  destruct (oe_assign_opponent _ _ _ s2) as [s3 [[]|]] eqn:H3; [|done].
  destruct (oe_assign_opponent _ _ _ s3) as [s4 [[]|]] eqn:H4; [|done].
  destruct (oe_assign_opponent _ _ _ s4) as [s5 [[]|]] eqn:H5; [|done].
  destruct (oe_assign_opponent _ _ _ s5) as [s6 [[]|]] eqn:H6; [|done].
  unfold get_oe_data. intros [= <- <-].
  apply oe_assign_opponent_inv in H2 as (C2 & L2 & [k Hk] & _).
  apply oe_assign_opponent_inv in H3 as (C3 & L3 & _).
  apply oe_assign_opponent_inv in H4 as (C4 & L4 & _).
  apply oe_assign_opponent_inv in H5 as (C5 & L5 & _).
  apply oe_assign_opponent_inv in H6 as (C6 & L6 & _).
  split; [done|]. split; [done|]. split.
  - rewrite Hc1 in C2. exact (foldl_chain _ _ _ _ _ _ _ _ _ _ _ _ C2 C3 C4 C5 C6).
  - split; [lia|]. exists k. lia.
Qed.

Lemma getitem_list_length (df ids : DataFrame) (cs : list string) :
  getitem_list df cs = Ok ids → length (rows ids) = length (rows df).
Proof.
  unfold getitem_list. destruct (list_find _ cs) as [[? ?]|]; [done|].
  intros [= <-]. cbn [rows]. by rewrite length_fmap.
Qed.

Lemma fill_null_team_ids_player_inv (s s' r : DataFrame) :
  fill_null_team_ids "player" s = (s', Ok r) →
  r = s' ∧ columns s' = columns s ∧ length (rows s') = length (rows s).
Proof.
  unfold fill_null_team_ids. change (String.eqb "player" "player") with true.
  cbv iota. unfold mbind, M_bind. rewrite !oe_getitem_run.
  destruct (getitem s "teamid") as [t|] eqn:Ht; [|done].
  destruct (getitem s "teamname") as [tn|] eqn:Htn; [|done].
  rewrite oe_setitem_run.
  destruct (setitem s "teamid" _) as [s1|] eqn:Hset; [|done].
  unfold get_oe_data. intros [= <- <-].
  apply setitem_columns in Hset as [Hc Hl].
  apply getitem_inv in Ht as [Hin _]. by rewrite decide_True in Hc.
Qed.

(** X25: when the stages of [clean_data] that follow [format_data_types]
    return for 'player', what they return is [self.oe_data]; its columns are
    the player view followed by the five opponent columns, in the order they
    are assigned; it has no more rows than the input, and their number is a
    multiple of ten, since the pairing indexes five rows ahead in the first
    half of every window of ten. *)
Theorem clean_data_stages_player_post
    (team_replacements player_replacements : option (gmap string string))
    (df df' out : DataFrame) :
  clean_data_stages (Some "player") team_replacements player_replacements df
    = (df', Ok out) →
  out = df' ∧
  columns out = player_columns ++
    ["opponentteam"; "opponentteamid"; "opponentname"; "opponentid"; "opponent_egpm"] ∧
  (length (rows out) ≤ length (rows df))%nat ∧
  ∃ k : nat, length (rows out) = (10 * k)%nat.
Proof.
  unfold clean_data_stages.
  unfold mbind at 1. unfold M_bind at 1.
  destruct (clean_data_row_filters df) as [s1 [[]|e]] eqn:Hfilt; [|done].
  assert (length (rows s1) ≤ length (rows df))%nat as Hl1.
  { apply clean_data_row_filters_Ok in Hfilt as (_ & _ & ->). cbn [rows].
    repeat (etrans; [apply length_filter|]). done. }
  clear Hfilt.
  unfold mbind at 1. unfold M_bind at 1.
  destruct (normalize_names _ _ s1) as [s2 [r2|e]] eqn:Hnorm; [|done].
  apply normalize_names_inv in Hnorm as (-> & _ & Hl2).
  unfold mbind at 1. unfold M_bind at 1. unfold set_oe_data at 1.
  unfold mbind at 1. unfold M_bind at 1.
  rewrite (subset_data_run (Some "player") player_columns) by (right; done).
  destruct (getitem_list s2 player_columns) as [sub|e] eqn:Hsub; [|done].
  pose proof (getitem_list_length _ _ _ Hsub) as Hl3.
  apply getitem_list_columns in Hsub.
  unfold mbind at 1. unfold M_bind at 1. unfold set_oe_data at 1.
  unfold mbind at 1. unfold M_bind at 1.
  rewrite remove_inconsistent_games_run
    by (rewrite Hsub; unfold player_columns; right; left).
  unfold mbind at 1. unfold M_bind at 1. unfold set_oe_data at 1.
  set (kept := mkDataFrame (columns sub) _).
  assert (length (rows kept) ≤ length (rows sub))%nat as Hl4
    by (unfold kept; cbn [rows]; apply length_filter).
  unfold mbind at 1. unfold M_bind at 1.
  unfold sort_data. unfold mbind at 1. unfold M_bind at 1. unfold get_oe_data at 1.
  rewrite decide_True by done.
  unfold mbind at 1. unfold M_bind at 1. unfold lift at 1.
  destruct (sort_values kept _) as [sorted|e] eqn:Hsort; [|done].
  apply sort_values_columns in Hsort as [Hcols Hrows].
  assert (length (rows sorted) = length (rows kept)) as Hl5
    by (rewrite Hrows; apply Permutation_length, merge_sort_Permutation).
  unfold mret, M_ret.
  unfold mbind at 1. unfold M_bind at 1. unfold set_oe_data at 1.
  unfold mbind at 1. unfold M_bind at 1.
  unfold clean_data_backfill_and_enrich.
  unfold mbind at 1. unfold M_bind at 1.
  destruct (fill_null_team_ids "player" sorted) as [s6 [r6|e]] eqn:Hfill; [|done].
  apply fill_null_team_ids_player_inv in Hfill as (-> & Hc6 & Hl6).
  unfold mbind at 1. unfold M_bind at 1. unfold set_oe_data at 1.
  unfold mbind at 1. unfold M_bind at 1.
  destruct (enrich_opponent_metrics "player" s6) as [s7 [r7|e]] eqn:Henr; [|done].
  apply enrich_opponent_metrics_player_inv in Henr as (-> & _ & Hc7 & Hl7 & k & Hk).
  unfold set_oe_data, get_oe_data. intros [= <- <-].
  split; [done|]. split.
  - rewrite Hc7, Hc6, Hcols. unfold kept. cbn [columns]. rewrite Hsub. reflexivity.
  - split; [lia|]. exists k. lia.
Qed.

Lemma clean_data_stages_player_post_witness :
  ∃ s out,
    clean_data_stages (Some "player") None None
      (mkDataFrame player_columns
         ((λ i : Z, {[ "gameid" := Str "g1"; "league" := Str "LCK"; "date" := Date 1;
                       "side" := (if decide (i < 5) then Str "Blue" else Str "Red");
                       "position" := Num (Qc_of_Z (i `mod` 5));
                       "playername" := Num (Qc_of_Z i); "teamname" := Str "T";
                       "earned gpm" := Num (Qc_of_Z i) ]} : row)
            <$> [0; 1; 2; 3; 4; 5; 6; 7; 8; 9]))
    = (s, Ok out) ∧ out = s ∧
    columns out = player_columns ++
      ["opponentteam"; "opponentteamid"; "opponentname"; "opponentid"; "opponent_egpm"].
Proof.
  assert (match (clean_data_stages (Some "player") None None
      (mkDataFrame player_columns
         ((λ i : Z, {[ "gameid" := Str "g1"; "league" := Str "LCK"; "date" := Date 1;
                       "side" := (if decide (i < 5) then Str "Blue" else Str "Red");
                       "position" := Num (Qc_of_Z (i `mod` 5));
                       "playername" := Num (Qc_of_Z i); "teamname" := Str "T";
                       "earned gpm" := Num (Qc_of_Z i) ]} : row)
            <$> [0; 1; 2; 3; 4; 5; 6; 7; 8; 9]))).2
          with Ok _ => True | Raise _ => False end) as Hok by (vm_compute; exact I).
  revert Hok.
  destruct (clean_data_stages (Some "player") None None
      (mkDataFrame player_columns
         ((λ i : Z, {[ "gameid" := Str "g1"; "league" := Str "LCK"; "date" := Date 1;
                       "side" := (if decide (i < 5) then Str "Blue" else Str "Red");
                       "position" := Num (Qc_of_Z (i `mod` 5));
                       "playername" := Num (Qc_of_Z i); "teamname" := Str "T";
                       "earned gpm" := Num (Qc_of_Z i) ]} : row)
            <$> [0; 1; 2; 3; 4; 5; 6; 7; 8; 9]))) as [s [out|e]] eqn:E; intros Hok.
  - exists s, out. split; [reflexivity|].
    destruct (clean_data_stages_player_post None None _ s out E) as (Hout & Hcols & _).
    split; [exact Hout|exact Hcols].
  - destruct Hok.
Defined.
